(** * KLAUS invoice extraction service: pattern extractor and correction analysis

    A shallow embedding of [ml-service/ml_service.py] (the pattern based
    field extractor [extract_with_patterns]) and of
    [ml-service/train_model.py] (the correction analysis
    [analyze_corrections]), followed by the properties of these functions.

    - Python strings are sequences of Unicode code points, so a string is a
      list of code points here.
    - The regular expressions of the source are kept as the source writes
      them; [re_compile] turns them into the syntax tree that the
      backtracking matcher [rmatch] runs with the priorities of [re]
      (leftmost match, greedy repetition, alternatives in order).
    - A [float] is a binary64 number with its exact value: [py_float]
      rounds a decimal string as [float()] does.
    - The dictionaries of [train_model.py] are finite maps, equal when they
      hold the same keys with the same values, as [==] has it in Python. *)

From Stdlib Require Import ZArith NArith QArith List String Ascii Lia Permutation
  DecimalString.
From stdpp Require Import gmap strings list sorting.

Local Open Scope N_scope.

(** ** Python strings *)

(** A Python [str]: the list of its code points. *)
Abbreviation pystr := (list N).

(** Decoding of the UTF-8 bytes of a literal (the source files are UTF-8).
    [pending] continuation bytes are still expected for the code point whose
    high bits are [acc]. *)
Fixpoint utf8_decode (pending : nat) (acc : N) (bs : list N) : pystr :=
  match bs with
  | [] => []
  | b :: bs' =>
      match pending with
      | O =>
          if b <? 128 then b :: utf8_decode 0 0 bs'
          else if b <? 224 then utf8_decode 1 (N.land b 31) bs'
          else if b <? 240 then utf8_decode 2 (N.land b 15) bs'
          else utf8_decode 3 (N.land b 7) bs'
      | S O => (acc * 64 + N.land b 63) :: utf8_decode 0 0 bs'
      | S p => utf8_decode p (acc * 64 + N.land b 63) bs'
      end
  end.

(** The Python string written by a literal of this file. *)
Definition py (s : string) : pystr :=
  utf8_decode 0 0 (map N_of_ascii (list_ascii_of_string s)).

(** *** Character classification

    The tables below are those of the Unicode database of CPython 3.11
    (Unicode 14.0.0), read as ranges of code points: the white space of
    [str.isspace], the decimal digits of [str.isdecimal], the alphanumeric
    characters of [str.isalnum], the simple lower-case mapping, the extra
    cases of [re], and the properties Cased and Case_Ignorable. *)

(** Membership in a table of ranges [(lo, hi)], which is sorted. *)
Fixpoint in_ranges (table : list (N * N)) (c : N) : bool :=
  match table with
  | [] => false
  | (lo, hi) :: rest =>
      if c <? lo then false else if c <=? hi then true else in_ranges rest c
  end.

(** [str.isspace] on one character, which is also the class [\s]. *)
Definition is_space (c : N) : bool :=
  ((9 <=? c) && (c <=? 13)) || ((28 <=? c) && (c <=? 32))
  || (c =? 133) || (c =? 160) || (c =? 5760)
  || ((8192 <=? c) && (c <=? 8202))
  || (c =? 8232) || (c =? 8233) || (c =? 8239) || (c =? 8287) || (c =? 12288).

(** The class [0-9]. *)
Definition is_ascii_digit (c : N) : bool := (48 <=? c) && (c <=? 57).

(** The decimal digits ([str.isdecimal]), ten to a number system. *)
Definition decimal_ranges : list (N * N) :=
  [ (48, 57); (1632, 1641); (1776, 1785); (1984, 1993); (2406, 2415);
    (2534, 2543); (2662, 2671); (2790, 2799); (2918, 2927); (3046, 3055);
    (3174, 3183); (3302, 3311); (3430, 3439); (3558, 3567); (3664, 3673);
    (3792, 3801); (3872, 3881); (4160, 4169); (4240, 4249); (6112, 6121);
    (6160, 6169); (6470, 6479); (6608, 6617); (6784, 6793); (6800, 6809);
    (6992, 7001); (7088, 7097); (7232, 7241); (7248, 7257); (42528, 42537);
    (43216, 43225); (43264, 43273); (43472, 43481); (43504, 43513);
    (43600, 43609); (44016, 44025); (65296, 65305); (66720, 66729);
    (68912, 68921); (69734, 69743); (69872, 69881); (69942, 69951);
    (70096, 70105); (70384, 70393); (70736, 70745); (70864, 70873);
    (71248, 71257); (71360, 71369); (71472, 71481); (71904, 71913);
    (72016, 72025); (72784, 72793); (73040, 73049); (73120, 73129);
    (92768, 92777); (92864, 92873); (93008, 93017); (120782, 120831);
    (123200, 123209); (123632, 123641); (125264, 125273); (130032, 130041) ].

(** The class [\d]: the decimal digits of every script. *)
Definition is_digit (c : N) : bool := in_ranges decimal_ranges c.

(** The alphanumeric characters ([str.isalnum]). *)
Definition alnum_ranges : list (N * N) :=
  [ (48, 57); (65, 90); (97, 122); (170, 170); (178, 179); (181, 181);
    (185, 186); (188, 190); (192, 214); (216, 246); (248, 705); (710, 721);
    (736, 740); (748, 748); (750, 750); (880, 884); (886, 887); (890, 893);
    (895, 895); (902, 902); (904, 906); (908, 908); (910, 929); (931, 1013);
    (1015, 1153); (1162, 1327); (1329, 1366); (1369, 1369); (1376, 1416);
    (1488, 1514); (1519, 1522); (1568, 1610); (1632, 1641); (1646, 1647);
    (1649, 1747); (1749, 1749); (1765, 1766); (1774, 1788); (1791, 1791);
    (1808, 1808); (1810, 1839); (1869, 1957); (1969, 1969); (1984, 2026);
    (2036, 2037); (2042, 2042); (2048, 2069); (2074, 2074); (2084, 2084);
    (2088, 2088); (2112, 2136); (2144, 2154); (2160, 2183); (2185, 2190);
    (2208, 2249); (2308, 2361); (2365, 2365); (2384, 2384); (2392, 2401);
    (2406, 2415); (2417, 2432); (2437, 2444); (2447, 2448); (2451, 2472);
    (2474, 2480); (2482, 2482); (2486, 2489); (2493, 2493); (2510, 2510);
    (2524, 2525); (2527, 2529); (2534, 2545); (2548, 2553); (2556, 2556);
    (2565, 2570); (2575, 2576); (2579, 2600); (2602, 2608); (2610, 2611);
    (2613, 2614); (2616, 2617); (2649, 2652); (2654, 2654); (2662, 2671);
    (2674, 2676); (2693, 2701); (2703, 2705); (2707, 2728); (2730, 2736);
    (2738, 2739); (2741, 2745); (2749, 2749); (2768, 2768); (2784, 2785);
    (2790, 2799); (2809, 2809); (2821, 2828); (2831, 2832); (2835, 2856);
    (2858, 2864); (2866, 2867); (2869, 2873); (2877, 2877); (2908, 2909);
    (2911, 2913); (2918, 2927); (2929, 2935); (2947, 2947); (2949, 2954);
    (2958, 2960); (2962, 2965); (2969, 2970); (2972, 2972); (2974, 2975);
    (2979, 2980); (2984, 2986); (2990, 3001); (3024, 3024); (3046, 3058);
    (3077, 3084); (3086, 3088); (3090, 3112); (3114, 3129); (3133, 3133);
    (3160, 3162); (3165, 3165); (3168, 3169); (3174, 3183); (3192, 3198);
    (3200, 3200); (3205, 3212); (3214, 3216); (3218, 3240); (3242, 3251);
    (3253, 3257); (3261, 3261); (3293, 3294); (3296, 3297); (3302, 3311);
    (3313, 3314); (3332, 3340); (3342, 3344); (3346, 3386); (3389, 3389);
    (3406, 3406); (3412, 3414); (3416, 3425); (3430, 3448); (3450, 3455);
    (3461, 3478); (3482, 3505); (3507, 3515); (3517, 3517); (3520, 3526);
    (3558, 3567); (3585, 3632); (3634, 3635); (3648, 3654); (3664, 3673);
    (3713, 3714); (3716, 3716); (3718, 3722); (3724, 3747); (3749, 3749);
    (3751, 3760); (3762, 3763); (3773, 3773); (3776, 3780); (3782, 3782);
    (3792, 3801); (3804, 3807); (3840, 3840); (3872, 3891); (3904, 3911);
    (3913, 3948); (3976, 3980); (4096, 4138); (4159, 4169); (4176, 4181);
    (4186, 4189); (4193, 4193); (4197, 4198); (4206, 4208); (4213, 4225);
    (4238, 4238); (4240, 4249); (4256, 4293); (4295, 4295); (4301, 4301);
    (4304, 4346); (4348, 4680); (4682, 4685); (4688, 4694); (4696, 4696);
    (4698, 4701); (4704, 4744); (4746, 4749); (4752, 4784); (4786, 4789);
    (4792, 4798); (4800, 4800); (4802, 4805); (4808, 4822); (4824, 4880);
    (4882, 4885); (4888, 4954); (4969, 4988); (4992, 5007); (5024, 5109);
    (5112, 5117); (5121, 5740); (5743, 5759); (5761, 5786); (5792, 5866);
    (5870, 5880); (5888, 5905); (5919, 5937); (5952, 5969); (5984, 5996);
    (5998, 6000); (6016, 6067); (6103, 6103); (6108, 6108); (6112, 6121);
    (6128, 6137); (6160, 6169); (6176, 6264); (6272, 6276); (6279, 6312);
    (6314, 6314); (6320, 6389); (6400, 6430); (6470, 6509); (6512, 6516);
    (6528, 6571); (6576, 6601); (6608, 6618); (6656, 6678); (6688, 6740);
    (6784, 6793); (6800, 6809); (6823, 6823); (6917, 6963); (6981, 6988);
    (6992, 7001); (7043, 7072); (7086, 7141); (7168, 7203); (7232, 7241);
    (7245, 7293); (7296, 7304); (7312, 7354); (7357, 7359); (7401, 7404);
    (7406, 7411); (7413, 7414); (7418, 7418); (7424, 7615); (7680, 7957);
    (7960, 7965); (7968, 8005); (8008, 8013); (8016, 8023); (8025, 8025);
    (8027, 8027); (8029, 8029); (8031, 8061); (8064, 8116); (8118, 8124);
    (8126, 8126); (8130, 8132); (8134, 8140); (8144, 8147); (8150, 8155);
    (8160, 8172); (8178, 8180); (8182, 8188); (8304, 8305); (8308, 8313);
    (8319, 8329); (8336, 8348); (8450, 8450); (8455, 8455); (8458, 8467);
    (8469, 8469); (8473, 8477); (8484, 8484); (8486, 8486); (8488, 8488);
    (8490, 8493); (8495, 8505); (8508, 8511); (8517, 8521); (8526, 8526);
    (8528, 8585); (9312, 9371); (9450, 9471); (10102, 10131); (11264, 11492);
    (11499, 11502); (11506, 11507); (11517, 11517); (11520, 11557);
    (11559, 11559); (11565, 11565); (11568, 11623); (11631, 11631);
    (11648, 11670); (11680, 11686); (11688, 11694); (11696, 11702);
    (11704, 11710); (11712, 11718); (11720, 11726); (11728, 11734);
    (11736, 11742); (11823, 11823); (12293, 12295); (12321, 12329);
    (12337, 12341); (12344, 12348); (12353, 12438); (12445, 12447);
    (12449, 12538); (12540, 12543); (12549, 12591); (12593, 12686);
    (12690, 12693); (12704, 12735); (12784, 12799); (12832, 12841);
    (12872, 12879); (12881, 12895); (12928, 12937); (12977, 12991);
    (13312, 19903); (19968, 42124); (42192, 42237); (42240, 42508);
    (42512, 42539); (42560, 42606); (42623, 42653); (42656, 42735);
    (42775, 42783); (42786, 42888); (42891, 42954); (42960, 42961);
    (42963, 42963); (42965, 42969); (42994, 43009); (43011, 43013);
    (43015, 43018); (43020, 43042); (43056, 43061); (43072, 43123);
    (43138, 43187); (43216, 43225); (43250, 43255); (43259, 43259);
    (43261, 43262); (43264, 43301); (43312, 43334); (43360, 43388);
    (43396, 43442); (43471, 43481); (43488, 43492); (43494, 43518);
    (43520, 43560); (43584, 43586); (43588, 43595); (43600, 43609);
    (43616, 43638); (43642, 43642); (43646, 43695); (43697, 43697);
    (43701, 43702); (43705, 43709); (43712, 43712); (43714, 43714);
    (43739, 43741); (43744, 43754); (43762, 43764); (43777, 43782);
    (43785, 43790); (43793, 43798); (43808, 43814); (43816, 43822);
    (43824, 43866); (43868, 43881); (43888, 44002); (44016, 44025);
    (44032, 55203); (55216, 55238); (55243, 55291); (63744, 64109);
    (64112, 64217); (64256, 64262); (64275, 64279); (64285, 64285);
    (64287, 64296); (64298, 64310); (64312, 64316); (64318, 64318);
    (64320, 64321); (64323, 64324); (64326, 64433); (64467, 64829);
    (64848, 64911); (64914, 64967); (65008, 65019); (65136, 65140);
    (65142, 65276); (65296, 65305); (65313, 65338); (65345, 65370);
    (65382, 65470); (65474, 65479); (65482, 65487); (65490, 65495);
    (65498, 65500); (65536, 65547); (65549, 65574); (65576, 65594);
    (65596, 65597); (65599, 65613); (65616, 65629); (65664, 65786);
    (65799, 65843); (65856, 65912); (65930, 65931); (66176, 66204);
    (66208, 66256); (66273, 66299); (66304, 66339); (66349, 66378);
    (66384, 66421); (66432, 66461); (66464, 66499); (66504, 66511);
    (66513, 66517); (66560, 66717); (66720, 66729); (66736, 66771);
    (66776, 66811); (66816, 66855); (66864, 66915); (66928, 66938);
    (66940, 66954); (66956, 66962); (66964, 66965); (66967, 66977);
    (66979, 66993); (66995, 67001); (67003, 67004); (67072, 67382);
    (67392, 67413); (67424, 67431); (67456, 67461); (67463, 67504);
    (67506, 67514); (67584, 67589); (67592, 67592); (67594, 67637);
    (67639, 67640); (67644, 67644); (67647, 67669); (67672, 67702);
    (67705, 67742); (67751, 67759); (67808, 67826); (67828, 67829);
    (67835, 67867); (67872, 67897); (67968, 68023); (68028, 68047);
    (68050, 68096); (68112, 68115); (68117, 68119); (68121, 68149);
    (68160, 68168); (68192, 68222); (68224, 68255); (68288, 68295);
    (68297, 68324); (68331, 68335); (68352, 68405); (68416, 68437);
    (68440, 68466); (68472, 68497); (68521, 68527); (68608, 68680);
    (68736, 68786); (68800, 68850); (68858, 68899); (68912, 68921);
    (69216, 69246); (69248, 69289); (69296, 69297); (69376, 69415);
    (69424, 69445); (69457, 69460); (69488, 69505); (69552, 69579);
    (69600, 69622); (69635, 69687); (69714, 69743); (69745, 69746);
    (69749, 69749); (69763, 69807); (69840, 69864); (69872, 69881);
    (69891, 69926); (69942, 69951); (69956, 69956); (69959, 69959);
    (69968, 70002); (70006, 70006); (70019, 70066); (70081, 70084);
    (70096, 70106); (70108, 70108); (70113, 70132); (70144, 70161);
    (70163, 70187); (70272, 70278); (70280, 70280); (70282, 70285);
    (70287, 70301); (70303, 70312); (70320, 70366); (70384, 70393);
    (70405, 70412); (70415, 70416); (70419, 70440); (70442, 70448);
    (70450, 70451); (70453, 70457); (70461, 70461); (70480, 70480);
    (70493, 70497); (70656, 70708); (70727, 70730); (70736, 70745);
    (70751, 70753); (70784, 70831); (70852, 70853); (70855, 70855);
    (70864, 70873); (71040, 71086); (71128, 71131); (71168, 71215);
    (71236, 71236); (71248, 71257); (71296, 71338); (71352, 71352);
    (71360, 71369); (71424, 71450); (71472, 71483); (71488, 71494);
    (71680, 71723); (71840, 71922); (71935, 71942); (71945, 71945);
    (71948, 71955); (71957, 71958); (71960, 71983); (71999, 71999);
    (72001, 72001); (72016, 72025); (72096, 72103); (72106, 72144);
    (72161, 72161); (72163, 72163); (72192, 72192); (72203, 72242);
    (72250, 72250); (72272, 72272); (72284, 72329); (72349, 72349);
    (72368, 72440); (72704, 72712); (72714, 72750); (72768, 72768);
    (72784, 72812); (72818, 72847); (72960, 72966); (72968, 72969);
    (72971, 73008); (73030, 73030); (73040, 73049); (73056, 73061);
    (73063, 73064); (73066, 73097); (73112, 73112); (73120, 73129);
    (73440, 73458); (73648, 73648); (73664, 73684); (73728, 74649);
    (74752, 74862); (74880, 75075); (77712, 77808); (77824, 78894);
    (82944, 83526); (92160, 92728); (92736, 92766); (92768, 92777);
    (92784, 92862); (92864, 92873); (92880, 92909); (92928, 92975);
    (92992, 92995); (93008, 93017); (93019, 93025); (93027, 93047);
    (93053, 93071); (93760, 93846); (93952, 94026); (94032, 94032);
    (94099, 94111); (94176, 94177); (94179, 94179); (94208, 100343);
    (100352, 101589); (101632, 101640); (110576, 110579); (110581, 110587);
    (110589, 110590); (110592, 110882); (110928, 110930); (110948, 110951);
    (110960, 111355); (113664, 113770); (113776, 113788); (113792, 113800);
    (113808, 113817); (119520, 119539); (119648, 119672); (119808, 119892);
    (119894, 119964); (119966, 119967); (119970, 119970); (119973, 119974);
    (119977, 119980); (119982, 119993); (119995, 119995); (119997, 120003);
    (120005, 120069); (120071, 120074); (120077, 120084); (120086, 120092);
    (120094, 120121); (120123, 120126); (120128, 120132); (120134, 120134);
    (120138, 120144); (120146, 120485); (120488, 120512); (120514, 120538);
    (120540, 120570); (120572, 120596); (120598, 120628); (120630, 120654);
    (120656, 120686); (120688, 120712); (120714, 120744); (120746, 120770);
    (120772, 120779); (120782, 120831); (122624, 122654); (123136, 123180);
    (123191, 123197); (123200, 123209); (123214, 123214); (123536, 123565);
    (123584, 123627); (123632, 123641); (124896, 124902); (124904, 124907);
    (124909, 124910); (124912, 124926); (124928, 125124); (125127, 125135);
    (125184, 125251); (125259, 125259); (125264, 125273); (126065, 126123);
    (126125, 126127); (126129, 126132); (126209, 126253); (126255, 126269);
    (126464, 126467); (126469, 126495); (126497, 126498); (126500, 126500);
    (126503, 126503); (126505, 126514); (126516, 126519); (126521, 126521);
    (126523, 126523); (126530, 126530); (126535, 126535); (126537, 126537);
    (126539, 126539); (126541, 126543); (126545, 126546); (126548, 126548);
    (126551, 126551); (126553, 126553); (126555, 126555); (126557, 126557);
    (126559, 126559); (126561, 126562); (126564, 126564); (126567, 126570);
    (126572, 126578); (126580, 126583); (126585, 126588); (126590, 126590);
    (126592, 126601); (126603, 126619); (126625, 126627); (126629, 126633);
    (126635, 126651); (127232, 127244); (130032, 130041); (131072, 173791);
    (173824, 177976); (177984, 178205); (178208, 183969); (183984, 191456);
    (194560, 195101); (196608, 201546) ].

(** The class [\w]: alphanumeric characters and the underscore. *)
Definition is_word (c : N) : bool := (c =? 95) || in_ranges alnum_ranges c.

(** The simple lower-case mapping: [(lo, hi, step, target)] maps a code
    point [c] of [lo .. hi] at a multiple of [step] from [lo] to
    [target + (c - lo)]; every other code point is its own lower case. *)
Definition lower_table : list (N * N * N * N) :=
  [ (65, 90, 1, 97); (192, 214, 1, 224); (216, 222, 1, 248);
    (256, 302, 2, 257); (304, 304, 1, 105); (306, 310, 2, 307);
    (313, 327, 2, 314); (330, 374, 2, 331); (376, 376, 1, 255);
    (377, 381, 2, 378); (385, 385, 1, 595); (386, 388, 2, 387);
    (390, 390, 1, 596); (391, 391, 1, 392); (393, 394, 1, 598);
    (395, 395, 1, 396); (398, 398, 1, 477); (399, 399, 1, 601);
    (400, 400, 1, 603); (401, 401, 1, 402); (403, 403, 1, 608);
    (404, 404, 1, 611); (406, 406, 1, 617); (407, 407, 1, 616);
    (408, 408, 1, 409); (412, 412, 1, 623); (413, 413, 1, 626);
    (415, 415, 1, 629); (416, 420, 2, 417); (422, 422, 1, 640);
    (423, 423, 1, 424); (425, 425, 1, 643); (428, 428, 1, 429);
    (430, 430, 1, 648); (431, 431, 1, 432); (433, 434, 1, 650);
    (435, 437, 2, 436); (439, 439, 1, 658); (440, 440, 1, 441);
    (444, 444, 1, 445); (452, 452, 1, 454); (453, 453, 1, 454);
    (455, 455, 1, 457); (456, 456, 1, 457); (458, 458, 1, 460);
    (459, 475, 2, 460); (478, 494, 2, 479); (497, 497, 1, 499);
    (498, 500, 2, 499); (502, 502, 1, 405); (503, 503, 1, 447);
    (504, 542, 2, 505); (544, 544, 1, 414); (546, 562, 2, 547);
    (570, 570, 1, 11365); (571, 571, 1, 572); (573, 573, 1, 410);
    (574, 574, 1, 11366); (577, 577, 1, 578); (579, 579, 1, 384);
    (580, 580, 1, 649); (581, 581, 1, 652); (582, 590, 2, 583);
    (880, 882, 2, 881); (886, 886, 1, 887); (895, 895, 1, 1011);
    (902, 902, 1, 940); (904, 906, 1, 941); (908, 908, 1, 972);
    (910, 911, 1, 973); (913, 929, 1, 945); (931, 939, 1, 963);
    (975, 975, 1, 983); (984, 1006, 2, 985); (1012, 1012, 1, 952);
    (1015, 1015, 1, 1016); (1017, 1017, 1, 1010); (1018, 1018, 1, 1019);
    (1021, 1023, 1, 891); (1024, 1039, 1, 1104); (1040, 1071, 1, 1072);
    (1120, 1152, 2, 1121); (1162, 1214, 2, 1163); (1216, 1216, 1, 1231);
    (1217, 1229, 2, 1218); (1232, 1326, 2, 1233); (1329, 1366, 1, 1377);
    (4256, 4293, 1, 11520); (4295, 4295, 1, 11559); (4301, 4301, 1, 11565);
    (5024, 5103, 1, 43888); (5104, 5109, 1, 5112); (7312, 7354, 1, 4304);
    (7357, 7359, 1, 4349); (7680, 7828, 2, 7681); (7838, 7838, 1, 223);
    (7840, 7934, 2, 7841); (7944, 7951, 1, 7936); (7960, 7965, 1, 7952);
    (7976, 7983, 1, 7968); (7992, 7999, 1, 7984); (8008, 8013, 1, 8000);
    (8025, 8031, 2, 8017); (8040, 8047, 1, 8032); (8072, 8079, 1, 8064);
    (8088, 8095, 1, 8080); (8104, 8111, 1, 8096); (8120, 8121, 1, 8112);
    (8122, 8123, 1, 8048); (8124, 8124, 1, 8115); (8136, 8139, 1, 8050);
    (8140, 8140, 1, 8131); (8152, 8153, 1, 8144); (8154, 8155, 1, 8054);
    (8168, 8169, 1, 8160); (8170, 8171, 1, 8058); (8172, 8172, 1, 8165);
    (8184, 8185, 1, 8056); (8186, 8187, 1, 8060); (8188, 8188, 1, 8179);
    (8486, 8486, 1, 969); (8490, 8490, 1, 107); (8491, 8491, 1, 229);
    (8498, 8498, 1, 8526); (8544, 8559, 1, 8560); (8579, 8579, 1, 8580);
    (9398, 9423, 1, 9424); (11264, 11311, 1, 11312); (11360, 11360, 1, 11361);
    (11362, 11362, 1, 619); (11363, 11363, 1, 7549); (11364, 11364, 1, 637);
    (11367, 11371, 2, 11368); (11373, 11373, 1, 593); (11374, 11374, 1, 625);
    (11375, 11375, 1, 592); (11376, 11376, 1, 594); (11378, 11378, 1, 11379);
    (11381, 11381, 1, 11382); (11390, 11391, 1, 575); (11392, 11490, 2, 11393);
    (11499, 11501, 2, 11500); (11506, 11506, 1, 11507);
    (42560, 42604, 2, 42561); (42624, 42650, 2, 42625);
    (42786, 42798, 2, 42787); (42802, 42862, 2, 42803);
    (42873, 42875, 2, 42874); (42877, 42877, 1, 7545);
    (42878, 42886, 2, 42879); (42891, 42891, 1, 42892); (42893, 42893, 1, 613);
    (42896, 42898, 2, 42897); (42902, 42920, 2, 42903); (42922, 42922, 1, 614);
    (42923, 42923, 1, 604); (42924, 42924, 1, 609); (42925, 42925, 1, 620);
    (42926, 42926, 1, 618); (42928, 42928, 1, 670); (42929, 42929, 1, 647);
    (42930, 42930, 1, 669); (42931, 42931, 1, 43859); (42932, 42946, 2, 42933);
    (42948, 42948, 1, 42900); (42949, 42949, 1, 642); (42950, 42950, 1, 7566);
    (42951, 42953, 2, 42952); (42960, 42960, 1, 42961);
    (42966, 42968, 2, 42967); (42997, 42997, 1, 42998);
    (65313, 65338, 1, 65345); (66560, 66599, 1, 66600);
    (66736, 66771, 1, 66776); (66928, 66938, 1, 66967);
    (66940, 66954, 1, 66979); (66956, 66962, 1, 66995);
    (66964, 66965, 1, 67003); (68736, 68786, 1, 68800);
    (71840, 71871, 1, 71872); (93760, 93791, 1, 93792);
    (125184, 125217, 1, 125218) ].

Fixpoint lookup_lower (table : list (N * N * N * N)) (c : N) : N :=
  match table with
  | [] => c
  | (lo, hi, step, target) :: rest =>
      if c <? lo then c
      else if c <=? hi then
        (if (c - lo) mod step =? 0 then target + (c - lo) else c)
      else lookup_lower rest c
  end.

(** The simple lower-case mapping, [Py_UNICODE_TOLOWER], which is the one
    that [re.IGNORECASE] uses. *)
Definition unicode_tolower (c : N) : N := lookup_lower lower_table c.

(** The extra cases of [re]: lower-case characters that stand for each
    other under [re.IGNORECASE] although they differ. *)
Definition case_fix_table : list (N * list N) :=
  [ (105, [305]); (115, [383]); (181, [956]); (305, [105]); (383, [115]);
    (837, [953; 8126]); (912, [8147]); (944, [8163]); (946, [976]);
    (949, [1013]); (952, [977]); (953, [837; 8126]); (954, [1008]);
    (956, [181]); (960, [982]); (961, [1009]); (962, [963]); (963, [962]);
    (966, [981]); (976, [946]); (977, [952]); (981, [966]); (982, [960]);
    (1008, [954]); (1009, [961]); (1013, [949]); (1074, [7296]);
    (1076, [7297]); (1086, [7298]); (1089, [7299]); (1090, [7300; 7301]);
    (1098, [7302]); (1123, [7303]); (7296, [1074]); (7297, [1076]);
    (7298, [1086]); (7299, [1089]); (7300, [1090; 7301]); (7301, [1090; 7300]);
    (7302, [1098]); (7303, [1123]); (7304, [42571]); (7777, [7835]);
    (7835, [7777]); (8126, [837; 953]); (8147, [912]); (8163, [944]);
    (42571, [7304]); (64261, [64262]); (64262, [64261]) ].

Fixpoint lookup_fixes (table : list (N * list N)) (c : N) : list N :=
  match table with
  | [] => []
  | (k, others) :: rest => if c =? k then others else lookup_fixes rest c
  end.

(** Lower-case characters that match each other under [re.IGNORECASE]
    although their lower-case forms differ (the case fixes of [re]). *)
Definition case_fixes (c : N) : list N := lookup_fixes case_fix_table c.

(** The cased characters (property Cased). *)
Definition cased_ranges : list (N * N) :=
  [ (65, 90); (97, 122); (170, 170); (181, 181); (186, 186); (192, 214);
    (216, 246); (248, 442); (444, 447); (452, 659); (661, 696); (704, 705);
    (736, 740); (837, 837); (880, 883); (886, 887); (890, 893); (895, 895);
    (902, 902); (904, 906); (908, 908); (910, 929); (931, 1013); (1015, 1153);
    (1162, 1327); (1329, 1366); (1376, 1416); (4256, 4293); (4295, 4295);
    (4301, 4301); (4304, 4346); (4349, 4351); (5024, 5109); (5112, 5117);
    (7296, 7304); (7312, 7354); (7357, 7359); (7424, 7615); (7680, 7957);
    (7960, 7965); (7968, 8005); (8008, 8013); (8016, 8023); (8025, 8025);
    (8027, 8027); (8029, 8029); (8031, 8061); (8064, 8116); (8118, 8124);
    (8126, 8126); (8130, 8132); (8134, 8140); (8144, 8147); (8150, 8155);
    (8160, 8172); (8178, 8180); (8182, 8188); (8305, 8305); (8319, 8319);
    (8336, 8348); (8450, 8450); (8455, 8455); (8458, 8467); (8469, 8469);
    (8473, 8477); (8484, 8484); (8486, 8486); (8488, 8488); (8490, 8493);
    (8495, 8500); (8505, 8505); (8508, 8511); (8517, 8521); (8526, 8526);
    (8544, 8575); (8579, 8580); (9398, 9449); (11264, 11492); (11499, 11502);
    (11506, 11507); (11520, 11557); (11559, 11559); (11565, 11565);
    (42560, 42605); (42624, 42653); (42786, 42887); (42891, 42894);
    (42896, 42954); (42960, 42961); (42963, 42963); (42965, 42969);
    (42997, 42998); (43000, 43002); (43824, 43866); (43868, 43880);
    (43888, 43967); (64256, 64262); (64275, 64279); (65313, 65338);
    (65345, 65370); (66560, 66639); (66736, 66771); (66776, 66811);
    (66928, 66938); (66940, 66954); (66956, 66962); (66964, 66965);
    (66967, 66977); (66979, 66993); (66995, 67001); (67003, 67004);
    (67456, 67456); (67459, 67461); (67463, 67504); (67506, 67514);
    (68736, 68786); (68800, 68850); (71840, 71903); (93760, 93823);
    (119808, 119892); (119894, 119964); (119966, 119967); (119970, 119970);
    (119973, 119974); (119977, 119980); (119982, 119993); (119995, 119995);
    (119997, 120003); (120005, 120069); (120071, 120074); (120077, 120084);
    (120086, 120092); (120094, 120121); (120123, 120126); (120128, 120132);
    (120134, 120134); (120138, 120144); (120146, 120485); (120488, 120512);
    (120514, 120538); (120540, 120570); (120572, 120596); (120598, 120628);
    (120630, 120654); (120656, 120686); (120688, 120712); (120714, 120744);
    (120746, 120770); (120772, 120779); (122624, 122633); (122635, 122654);
    (125184, 125251); (127280, 127305); (127312, 127337); (127344, 127369) ].

(** The case-ignorable characters (property Case_Ignorable). *)
Definition case_ignorable_ranges : list (N * N) :=
  [ (39, 39); (46, 46); (58, 58); (94, 94); (96, 96); (168, 168); (173, 173);
    (175, 175); (180, 180); (183, 184); (688, 879); (884, 885); (890, 890);
    (900, 901); (903, 903); (1155, 1161); (1369, 1369); (1375, 1375);
    (1425, 1469); (1471, 1471); (1473, 1474); (1476, 1477); (1479, 1479);
    (1524, 1524); (1536, 1541); (1552, 1562); (1564, 1564); (1600, 1600);
    (1611, 1631); (1648, 1648); (1750, 1757); (1759, 1768); (1770, 1773);
    (1807, 1807); (1809, 1809); (1840, 1866); (1958, 1968); (2027, 2037);
    (2042, 2042); (2045, 2045); (2070, 2093); (2137, 2139); (2184, 2184);
    (2192, 2193); (2200, 2207); (2249, 2306); (2362, 2362); (2364, 2364);
    (2369, 2376); (2381, 2381); (2385, 2391); (2402, 2403); (2417, 2417);
    (2433, 2433); (2492, 2492); (2497, 2500); (2509, 2509); (2530, 2531);
    (2558, 2558); (2561, 2562); (2620, 2620); (2625, 2626); (2631, 2632);
    (2635, 2637); (2641, 2641); (2672, 2673); (2677, 2677); (2689, 2690);
    (2748, 2748); (2753, 2757); (2759, 2760); (2765, 2765); (2786, 2787);
    (2810, 2815); (2817, 2817); (2876, 2876); (2879, 2879); (2881, 2884);
    (2893, 2893); (2901, 2902); (2914, 2915); (2946, 2946); (3008, 3008);
    (3021, 3021); (3072, 3072); (3076, 3076); (3132, 3132); (3134, 3136);
    (3142, 3144); (3146, 3149); (3157, 3158); (3170, 3171); (3201, 3201);
    (3260, 3260); (3263, 3263); (3270, 3270); (3276, 3277); (3298, 3299);
    (3328, 3329); (3387, 3388); (3393, 3396); (3405, 3405); (3426, 3427);
    (3457, 3457); (3530, 3530); (3538, 3540); (3542, 3542); (3633, 3633);
    (3636, 3642); (3654, 3662); (3761, 3761); (3764, 3772); (3782, 3782);
    (3784, 3789); (3864, 3865); (3893, 3893); (3895, 3895); (3897, 3897);
    (3953, 3966); (3968, 3972); (3974, 3975); (3981, 3991); (3993, 4028);
    (4038, 4038); (4141, 4144); (4146, 4151); (4153, 4154); (4157, 4158);
    (4184, 4185); (4190, 4192); (4209, 4212); (4226, 4226); (4229, 4230);
    (4237, 4237); (4253, 4253); (4348, 4348); (4957, 4959); (5906, 5908);
    (5938, 5939); (5970, 5971); (6002, 6003); (6068, 6069); (6071, 6077);
    (6086, 6086); (6089, 6099); (6103, 6103); (6109, 6109); (6155, 6159);
    (6211, 6211); (6277, 6278); (6313, 6313); (6432, 6434); (6439, 6440);
    (6450, 6450); (6457, 6459); (6679, 6680); (6683, 6683); (6742, 6742);
    (6744, 6750); (6752, 6752); (6754, 6754); (6757, 6764); (6771, 6780);
    (6783, 6783); (6823, 6823); (6832, 6862); (6912, 6915); (6964, 6964);
    (6966, 6970); (6972, 6972); (6978, 6978); (7019, 7027); (7040, 7041);
    (7074, 7077); (7080, 7081); (7083, 7085); (7142, 7142); (7144, 7145);
    (7149, 7149); (7151, 7153); (7212, 7219); (7222, 7223); (7288, 7293);
    (7376, 7378); (7380, 7392); (7394, 7400); (7405, 7405); (7412, 7412);
    (7416, 7417); (7468, 7530); (7544, 7544); (7579, 7679); (8125, 8125);
    (8127, 8129); (8141, 8143); (8157, 8159); (8173, 8175); (8189, 8190);
    (8203, 8207); (8216, 8217); (8228, 8228); (8231, 8231); (8234, 8238);
    (8288, 8292); (8294, 8303); (8305, 8305); (8319, 8319); (8336, 8348);
    (8400, 8432); (11388, 11389); (11503, 11505); (11631, 11631);
    (11647, 11647); (11744, 11775); (11823, 11823); (12293, 12293);
    (12330, 12333); (12337, 12341); (12347, 12347); (12441, 12446);
    (12540, 12542); (40981, 40981); (42232, 42237); (42508, 42508);
    (42607, 42610); (42612, 42621); (42623, 42623); (42652, 42655);
    (42736, 42737); (42752, 42785); (42864, 42864); (42888, 42890);
    (42994, 42996); (43000, 43001); (43010, 43010); (43014, 43014);
    (43019, 43019); (43045, 43046); (43052, 43052); (43204, 43205);
    (43232, 43249); (43263, 43263); (43302, 43309); (43335, 43345);
    (43392, 43394); (43443, 43443); (43446, 43449); (43452, 43453);
    (43471, 43471); (43493, 43494); (43561, 43566); (43569, 43570);
    (43573, 43574); (43587, 43587); (43596, 43596); (43632, 43632);
    (43644, 43644); (43696, 43696); (43698, 43700); (43703, 43704);
    (43710, 43711); (43713, 43713); (43741, 43741); (43756, 43757);
    (43763, 43764); (43766, 43766); (43867, 43871); (43881, 43883);
    (44005, 44005); (44008, 44008); (44013, 44013); (64286, 64286);
    (64434, 64450); (65024, 65039); (65043, 65043); (65056, 65071);
    (65106, 65106); (65109, 65109); (65279, 65279); (65287, 65287);
    (65294, 65294); (65306, 65306); (65342, 65342); (65344, 65344);
    (65392, 65392); (65438, 65439); (65507, 65507); (65529, 65531);
    (66045, 66045); (66272, 66272); (66422, 66426); (67456, 67461);
    (67463, 67504); (67506, 67514); (68097, 68099); (68101, 68102);
    (68108, 68111); (68152, 68154); (68159, 68159); (68325, 68326);
    (68900, 68903); (69291, 69292); (69446, 69456); (69506, 69509);
    (69633, 69633); (69688, 69702); (69744, 69744); (69747, 69748);
    (69759, 69761); (69811, 69814); (69817, 69818); (69821, 69821);
    (69826, 69826); (69837, 69837); (69888, 69890); (69927, 69931);
    (69933, 69940); (70003, 70003); (70016, 70017); (70070, 70078);
    (70089, 70092); (70095, 70095); (70191, 70193); (70196, 70196);
    (70198, 70199); (70206, 70206); (70367, 70367); (70371, 70378);
    (70400, 70401); (70459, 70460); (70464, 70464); (70502, 70508);
    (70512, 70516); (70712, 70719); (70722, 70724); (70726, 70726);
    (70750, 70750); (70835, 70840); (70842, 70842); (70847, 70848);
    (70850, 70851); (71090, 71093); (71100, 71101); (71103, 71104);
    (71132, 71133); (71219, 71226); (71229, 71229); (71231, 71232);
    (71339, 71339); (71341, 71341); (71344, 71349); (71351, 71351);
    (71453, 71455); (71458, 71461); (71463, 71467); (71727, 71735);
    (71737, 71738); (71995, 71996); (71998, 71998); (72003, 72003);
    (72148, 72151); (72154, 72155); (72160, 72160); (72193, 72202);
    (72243, 72248); (72251, 72254); (72263, 72263); (72273, 72278);
    (72281, 72283); (72330, 72342); (72344, 72345); (72752, 72758);
    (72760, 72765); (72767, 72767); (72850, 72871); (72874, 72880);
    (72882, 72883); (72885, 72886); (73009, 73014); (73018, 73018);
    (73020, 73021); (73023, 73029); (73031, 73031); (73104, 73105);
    (73109, 73109); (73111, 73111); (73459, 73460); (78896, 78904);
    (92912, 92916); (92976, 92982); (92992, 92995); (94031, 94031);
    (94095, 94111); (94176, 94177); (94179, 94180); (110576, 110579);
    (110581, 110587); (110589, 110590); (113821, 113822); (113824, 113827);
    (118528, 118573); (118576, 118598); (119143, 119145); (119155, 119170);
    (119173, 119179); (119210, 119213); (119362, 119364); (121344, 121398);
    (121403, 121452); (121461, 121461); (121476, 121476); (121499, 121503);
    (121505, 121519); (122880, 122886); (122888, 122904); (122907, 122913);
    (122915, 122916); (122918, 122922); (123184, 123197); (123566, 123566);
    (123628, 123631); (125136, 125142); (125252, 125259); (127995, 127999);
    (917505, 917505); (917536, 917631); (917760, 917999) ].

Definition is_cased (c : N) : bool := in_ranges cased_ranges c.
Definition is_case_ignorable (c : N) : bool := in_ranges case_ignorable_ranges c.

(** *** String operations *)

Fixpoint drop_while (f : N -> bool) (s : pystr) : pystr :=
  match s with
  | [] => []
  | c :: s' => if f c then drop_while f s' else s
  end.

(** [str.lower]: the simple mapping for every character but two.  The
    capital I with dot above becomes an [i] and a combining dot.  The
    capital sigma becomes the final small sigma where it ends a word: a
    cased character comes before it and none after it, the case-ignorable
    characters in between left aside.  [before] holds the characters before
    the place, the nearest first. *)
Definition final_sigma (before after : pystr) : bool :=
  match drop_while is_case_ignorable before with
  | c :: _ => is_cased c
  | [] => false
  end
  && match drop_while is_case_ignorable after with
     | c :: _ => negb (is_cased c)
     | [] => true
     end.

Fixpoint lower_from (before s : pystr) : pystr :=
  match s with
  | [] => []
  | c :: rest =>
      (if c =? 304 then [105; 775]
       else if c =? 931 then [if final_sigma before rest then 962 else 963]
       else [unicode_tolower c])
      ++ lower_from (c :: before) rest
  end.

Definition lower (s : pystr) : pystr := lower_from [] s.

(** [s.strip()] *)
Definition lstrip (s : pystr) : pystr := drop_while is_space s.
Definition rstrip (s : pystr) : pystr := rev (drop_while is_space (rev s)).
Definition strip (s : pystr) : pystr := rstrip (lstrip s).

Fixpoint starts_with (p s : pystr) : bool :=
  match p, s with
  | [], _ => true
  | a :: p', b :: s' => (a =? b) && starts_with p' s'
  | _ :: _, [] => false
  end.

(** [p in s] *)
Fixpoint contains (p s : pystr) : bool :=
  starts_with p s || match s with [] => false | _ :: s' => contains p s' end.

(** [s.find(p)], for a [p] that occurs in [s] *)
Fixpoint find (p s : pystr) : nat :=
  if starts_with p s then O
  else match s with [] => O | _ :: s' => S (find p s') end.

(** The slice [s[i:j]] for [0 <= i] and [0 <= j]. *)
Definition slice (i j : nat) (s : pystr) : pystr := take (j - i) (drop i s).

(** [s.replace(a, b)] for a one-character [a]. *)
Definition replace_char (a : N) (b : pystr) (s : pystr) : pystr :=
  flat_map (fun c => if c =? a then b else [c]) s.

(** [s.split(sep)] for a one-character [sep]: the fields between the
    separators, all of them, in order. *)
Fixpoint split_char (sep : N) (s : pystr) : list pystr :=
  match s with
  | [] => [[]]
  | c :: s' =>
      if c =? sep then [] :: split_char sep s'
      else match split_char sep s' with
           | f :: fs => (c :: f) :: fs
           | [] => [[c]]
           end
  end.

(** [''.join(l)] *)
Definition join (l : list pystr) : pystr := concat l.

(** ** Regular expressions ([re])

    The subset of the syntax of [re] that the service writes: literals,
    escapes, character classes, groups, alternation, greedy repetition and
    the start anchor. *)

Inductive citem : Type :=
  | CChar (c : N)
  | CRange (a b : N)
  | CSpace
  | CDigit
  | CWord.

Inductive regex : Type :=
  | Eps
  | Chr (c : N)
  | Cls (neg : bool) (items : list citem)
  | Bol
  | Seq (a b : regex)
  | Alt (a b : regex)
  | Rep (a : regex) (lo : nat) (hi : option nat)
  | Grp (n : nat) (a : regex).

(** *** Compilation of a pattern *)

Definition mk_seq (l : list regex) : regex := foldr Seq Eps l.

Fixpoint mk_alt (l : list (list regex)) : regex :=
  match l with
  | [] => Eps
  | [b] => mk_seq b
  | b :: l' => Alt (mk_seq b) (mk_alt l')
  end.

Fixpoint parse_nat (acc : nat) (seen : bool) (s : pystr) : option (nat * pystr) :=
  match s with
  | c :: s' =>
      if is_ascii_digit c
      then parse_nat (10 * acc + N.to_nat (c - 48)) true s'
      else if seen then Some (acc, s) else None
  | [] => if seen then Some (acc, s) else None
  end.

(** An escape [\c]. *)
Definition parse_escape (c : N) : option regex :=
  if c =? 115 then Some (Cls false [CSpace])
  else if c =? 100 then Some (Cls false [CDigit])
  else if c =? 119 then Some (Cls false [CWord])
  else if c =? 110 then Some (Chr 10)
  else if c =? 116 then Some (Chr 9)
  else if is_word c then None
  else Some (Chr c).

Definition class_escape (c : N) : option citem :=
  if c =? 115 then Some CSpace
  else if c =? 100 then Some CDigit
  else if c =? 119 then Some CWord
  else if c =? 110 then Some (CChar 10)
  else if c =? 116 then Some (CChar 9)
  else if is_word c then None
  else Some (CChar c).

(** The items of a class up to its closing bracket. *)
Fixpoint parse_class (s : pystr) : option (list citem * pystr) :=
  match s with
  | [] => None
  | a :: s1 =>
      if a =? 93 then Some ([], s1)
      else if a =? 92 then
        match s1 with
        | c :: s2 =>
            match class_escape c, parse_class s2 with
            | Some i, Some (its, r) => Some (i :: its, r)
            | _, _ => None
            end
        | [] => None
        end
      else
        match s1 with
        | d :: b :: s3 =>
            if (d =? 45) && negb (b =? 93) then
              if b =? 92 then None
              else match parse_class s3 with
                   | Some (its, r) => Some (CRange a b :: its, r)
                   | None => None
                   end
            else match parse_class s1 with
                 | Some (its, r) => Some (CChar a :: its, r)
                 | None => None
                 end
        | _ => match parse_class s1 with
               | Some (its, r) => Some (CChar a :: its, r)
               | None => None
               end
        end
  end.

(** A greedy quantifier after the atom [a], if there is one. *)
Definition parse_quant (a : regex) (s : pystr) : option (regex * pystr) :=
  let greedy (q : regex) (r : pystr) : option (regex * pystr) :=
    match r with
    | c :: _ => if (c =? 63) || (c =? 43) || (c =? 42) || (c =? 123) then None
                else Some (q, r)
    | [] => Some (q, r)
    end in
  match s with
  | c :: s' =>
      if c =? 42 then greedy (Rep a 0 None) s'
      else if c =? 43 then greedy (Rep a 1 None) s'
      else if c =? 63 then greedy (Rep a 0 (Some 1%nat)) s'
      else if c =? 123 then
        match parse_nat 0 false s' with
        | Some (lo, d :: s1) =>
            if d =? 125 then greedy (Rep a lo (Some lo)) s1
            else if d =? 44 then
              match s1 with
              | e :: s2 =>
                  if e =? 125 then greedy (Rep a lo None) s2
                  else match parse_nat 0 false s1 with
                       | Some (hi, f :: s3) =>
                           if (f =? 125) && (lo <=? hi)%nat
                           then greedy (Rep a lo (Some hi)) s3 else None
                       | _ => None
                       end
              | [] => None
              end
            else None
        | _ => None
        end
      else Some (a, s)
  | [] => Some (a, s)
  end.

(** The alternatives up to the closing parenthesis of the enclosing group
    or to the end of the pattern; [g] groups have been opened so far. *)
Fixpoint parse_alt (fuel : nat) (s : pystr) (g : nat)
  : option (list (list regex) * pystr * nat) :=
  match fuel with
  | O => None
  | S f =>
      match s with
      | [] => Some ([[]], [], g)
      | c :: s' =>
          if c =? 41 then Some ([[]], s, g)
          else if c =? 124 then
            match parse_alt f s' g with
            | Some (bs, r, g') => Some ([] :: bs, r, g')
            | None => None
            end
          else
            let atom : option (regex * pystr * nat) :=
              if c =? 40 then
                match s' with
                | q :: s1 =>
                    if q =? 63 then
                      match s1 with
                      | k :: s2 =>
                          if k =? 58 then
                            match parse_alt f s2 g with
                            | Some (bs, e :: r, g') =>
                                if e =? 41 then Some (mk_alt bs, r, g') else None
                            | _ => None
                            end
                          else None
                      | [] => None
                      end
                    else
                      match parse_alt f s' (S g) with
                      | Some (bs, e :: r, g') =>
                          if e =? 41 then Some (Grp (S g) (mk_alt bs), r, g') else None
                      | _ => None
                      end
                | [] => None
                end
              else if c =? 91 then
                match s' with
                | n :: s1 =>
                    match parse_class (if n =? 94 then s1 else s') with
                    | Some (its, r) => Some (Cls (n =? 94) its, r, g)
                    | None => None
                    end
                | [] => None
                end
              else if c =? 92 then
                match s' with
                | e :: s1 =>
                    match parse_escape e with
                    | Some a => Some (a, s1, g)
                    | None => None
                    end
                | [] => None
                end
              else if c =? 94 then Some (Bol, s', g)
              else if (c =? 42) || (c =? 43) || (c =? 63) || (c =? 123)
                      || (c =? 125) || (c =? 93) || (c =? 36) || (c =? 46)
              then None
              else Some (Chr c, s', g) in
            match atom with
            | Some (a, s1, g1) =>
                match parse_quant a s1 with
                | Some (q, s2) =>
                    match parse_alt f s2 g1 with
                    | Some (b :: bs, r, g2) => Some ((q :: b) :: bs, r, g2)
                    | _ => None
                    end
                | None => None
                end
            | None => None
            end
      end
  end.

(** [re.compile(p)] *)
Definition re_compile (p : pystr) : option regex :=
  match parse_alt (S (length p)) p 0 with
  | Some (bs, [], _) => Some (mk_alt bs)
  | _ => None
  end.

(** The compiled form of a pattern written in this file ([Eps] would stand
    for a pattern outside the subset; [patterns_compile] shows that this
    does not happen). *)
Definition pat (p : string) : regex := default Eps (re_compile (py p)).

(** *** Matching *)

Definition chr_match (ic : bool) (c x : N) : bool :=
  if ic then
    let l := unicode_tolower x in
    let lc := unicode_tolower c in
    (l =? lc) || existsb (N.eqb l) (case_fixes lc)
  else x =? c.

Definition N_range (a b : N) : list N :=
  map N.of_nat (seq (N.to_nat a) (S (N.to_nat b) - N.to_nat a)).

Definition item_match (ic : bool) (it : citem) (x : N) : bool :=
  let y := if ic then unicode_tolower x else x in
  match it with
  | CChar c => chr_match ic c x
  | CRange a b =>
      if ic then existsb (fun i => chr_match true i x) (N_range a b)
      else (a <=? x) && (x <=? b)
  | CSpace => is_space y
  | CDigit => is_digit y
  | CWord => is_word y
  end.

Definition cls_match (ic neg : bool) (items : list citem) (x : N) : bool :=
  xorb neg (existsb (fun it => item_match ic it x) items).

(** The state of a match attempt: the position in the text, the text from
    there on, and the spans of the groups closed so far. *)
Record mstate : Type := MState {
  m_pos : nat;
  m_rest : pystr;
  m_caps : list (nat * (nat * nat));
}.

Definition step_char (ok : N -> bool) (st : mstate)
    (k : mstate -> option mstate) : option mstate :=
  match m_rest st with
  | x :: xs => if ok x then k (MState (S (m_pos st)) xs (m_caps st)) else None
  | [] => None
  end.

Abbreviation matcher := (mstate -> (mstate -> option mstate) -> option mstate).

(** Up to [extra] further greedy iterations of [m], each of which has to
    advance in the text. *)
Fixpoint rep_opt (m : matcher) (extra : nat) (st : mstate)
    (k : mstate -> option mstate) : option mstate :=
  match extra with
  | O => k st
  | S e =>
      match m st (fun st' =>
                    if (m_pos st' =? m_pos st)%nat then None
                    else rep_opt m e st' k) with
      | Some r => Some r
      | None => k st
      end
  end.

(** [lo] mandatory iterations of [m], then the optional ones. *)
Fixpoint rep_min (m : matcher) (lo : nat) (hi : option nat) (st : mstate)
    (k : mstate -> option mstate) : option mstate :=
  match lo with
  | O => rep_opt m (match hi with
                    | Some h => h
                    | None => length (m_rest st)
                    end) st k
  | S l => m st (fun st' => rep_min m l (pred <$> hi) st' k)
  end.

(** The backtracking matcher: [rmatch ic r st k] is the first way, in the
    priority order of [re], to match [r] from [st] such that the
    continuation [k] accepts the state reached. *)
Fixpoint rmatch (ic : bool) (r : regex) (st : mstate)
    (k : mstate -> option mstate) : option mstate :=
  match r with
  | Eps => k st
  | Chr c => step_char (chr_match ic c) st k
  | Cls neg items => step_char (cls_match ic neg items) st k
  | Bol => if (m_pos st =? 0)%nat then k st else None
  | Seq a b => rmatch ic a st (fun st' => rmatch ic b st' k)
  | Alt a b =>
      match rmatch ic a st k with
      | Some r => Some r
      | None => rmatch ic b st k
      end
  | Rep a lo hi => rep_min (rmatch ic a) lo hi st k
  | Grp n a =>
      rmatch ic a st (fun st' =>
        k (MState (m_pos st') (m_rest st')
             ((n, (m_pos st, m_pos st')) :: m_caps st')))
  end.

(** A match object. *)
Record Match : Type := MkMatch {
  m_string : pystr;
  m_start : nat;
  m_end : nat;
  m_groups : list (nat * (nat * nat));
}.

Fixpoint assoc (n : nat) (l : list (nat * (nat * nat))) : option (nat * nat) :=
  match l with
  | [] => None
  | (k, v) :: l' => if (k =? n)%nat then Some v else assoc n l'
  end.

(** [m.group(n)]; every group of the patterns of the service takes part in
    every match, so the [None] of Python does not arise. *)
Definition group (n : nat) (m : Match) : pystr :=
  match n with
  | O => slice (m_start m) (m_end m) (m_string m)
  | _ => match assoc n (m_groups m) with
         | Some (a, b) => slice a b (m_string m)
         | None => []
         end
  end.

Definition match_at (ic : bool) (r : regex) (text : pystr) (pos : nat)
    (rest : pystr) : option Match :=
  match rmatch ic r (MState pos rest []) Some with
  | Some st => Some (MkMatch text pos (m_pos st) (m_caps st))
  | None => None
  end.

Fixpoint search_from (ic : bool) (r : regex) (text : pystr) (pos : nat)
    (rest : pystr) : option Match :=
  match match_at ic r text pos rest with
  | Some m => Some m
  | None =>
      match rest with
      | [] => None
      | _ :: rest' => search_from ic r text (S pos) rest'
      end
  end.

(** [re.search(r, text, flags)]; [ic] is [re.IGNORECASE]. *)
Definition re_search (ic : bool) (r : regex) (text : pystr) : option Match :=
  search_from ic r text 0 text.

(** A match at [pos] that is not empty: the first way to match, in the
    priority order of [re], that ends after [pos] (the second attempt that
    [re] makes where it has just found an empty match). *)
Definition match_advancing (ic : bool) (r : regex) (text : pystr) (pos : nat)
    (rest : pystr) : option Match :=
  match rmatch ic r (MState pos rest [])
          (fun st => if (m_pos st =? pos)%nat then None else Some st) with
  | Some st => Some (MkMatch text pos (m_pos st) (m_caps st))
  | None => None
  end.

(** The matches from [pos] on, none of which may start within the next
    [skip] characters (those of the previous match).  The scan goes on
    where a match ends; after an empty match it looks for a match at the
    same place that is not empty, and then moves on. *)
Fixpoint finditer_from (ic : bool) (r : regex) (text : pystr) (pos : nat)
    (rest : pystr) (skip : nat) : list Match :=
  let next (k : nat) : list Match :=
    match rest with
    | [] => []
    | _ :: rest' => finditer_from ic r text (S pos) rest' k
    end in
  match skip with
  | S k => next k
  | O =>
      match match_at ic r text pos rest with
      | Some m =>
          if (m_end m =? pos)%nat then
            m :: match match_advancing ic r text pos rest with
                 | Some m' => m' :: next (pred (m_end m' - pos))
                 | None => next O
                 end
          else m :: next (pred (m_end m - pos))
      | None => next O
      end
  end.

(** [re.finditer(r, text, flags)] *)
Definition re_finditer (ic : bool) (r : regex) (text : pystr) : list Match :=
  finditer_from ic r text 0 text 0.

Fixpoint sub_build (repl text : pystr) (cur : nat) (ms : list Match) : pystr :=
  match ms with
  | [] => drop cur text
  | m :: ms' =>
      slice cur (m_start m) text ++ repl ++ sub_build repl text (m_end m) ms'
  end.

(** [re.sub(r, repl, text)] for a replacement without group references. *)
Definition re_sub (r : regex) (repl text : pystr) : pystr :=
  sub_build repl text 0 (re_finditer false r text).

(** ** Numbers *)

(** A Python [float] that is not a NaN and not negative infinity: a
    binary64 number with its exact rational value, or positive infinity. *)
Inductive pyfloat : Type :=
  | Finite (q : Q)
  | Infinity.

Definition Qltb (a b : Q) : bool := negb (Qle_bool b a).

(** [a < b] on floats *)
Definition float_ltb (a b : pyfloat) : bool :=
  match a, b with
  | Finite x, Finite y => Qltb x y
  | Finite _, Infinity => true
  | Infinity, _ => false
  end.

(** An [int] compared with a float is compared by its exact value. *)
Definition of_int (z : Z) : pyfloat := Finite (inject_Z z).

(** [lo < x < hi] for the integers [lo] and [hi] *)
Definition float_between (lo hi : Z) (x : pyfloat) : bool :=
  float_ltb (of_int lo) x && float_ltb x (of_int hi).

(** The binary64 number nearest to [n / d] for [0 <= n] and [0 < d], ties to
    the even mantissa, as the correctly rounded conversion of a decimal
    literal gives it. *)
Definition round_binary64 (n d : Z) : pyfloat :=
  if (n =? 0)%Z then Finite 0
  else
    let l0 := (Z.log2 n - Z.log2 d)%Z in
    let ge_pow2 (k : Z) : bool :=
      if (0 <=? k)%Z then (d * 2 ^ k <=? n)%Z else (d <=? n * 2 ^ (- k))%Z in
    let l := if ge_pow2 l0 then l0 else (l0 - 1)%Z in
    let e := Z.max (l - 52) (-1074) in
    let num := if (0 <=? e)%Z then n else (n * 2 ^ (- e))%Z in
    let den := if (0 <=? e)%Z then (d * 2 ^ e)%Z else d in
    let m := (num / den)%Z in
    let r := (num mod den)%Z in
    let m' := if (den <? 2 * r)%Z || ((den =? 2 * r)%Z && Z.odd m)
              then (m + 1)%Z else m in
    if (0 <=? e)%Z then
      if (2 ^ 1024 <=? m' * 2 ^ e)%Z then Infinity
      else Finite (inject_Z (m' * 2 ^ e))
    else Finite (Qred (Qmake m' (Z.to_pos (2 ^ (- e))))).

Fixpoint digits_value (acc : Z) (s : pystr) : Z :=
  match s with
  | [] => acc
  | c :: s' => digits_value (10 * acc + Z.of_N (c - 48)) s'
  end.

(** [float(s)] on the strings that the extractor builds, which hold ASCII
    digits, points and white space only: [Some] of the value, or [None] for
    the [ValueError] of Python.  White space around the number is allowed;
    the number is a run of digits with at most one point and at least one
    digit.  (Signs, exponents, underscores and the words [inf] and [nan]
    cannot reach this function and are rejected here.) *)
Definition py_float (s : pystr) : option pyfloat :=
  match split_char 46 (strip s) with
  | [i] =>
      if forallb is_ascii_digit i && negb (bool_decide (i = []))
      then Some (round_binary64 (digits_value 0 i) 1) else None
  | [i; f] =>
      if forallb is_ascii_digit (i ++ f) && negb (bool_decide (i ++ f = []))
      then Some (round_binary64 (digits_value 0 (i ++ f)) (10 ^ Z.of_nat (length f)))
      else None
  | _ => None
  end.

(** [int(s)] on a run of ASCII digits, as the patterns capture it; a run of
    more than 4300 digits is a [ValueError] (the default limit of the
    conversion). *)
Definition py_int (s : pystr) : option Z :=
  if forallb is_ascii_digit s && negb (bool_decide (s = []))
     && (length s <=? 4300)%nat
  then Some (digits_value 0 s) else None.

(** [str(n)] for an integer [n] (of at most 4300 digits, which a sum of
    counts below 1000 is for every text that can be held) *)
Definition py_str_int (n : Z) : pystr :=
  py (DecimalString.NilZero.string_of_int (Z.to_int n)).

(** ** The field extractor ([ml_service.py]) *)

(** The record that [extract_with_patterns] returns: the dictionary
    [extracted], which has these ten keys throughout. *)
Record ExtractedInvoice : Type := MkInvoice {
  projectName : pystr;
  invoicedTotal : pystr;
  currency : pystr;
  exchangeRate : pystr;
  invoiceDate : pystr;
  invoiceDueDate : pystr;
  invoiceNumber : pystr;
  numberOfMDs : pystr;
  mdRate : pystr;
  client : pystr;
}.

(** [for pattern in patterns: match = re.search(pattern, text,
    re.IGNORECASE); if match: ...; break] *)
Fixpoint first_search (patterns : list regex) (text : pystr) : option Match :=
  match patterns with
  | [] => None
  | pattern :: rest =>
      match re_search true pattern text with
      | Some m => Some m
      | None => first_search rest text
      end
  end.

Definition invoice_num_patterns : list regex :=
  [ pat "číslo\s*:?\s*([0-9]+)";
    pat "invoice\s*(?:number|no|#)?\s*:?\s*([a-z0-9\-]+)";
    pat "inv\s*(?:number|no|#)?\s*:?\s*([a-z0-9\-]+)";
    pat "#\s*([a-z0-9\-]+)" ].

Definition extract_invoice_number (text : pystr) : pystr :=
  match first_search invoice_num_patterns text with
  | Some m => strip (group 1 m)
  | None => []
  end.

Definition project_patterns : list regex :=
  [ pat "(?:project|description|service|item|předmět|název)\s*:?\s*([^\n]{5,100})";
    pat "účel\s*:?\s*([^\n]{5,100})" ].

(** The loop over [project_patterns]: it stops at the first pattern whose
    candidate has a length strictly between 5 and 100. *)
Fixpoint project_loop (patterns : list regex) (text : pystr) : pystr :=
  match patterns with
  | [] => []
  | pattern :: rest =>
      match re_search true pattern text with
      | Some m =>
          let candidate := strip (group 1 m) in
          if (5 <? length candidate)%nat && (length candidate <? 100)%nat
          then candidate
          else project_loop rest text
      | None => project_loop rest text
      end
  end.

Definition amount_patterns : list regex :=
  [ pat "bez\s+dph\s*[:\s]*([0-9\s]+[.,][0-9]+)";
    pat "součet\s*[:\s]*([0-9\s]+[.,][0-9]+)";
    pat "základ\s+dph\s*[:\s]*([0-9\s]+[.,][0-9]+)";
    pat "celkem\s+k\s+úhradě\s*\([^)]*\)\s*([0-9\s]+[.,][0-9]+)";
    pat "celkem\s+k\s+úhradě\s*:?\s*([0-9\s,]+[.,]?[0-9]+)";
    pat "(?:celkem|celková\s+částka|suma|částka)\s*:?\s*([0-9\s,]+[.,]?[0-9]+)\s*(?:kč|czk)";
    pat "(?:total|amount|sum|subtotal|due|invoice\s+total)\s*:?\s*([0-9\s,]+[.,]?[0-9]+)\s*(?:kč|czk|eur|€)" ].

(** The normalization of a captured amount: [strip], the spaces removed,
    commas turned into points, and of several points only the last kept. *)
Definition normalize_amount (captured : pystr) : pystr :=
  let amount_str := strip captured in
  let amount_str := replace_char 44 (py ".") (replace_char 32 (py "") amount_str) in
  let parts := split_char 46 amount_str in
  if (2 <? length parts)%nat
  then join (removelast parts) ++ py "." ++ default [] (last parts)
  else amount_str.

(** An element of [all_amounts]. *)
Record CandidateAmount : Type := MkCandidate {
  amount : pystr;
  value : pyfloat;
  cand_currency : pystr;
  matched_text : pystr;
}.

(** What the amount loops update: the list [all_amounts] and the two
    entries [invoicedTotal] and [currency] of [extracted]. *)
Record amount_state : Type := MkAmounts {
  all_amounts : list CandidateAmount;
  st_total : pystr;
  st_currency : pystr;
}.

Definition currency_of_candidate (g0 : pystr) : pystr :=
  if contains (py "eur") (lower g0) || contains (py "€") g0
  then py "EUR" else py "CZK".

Definition currency_of_label (g0 : pystr) : pystr :=
  if contains (py "eur") (lower g0) then py "EUR" else py "CZK".

(** The inner loop, over the matches of one pattern.  A [ValueError] of
    [float] and an amount out of range go on with the next match; a match
    with a VAT keyword sets the total and leaves this loop ([break]). *)
Fixpoint scan_matches (matches : list Match) (st : amount_state) : amount_state :=
  match matches with
  | [] => st
  | m :: rest =>
      let amount_str := normalize_amount (group 1 m) in
      match py_float amount_str with
      | None => scan_matches rest st
      | Some amount =>
          if float_between 100 100000000 amount then
            let g0 := group 0 m in
            let all :=
              all_amounts st ++
              [MkCandidate amount_str amount (currency_of_candidate g0) g0] in
            if contains (py "bez") (lower g0) && contains (py "dph") (lower g0)
            then MkAmounts all amount_str (currency_of_label g0)
            else if contains (py "součet") (lower g0)
                    || contains (py "základ") (lower g0)
            then MkAmounts all amount_str (currency_of_label g0)
            else scan_matches rest (MkAmounts all (st_total st) (st_currency st))
          else scan_matches rest st
      end
  end.

(** The outer loop, over the patterns; the [break] above does not end it. *)
Definition scan_patterns (patterns : list regex) (text : pystr)
    (st : amount_state) : amount_state :=
  fold_left (fun st pattern => scan_matches (re_finditer true pattern text) st)
    patterns st.

(** [l.sort(key=lambda x: x['value'], reverse=True)]: descending and
    stable. *)
Fixpoint insert_desc (x : CandidateAmount) (l : list CandidateAmount)
  : list CandidateAmount :=
  match l with
  | [] => [x]
  | y :: l' =>
      if float_ltb (value x) (value y) then y :: insert_desc x l' else x :: l
  end.

Definition sort_desc (l : list CandidateAmount) : list CandidateAmount :=
  foldr insert_desc [] l.

(** [if not extracted['invoicedTotal'] and all_amounts: ...] *)
Definition use_largest (st : amount_state) : amount_state :=
  match st_total st, sort_desc (all_amounts st) with
  | [], largest :: _ =>
      MkAmounts (sort_desc (all_amounts st)) (amount largest) (cand_currency largest)
  | _, _ => st
  end.

Definition extract_amounts (text : pystr) : amount_state :=
  use_largest (scan_patterns amount_patterns text (MkAmounts [] (py "") (py "CZK"))).

Definition invoice_date_patterns : list regex :=
  [ pat "datum\s+vystavení\s*:?\s*(\d{1,2}\.\d{1,2}\.\d{2,4})";
    pat "(?:invoice\s*date|date\s*of\s*invoice|issued)\s*:?\s*(\d{1,2}[\/\-\.]\d{1,2}[\/\-\.]\d{2,4})";
    pat "datum\s*:?\s*(\d{1,2}[\/\-\.]\d{1,2}[\/\-\.]\d{2,4})" ].

Definition due_date_patterns : list regex :=
  [ pat "datum\s+splatnosti\s*:?\s*(\d{1,2}\.\d{1,2}\.\d{2,4})";
    pat "(?:due\s*date|payment\s*due|pay\s*by|splatnost)\s*:?\s*(\d{1,2}[\/\-\.]\d{1,2}[\/\-\.]\d{2,4})" ].

Definition extract_date (patterns : list regex) (text : pystr) : pystr :=
  match first_search patterns text with
  | Some m => group 1 m
  | None => []
  end.

Definition md_line_pattern : regex :=
  pat "MD\s+([0-9]+)\s+([0-9\s,]+[.,][0-9]+)".

(** [x.strip().replace(' ', '').replace(',', '.')] *)
Definition normalize_rate (captured : pystr) : pystr :=
  replace_char 44 (py ".") (replace_char 32 (py "") (strip captured)).

(** The loop over the line items: [md_values] and [md_rates] grow by the
    counts and rates that are in range; a [ValueError] goes on with the next
    line item, after the count of this one has been kept. *)
Fixpoint md_scan (matches : list Match) (md_values : list Z)
    (md_rates : list pystr) : list Z * list pystr :=
  match matches with
  | [] => (md_values, md_rates)
  | m :: rest =>
      match py_int (group 1 m) with
      | None => md_scan rest md_values md_rates
      | Some md_count =>
          let md_values' :=
            if (0 <? md_count)%Z && (md_count <? 1000)%Z
            then md_values ++ [md_count] else md_values in
          let rate_str := normalize_rate (group 2 m) in
          match py_float rate_str with
          | None => md_scan rest md_values' md_rates
          | Some rate =>
              md_scan rest md_values'
                (if float_between 100 100000 rate
                 then md_rates ++ [rate_str] else md_rates)
          end
      end
  end.

(** [sum(md_values)] *)
Definition sum_Z (l : list Z) : Z := fold_left Z.add l 0%Z.

Definition pocet_mj_pattern : regex := pat "počet\s+mj\s*:?\s*([0-9]+)".
Definition cena_mj_pattern : regex := pat "cena\s+mj\s*:?\s*([0-9\s,]+[.,][0-9]+)".

(** [numberOfMDs]: the sum of the counts kept, else the label
    [Počet MJ:]. *)
Definition extract_number_of_mds (text : pystr) : pystr :=
  let md_values := fst (md_scan (re_finditer true md_line_pattern text) [] []) in
  let from_lines :=
    match md_values with
    | [] => []
    | _ :: _ => py_str_int (sum_Z md_values)
    end in
  match from_lines with
  | [] =>
      match re_search true pocet_mj_pattern text with
      | Some m => group 1 m
      | None => []
      end
  | _ :: _ => from_lines
  end.

(** [mdRate]: the first rate kept, else the label [Cena MJ:]. *)
Definition extract_md_rate (text : pystr) : pystr :=
  let md_rates := snd (md_scan (re_finditer true md_line_pattern text) [] []) in
  let from_lines :=
    match md_rates with
    | [] => []
    | first :: _ => first
    end in
  match from_lines with
  | [] =>
      match re_search true cena_mj_pattern text with
      | Some m =>
          let rate_str := normalize_rate (group 1 m) in
          match py_float rate_str with
          | Some rate => if float_between 100 100000 rate then rate_str else []
          | None => []
          end
      | None => []
      end
  | _ :: _ => from_lines
  end.

Definition client_patterns : list regex :=
  [ pat "odběratel\s*:?\s*[^\n]*\n[^\n]*\n[^\n]*\n([^\n]+(?:s\.r\.o\.|s\.r\.o|a\.s\.|spol\.|spol|Ltd\.|Inc\.|LLC|GmbH|Corp\.))";
    pat "odběratel\s*:?\s*[^\n]*\n[^\n]*\n([^\n]+(?:s\.r\.o\.|s\.r\.o|a\.s\.|spol\.))";
    pat "odběratel\s*:?\s*[^\n]*\n([^\n]+(?:s\.r\.o\.|s\.r\.o|a\.s\.|spol\.))";
    pat "odběratel\s*:?\s*([^\n]+(?:s\.r\.o\.|s\.r\.o|a\.s\.|spol\.))";
    pat "buyer\s*:?\s*([^\n]+(?:Ltd\.|Inc\.|LLC|GmbH|Corp\.))";
    pat "client\s*:?\s*([^\n]+)" ].

Definition ico_pattern : regex := pat "\s+IČO:\s*\d+".
Definition leading_pattern : regex := pat "^\s*[^\w]*".

(** The clean-up of a captured client name.  ([re.MULTILINE] changes the
    anchors only, and the client patterns have none.) *)
Definition clean_client (captured : pystr) : pystr :=
  let client_name := strip captured in
  let client_name := strip (re_sub ico_pattern (py "") client_name) in
  strip (re_sub leading_pattern (py "") client_name).

(** The loop over [client_patterns]: it stops at the first pattern whose
    cleaned name has a length strictly between 3 and 200. *)
Fixpoint client_loop (patterns : list regex) (text : pystr) : pystr :=
  match patterns with
  | [] => []
  | pattern :: rest =>
      match re_search true pattern text with
      | Some m =>
          let client_name := clean_client (group 1 m) in
          if (3 <? length client_name)%nat && (length client_name <? 200)%nat
          then client_name
          else client_loop rest text
      | None => client_loop rest text
      end
  end.

(** [x or y] on strings *)
Definition py_or (x y : pystr) : pystr :=
  match x with [] => y | _ :: _ => x end.

(** [extract_with_patterns(text)] *)
Definition extract_with_patterns (text : pystr) : ExtractedInvoice :=
  let invoice_number := extract_invoice_number text in
  let project_name := project_loop project_patterns text in
  let amounts := extract_amounts text in
  {| projectName :=
       match project_name with
       | [] => py_or invoice_number (py "Imported Invoice")
       | _ :: _ => project_name
       end;
     invoicedTotal := st_total amounts;
     currency := st_currency amounts;
     exchangeRate := py "";
     invoiceDate := extract_date invoice_date_patterns text;
     invoiceDueDate := extract_date due_date_patterns text;
     invoiceNumber := invoice_number;
     numberOfMDs := extract_number_of_mds text;
     mdRate := extract_md_rate text;
     client := client_loop client_patterns text |}.

(** ** The correction analysis ([train_model.py]) *)

(** A feedback entry, a dictionary read with [entry.get(key, default)]: a
    key may be missing.  [corrections] maps field names to flags and
    [correctedData] maps field names to strings. *)
Record FeedbackEntry : Type := MkEntry {
  corrections : option (gmap string bool);
  rawText : option pystr;
  correctedData : option (gmap string pystr);
  extractedData : option (gmap string pystr);
}.

(** The two dictionaries that the loop of [analyze_corrections] updates:
    [patterns], from a field to the [defaultdict(int)] of its keywords, and
    [corrections_count]. *)
Record tallies : Type := MkTallies {
  patterns : gmap string (gmap pystr nat);
  corrections_count : gmap string nat;
}.

(** The value that [analyze_corrections] returns. *)
Record analysis : Type := MkAnalysis {
  a_patterns : gmap string (gmap pystr nat);
  a_corrections_count : gmap string nat;
  total_feedback : nat;
}.

(** [corrections.get(field)] as a condition *)
Definition flagged (entry : FeedbackEntry) (field : string) : bool :=
  default false (default ∅ (corrections entry) !! field).

(** [corrected.get(field, '')] *)
Definition corrected_get (entry : FeedbackEntry) (field : string) : pystr :=
  default [] (default ∅ (correctedData entry) !! field).

(** [corrections_count[field] += 1] *)
Definition count_correction (field : string) (t : tallies) : tallies :=
  MkTallies (patterns t)
    (<[field := S (default O (corrections_count t !! field))]> (corrections_count t)).

(** [patterns[field][key] += 1] on the [defaultdict(int)] of the field *)
Definition tally (field : string) (key : pystr) (t : tallies) : tallies :=
  let table := default ∅ (patterns t !! field) in
  MkTallies
    (<[field := <[key := S (default O (table !! key))]> table]> (patterns t))
    (corrections_count t).

(** [for key in keys: if key in context: patterns[field][key] += 1] *)
Definition tally_present (field : string) (keys : list pystr) (context : pystr)
    (t : tallies) : tallies :=
  fold_left (fun t key => if contains key context then tally field key t else t)
    keys t.

Definition project_prefixes : list pystr :=
  [ py "project"; py "description"; py "service"; py "item"; py "předmět";
    py "název"; py "účel" ].

Definition total_keywords : list pystr :=
  [ py "celkem"; py "total"; py "amount"; py "suma"; py "částka"; py "k úhradě" ].

Section Analysis.

(** [re.finditer(pattern, text)] for a pattern that is built at run time
    from a corrected value: the spans [(m.start(), m.end())] of the
    matches, or [None] where [re] rejects the pattern. *)
Variable finditer_spans : pystr -> pystr -> option (list (nat * nat)).

Definition learn_project_name (entry : FeedbackEntry) (raw_text : pystr)
    (t : tallies) : tallies :=
  if flagged entry "projectName" then
    let t := count_correction "projectName" t in
    let project_name := lower (corrected_get entry "projectName") in
    if contains project_name raw_text then
      let idx := find project_name raw_text in
      let context :=
        slice (idx - 50)
          (Nat.min (length raw_text) (idx + length project_name + 50)) raw_text in
      tally_present "projectName" project_prefixes context t
    else t
  else t.

Definition learn_invoiced_total (entry : FeedbackEntry) (raw_text : pystr)
    (t : tallies) : option tallies :=
  if flagged entry "invoicedTotal" then
    let t := count_correction "invoicedTotal" t in
    let total := corrected_get entry "invoicedTotal" in
    match total with
    | [] => Some t
    | _ :: _ =>
        let total_str := replace_char 44 (py ",") (replace_char 46 (py "\.") total) in
        let pattern := py "(" ++ total_str ++ py ")" in
        match finditer_spans pattern raw_text with
        | None => None
        | Some matches =>
            Some (fold_left
                    (fun t '(m_start, m_end) =>
                       let context :=
                         slice (m_start - 30)
                           (Nat.min (length raw_text) (m_end + 30)) raw_text in
                       tally_present "invoicedTotal" total_keywords context t)
                    matches t)
        end
    end
  else Some t.

Definition learn_currency (entry : FeedbackEntry) (t : tallies) : tallies :=
  if flagged entry "currency" then
    tally "currency" (corrected_get entry "currency")
      (count_correction "currency" t)
  else t.

(** The body of [for entry in feedback]; [None] when it raises. *)
Definition analyze_entry (entry : FeedbackEntry) (t : tallies) : option tallies :=
  let raw_text := lower (default [] (rawText entry)) in
  let t := learn_project_name entry raw_text t in
  match learn_invoiced_total entry raw_text t with
  | Some t => Some (learn_currency entry t)
  | None => None
  end.

Fixpoint analyze_loop (feedback : list FeedbackEntry) (t : tallies)
  : option tallies :=
  match feedback with
  | [] => Some t
  | entry :: rest =>
      match analyze_entry entry t with
      | Some t' => analyze_loop rest t'
      | None => None
      end
  end.

Definition initial_tallies : tallies :=
  MkTallies
    (<["projectName" := ∅]> (<["invoicedTotal" := ∅]>
       (<["currency" := ∅]> (<["invoiceNumber" := ∅]> ∅))))
    (<["projectName" := O]> (<["invoicedTotal" := O]>
       (<["currency" := O]> (<["invoiceNumber" := O]> ∅)))).

(** [analyze_corrections(feedback)] *)
Definition analyze_corrections (feedback : list FeedbackEntry) : option analysis :=
  match analyze_loop feedback initial_tallies with
  | Some t => Some (MkAnalysis (patterns t) (corrections_count t) (length feedback))
  | None => None
  end.

End Analysis.

(** [re.finditer] on a run-time pattern of the syntax that [re_compile]
    knows (no flags are passed in [train_model.py]). *)
Definition compiled_spans (pattern text : pystr) : option (list (nat * nat)) :=
  match re_compile pattern with
  | Some r => Some (map (fun m => (m_start m, m_end m)) (re_finditer false r text))
  | None => None
  end.

(** *** Pattern synthesis ([improve_patterns]) *)

(** [sorted(items, key=lambda x: x[1], reverse=True)]: by descending count,
    items of equal count in the order they have in the dictionary. *)
Fixpoint insert_by_count (x : pystr * nat) (l : list (pystr * nat))
  : list (pystr * nat) :=
  match l with
  | [] => [x]
  | y :: l' =>
      if (snd x <? snd y)%nat then y :: insert_by_count x l' else x :: l
  end.

Definition sorted_by_count (items : list (pystr * nat)) : list (pystr * nat) :=
  foldr insert_by_count [] items.

(** The two f-strings of [improve_patterns]; the keyword is put in as it
    is, without [re.escape]. *)
Definition project_template (prefix : pystr) : pystr :=
  prefix ++ py "\s*:?\s*([^\n]{5,100})".

Definition total_template (keyword : pystr) : pystr :=
  keyword ++ py "\s*:?\s*([0-9\s,]+[.,]?[0-9]*)".

(** The dictionary [improved], which has these two keys. *)
Record improved_patterns : Type := MkImproved {
  improved_projectName : list pystr;
  improved_invoicedTotal : list pystr;
}.

(** [improve_patterns(analysis)].  Of [analysis] the function reads
    [analysis['patterns']] only; a table of keywords is given by the list
    of its items in the order of the dictionary, which decides between
    keywords of equal count. *)
Definition improve_patterns (tables : gmap string (list (pystr * nat)))
  : improved_patterns :=
  let project_prefixes := default [] (tables !! "projectName") in
  let total_keywords := default [] (tables !! "invoicedTotal") in
  {| improved_projectName :=
       map (fun '(prefix, count) => project_template prefix)
         (take 5 (sorted_by_count project_prefixes));
     improved_invoicedTotal :=
       map (fun '(keyword, count) => total_template keyword)
         (take 5 (sorted_by_count total_keywords)) |}.

(** ** The endpoint [/extract] ([extract_invoice]) *)

(** What the endpoint answers: an error with its status and message, or
    the success body with status 200. *)
Inductive response : Type :=
  | ErrorResponse (status : nat) (message : pystr)
  | SuccessResponse (extractedData : ExtractedInvoice) (rawText : pystr)
      (fullTextLength : nat).

(** [text += page_text + "\n"] for the pages that have text. *)
Fixpoint pages_text (text : pystr) (pages : list (option pystr)) : pystr :=
  match pages with
  | [] => text
  | Some (c :: page_text) :: rest =>
      pages_text (text ++ (c :: page_text) ++ [10]) rest
  | _ :: rest => pages_text text rest
  end.

Section Endpoint.

(** [base64.b64decode], and the texts that [pdfplumber] gives for the pages
    of a document ([None] for a page without text); either may raise, with
    the message of its exception. *)
Variable b64decode : pystr -> pystr + list N.
Variable page_texts : list N -> pystr + list (option pystr).

(** [extract_invoice()] from [pdf_base64 = data.get('pdf')] on. *)
Definition extract_invoice (pdf_base64 : option pystr) : response :=
  match pdf_base64 with
  | None | Some [] => ErrorResponse 400 (py "No PDF data provided")
  | Some (c :: encoded) =>
      match b64decode (c :: encoded) with
      | inl message => ErrorResponse 500 message
      | inr pdf_bytes =>
          match page_texts pdf_bytes with
          | inl message => ErrorResponse 500 message
          | inr pages =>
              let text := pages_text (py "") pages in
              match strip text with
              | [] => ErrorResponse 400 (py "No text extracted from PDF")
              | _ :: _ =>
                  SuccessResponse (extract_with_patterns text)
                    (take 2000 text) (length text)
              end
          end
      end
  end.

End Endpoint.

(** ** Vocabulary of the properties *)

Definition newline : pystr := [10].

(** The matched text carries a VAT-exclusive ([bez] with [dph]) or a
    VAT-breakdown ([součet], [základ]) keyword: the two tests of the amount
    loop. *)
Definition has_vat_keyword (g0 : pystr) : bool :=
  (contains (py "bez") (lower g0) && contains (py "dph") (lower g0))
  || contains (py "součet") (lower g0) || contains (py "základ") (lower g0).

(** The state of the amount loops when they are left, before the largest
    candidate is looked at. *)
Definition scanned_amounts (text : pystr) : amount_state :=
  scan_patterns amount_patterns text (MkAmounts [] (py "") (py "CZK")).


(** The first two steps of the normalization after [strip]: the spaces
    removed and the commas turned into points. *)
Definition spaces_and_commas (s : pystr) : pystr :=
  replace_char 44 (py ".") (replace_char 32 (py "") s).



(** The line items of a text: the matches of [md_line_pattern]. *)
Definition line_items (text : pystr) : list Match :=
  re_finditer true md_line_pattern text.

(** The count of a line item, when it is strictly between 0 and 1000. *)
Definition plausible_count (m : Match) : option Z :=
  match py_int (group 1 m) with
  | Some n => if (0 <? n)%Z && (n <? 1000)%Z then Some n else None
  | None => None
  end.

(** The normalized rate of a line item, when it is a number strictly
    between 100 and 100000. *)
Definition plausible_rate (m : Match) : option pystr :=
  match py_int (group 1 m), py_float (normalize_rate (group 2 m)) with
  | Some _, Some rate =>
      if float_between 100 100000 rate then Some (normalize_rate (group 2 m))
      else None
  | _, _ => None
  end.

(** The value of the label [Počet MJ:], and the value of the label
    [Cena MJ:] when it is a number strictly between 100 and 100000. *)
Definition pocet_mj_label (text : pystr) : pystr :=
  match re_search true pocet_mj_pattern text with
  | Some m => group 1 m
  | None => []
  end.

Definition cena_mj_label (text : pystr) : pystr :=
  match re_search true cena_mj_pattern text with
  | Some m =>
      match py_float (normalize_rate (group 1 m)) with
      | Some rate =>
          if float_between 100 100000 rate then normalize_rate (group 1 m) else []
      | None => []
      end
  | None => []
  end.



(** The two kinds of update that the loop of [analyze_corrections] makes. *)
Inductive update : Type :=
  | UCount (field : string)
  | UTally (field : string) (key : pystr).

Definition apply_update (u : update) (t : tallies) : tallies :=
  match u with
  | UCount field => count_correction field t
  | UTally field key => tally field key t
  end.

Definition apply_updates (us : list update) (t : tallies) : tallies :=
  fold_left (fun t u => apply_update u t) us t.

(** A function on the tallies that is a sequence of such updates, the same
    for every state of the tallies. *)
Definition is_updates (F : tallies -> tallies) : Prop :=
  exists us, forall t, F t = apply_updates us t.

(** The same for a function that may raise, which it then does for every
    state of the tallies. *)
Definition is_updates_or_raises (F : tallies -> option tallies) : Prop :=
  (forall t, F t = None)
  \/ exists us, forall t, F t = Some (apply_updates us t).

(** [corrections_count[field] += 1] when [b] holds. *)
Definition count_if (b : bool) (field : string) (c : gmap string nat)
  : gmap string nat :=
  if b then <[field := S (default O (c !! field))]> c else c.

(** The number of entries of a feedback list that flag a field. *)
Definition flagged_entries (field : string) (feedback : list FeedbackEntry) : nat :=
  length (filter (fun entry => flagged entry field = true) feedback).

(** An entry whose only correction is the invoice number. *)
Definition invoice_number_entry : FeedbackEntry :=
  MkEntry (Some (<["invoiceNumber" := true]> ∅))
    (Some (py "Faktura číslo: 202511038"))
    (Some (<["invoiceNumber" := py "202511038"]> ∅))
    (Some (<["invoiceNumber" := py "20251103"]> ∅)).

(** An entry that corrects the total and the currency, and an entry that
    corrects the project name. *)
Definition total_entry : FeedbackEntry :=
  MkEntry (Some (<["invoicedTotal" := true]> (<["currency" := true]> ∅)))
    (Some (py "Celkem k úhradě: 495000.00 EUR"))
    (Some (<["invoicedTotal" := py "495000.00"]> (<["currency" := py "EUR"]> ∅)))
    (Some (<["invoicedTotal" := py "598950.00"]> (<["currency" := py "CZK"]> ∅))).

Definition project_entry : FeedbackEntry :=
  MkEntry (Some (<["projectName" := true]> ∅))
    (Some (py "Project: Website redesign"))
    (Some (<["projectName" := py "Website redesign"]> ∅))
    (Some (<["projectName" := py "Imported Invoice"]> ∅)).

(** All patterns of the service. *)
Definition service_patterns : list regex :=
  invoice_num_patterns ++ project_patterns ++ amount_patterns
  ++ invoice_date_patterns ++ due_date_patterns
  ++ [md_line_pattern; pocet_mj_pattern; cena_mj_pattern]
  ++ client_patterns ++ [ico_pattern; leading_pattern].

Definition is_eps (r : regex) : bool :=
  match r with Eps => true | _ => false end.

(** A candidate is plausible: its amount string is a number strictly
    between 100 and 100000000, and its currency is one of the two codes. *)
Definition candidate_ok (c : CandidateAmount) : Prop :=
  float_between 100 100000000 (value c) = true
  /\ py_float (amount c) = Some (value c)
  /\ (cand_currency c = py "CZK" \/ cand_currency c = py "EUR").

(** The candidate that a match of an amount pattern gives, when its
    normalized amount is a number strictly between 100 and 100000000. *)
Definition plausible_candidate (m : Match) : option CandidateAmount :=
  match py_float (normalize_amount (group 1 m)) with
  | Some a =>
      if float_between 100 100000000 a
      then Some (MkCandidate (normalize_amount (group 1 m)) a
                   (currency_of_candidate (group 0 m)) (group 0 m))
      else None
  | None => None
  end.

(** All plausible candidates of a text: those of the matches of the seven
    amount patterns, pattern after pattern. *)
Definition labelled_candidates (text : pystr) : list CandidateAmount :=
  flat_map (fun pattern => omap plausible_candidate (re_finditer true pattern text))
    amount_patterns.


(** What the amount loops keep true of their state. *)
Definition amounts_inv (st : amount_state) : Prop :=
  (forall c, c ∈ all_amounts st -> candidate_ok c)
  /\ (st_currency st = py "CZK" \/ st_currency st = py "EUR")
  /\ ((st_total st = py "" /\ st_currency st = py "CZK")
      \/ exists c, c ∈ all_amounts st /\ has_vat_keyword (matched_text c) = true).

(** *** The words of a pattern *)

(** The texts that a match of a pattern can cover (the start anchor is
    taken as the empty word wherever it stands). *)
Fixpoint lang (ic : bool) (r : regex) (w : pystr) : Prop :=
  match r with
  | Eps => w = []
  | Bol => w = []
  | Chr c => exists x, w = [x] /\ chr_match ic c x = true
  | Cls neg items => exists x, w = [x] /\ cls_match ic neg items x = true
  | Seq a b => exists w1 w2, w = w1 ++ w2 /\ lang ic a w1 /\ lang ic b w2
  | Alt a b => lang ic a w \/ lang ic b w
  | Rep a lo hi =>
      exists ws,
        w = concat ws /\ Forall (lang ic a) ws /\ (lo <= length ws)%nat
        /\ forall h, hi = Some h -> (length ws <= Nat.max lo h)%nat
  | Grp n a => lang ic a w
  end.

(** The least length of a word of a pattern, and the greatest one when
    there is one. *)
Fixpoint min_len (r : regex) : nat :=
  match r with
  | Eps | Bol => 0
  | Chr _ | Cls _ _ => 1
  | Seq a b => min_len a + min_len b
  | Alt a b => Nat.min (min_len a) (min_len b)
  | Rep a lo _ => lo * min_len a
  | Grp _ a => min_len a
  end.

Fixpoint max_len (r : regex) : option nat :=
  match r with
  | Eps | Bol => Some 0%nat
  | Chr _ | Cls _ _ => Some 1%nat
  | Seq a b =>
      match max_len a, max_len b with
      | Some x, Some y => Some (x + y)%nat
      | _, _ => None
      end
  | Alt a b =>
      match max_len a, max_len b with
      | Some x, Some y => Some (Nat.max x y)
      | _, _ => None
      end
  | Rep a lo hi =>
      match hi, max_len a with
      | Some h, Some x => Some (Nat.max lo h * x)%nat
      | _, _ => None
      end
  | Grp _ a => max_len a
  end.

(** A character that some literal or class of the pattern accepts. *)
Fixpoint accepts (ic : bool) (r : regex) (x : N) : bool :=
  match r with
  | Eps | Bol => false
  | Chr c => chr_match ic c x
  | Cls neg items => cls_match ic neg items x
  | Seq a b | Alt a b => accepts ic a x || accepts ic b x
  | Rep a _ _ | Grp _ a => accepts ic a x
  end.

(** The groups of a pattern, with their numbers. *)
Fixpoint groups_of (r : regex) : list (nat * regex) :=
  match r with
  | Grp n a => (n, a) :: groups_of a
  | Seq a b | Alt a b => groups_of a ++ groups_of b
  | Rep a _ _ => groups_of a
  | Eps | Bol | Chr _ | Cls _ _ => []
  end.

(** A state of the matcher in a text: its position is in the text, the
    rest is the text from there, and every group closed so far holds a word
    of a group of that number among [gs]. *)
Definition state_in (ic : bool) (gs : list (nat * regex)) (text : pystr)
    (st : mstate) : Prop :=
  m_rest st = drop (m_pos st) text
  /\ (m_pos st <= length text)%nat
  /\ forall n s e, (n, (s, e)) ∈ m_caps st ->
       exists a, (n, a) ∈ gs /\ lang ic a (slice s e text).

(** A matcher whose results come from words of [L]: what it gives is
    what its continuation gives for a state reached over such a word. *)
Definition sound_matcher (ic : bool) (gs : list (nat * regex)) (text : pystr)
    (L : pystr -> Prop) (m : matcher) : Prop :=
  forall st k res,
    state_in ic gs text st -> m st k = Some res ->
    exists w st1,
      state_in ic gs text st1
      /\ m_rest st = w ++ m_rest st1
      /\ m_pos st1 = (m_pos st + length w)%nat
      /\ L w /\ k st1 = Some res.

(** What a match object of a pattern in a text is sure to be. *)
Definition match_in (ic : bool) (r : regex) (text : pystr) (m : Match) : Prop :=
  m_string m = text
  /\ (m_start m <= m_end m <= length text)%nat
  /\ lang ic r (group 0 m)
  /\ forall n s e, (n, (s, e)) ∈ m_groups m ->
       exists a, (n, a) ∈ groups_of r /\ lang ic a (slice s e text).

(** [p] occurs in [s]. *)
Definition is_substring (p s : pystr) : Prop :=
  exists before after, s = before ++ p ++ after.

(** A character of a date: a decimal digit, a point, a slash or a hyphen. *)
Definition date_char (x : N) : bool :=
  is_digit x || (x =? 46) || (x =? 47) || (x =? 45).

(** An empty field, or a date as the date patterns capture it from the
    text: six to ten characters of a date. *)
Definition date_or_empty (text d : pystr) : Prop :=
  d = []
  \/ ((6 <= length d <= 10)%nat
      /\ Forall (fun x => date_char x = true) d
      /\ is_substring d text).

(** Made of ASCII digits, made of characters that are no white space. *)
Definition all_digits (s : pystr) : Prop :=
  Forall (fun x => is_ascii_digit x = true) s.

Definition no_space_inside (s : pystr) : Prop :=
  Forall (fun x => is_space x = false) s.

(** The matched text names the euro. *)
Definition euro_token (g0 : pystr) : bool :=
  contains (py "eur") (lower g0) || contains (py "€") g0.

(** What the amount loops keep true of their state, with respect to the
    plausible candidates [pool] of the text: the candidates kept are among
    them, and the total and the currency are the initial ones or come from
    one of the candidates kept. *)
Definition amounts_from (pool : list CandidateAmount) (st : amount_state) : Prop :=
  (forall c, c ∈ all_amounts st -> c ∈ pool)
  /\ ((st_total st = [] /\ st_currency st = py "CZK")
      \/ exists c, c ∈ all_amounts st /\ st_total st = amount c
                   /\ st_currency st = currency_of_label (matched_text c)).

(** A non-empty amount string that is a number strictly between [lo] and
    [hi]. *)
Definition number_between (lo hi : Z) (s : pystr) : Prop :=
  s <> [] /\ exists v, py_float s = Some v /\ float_between lo hi v = true.

(** *** Vocabulary of the correction analysis *)

(** [raw_text] and [pattern] of one turn of the loop. *)
Definition raw_text_of (entry : FeedbackEntry) : pystr :=
  lower (default [] (rawText entry)).



(** The table of a field, and the sum of the frequencies of a table. *)
Definition table_of (tables : gmap string (gmap pystr nat)) (field : string)
  : gmap pystr nat :=
  default ∅ (tables !! field).

Definition table_total (table : gmap pystr nat) : nat :=
  map_fold (fun _ v acc => (v + acc)%nat) O table.

(** What the loop of [analyze_corrections] keeps true of the tallies. *)
Definition tallies_ok (t : tallies) : Prop :=
  (forall field, field ∈ ["projectName"; "invoicedTotal"; "currency"; "invoiceNumber"]
                 -> is_Some (patterns t !! field))
  /\ table_of (patterns t) "invoiceNumber" = ∅
  /\ (forall key, is_Some (table_of (patterns t) "projectName" !! key) ->
                  key ∈ project_prefixes)
  /\ (forall key, is_Some (table_of (patterns t) "invoicedTotal" !! key) ->
                  key ∈ total_keywords)
  /\ (forall key, (default O (table_of (patterns t) "projectName" !! key)
                   <= default O (corrections_count t !! "projectName"))%nat)
  /\ table_total (table_of (patterns t) "currency")
     = default O (corrections_count t !! "currency").

(** A page that adds nothing but white space to the text: one without
    text, or one whose text is white space throughout. *)
Definition blank_page (page : option pystr) : bool :=
  forallb is_space (default [] page).

(** A decoder that accepts everything and a document of the given pages. *)
Definition decode_any (encoded : pystr) : pystr + list N := inr encoded.

Definition pages_are (pages : list (option pystr)) (pdf_bytes : list N)
  : pystr + list (option pystr) := inr pages.

(** A list of items gives the content of a table of the analysis. *)
Definition items_of (table : gmap pystr nat) (items : list (pystr * nat)) : Prop :=
  forall key count, (key, count) ∈ items -> table !! key = Some count.

(** [kept] are [n] of the most frequent of [items], the most frequent
    first: the items that are left out are counted no more often than any
    that is kept. *)
Definition by_count_descending (x y : pystr * nat) : Prop := (snd y <= snd x)%nat.

Definition most_frequent (n : nat) (items kept : list (pystr * nat)) : Prop :=
  exists dropped,
    Permutation items (kept ++ dropped)
    /\ length kept = Nat.min n (length items)
    /\ StronglySorted by_count_descending kept
    /\ forall x y, x ∈ kept -> y ∈ dropped -> (snd y <= snd x)%nat.

(** *** Vocabulary of the client patterns *)

















(** *** Checks on the character tables *)

(** The ranges of [is_space]. *)
Definition space_ranges : list (N * N) :=
  [ (9, 13); (28, 32); (133, 133); (160, 160); (5760, 5760); (8192, 8202);
    (8232, 8233); (8239, 8239); (8287, 8287); (12288, 12288) ].

(** No code point of [lo .. hi] is in a range of the table. *)
Definition outside_ranges (table : list (N * N)) (lo hi : N) : bool :=
  forallb (fun '(a, b) => (hi <? a) || (b <? lo)) table.

(** An entry of the lower-case mapping changes letters only: it starts at
    [A] or later and leaves the code points between [Z] and U+00C0 alone,
    no white space is in it, and what it maps to is a code point from [a]
    on that is no decimal digit. *)
Definition lower_entry_ok (e : N * N * N * N) : bool :=
  let '(lo, hi, step, target) := e in
  (lo <=? hi) && (65 <=? lo) && ((hi <=? 90) || (192 <=? lo)) && (97 <=? target)
  && outside_ranges space_ranges lo hi
  && outside_ranges decimal_ranges target (target + (hi - lo)).

(** An entry of the case fixes is for a small letter from [i] on; for an
    ASCII letter the other character is the dotless i or the long s. *)
Definition fix_entry_ok (e : N * list N) : bool :=
  let '(k, others) := e in
  (105 <=? k)
  && (negb (k <=? 122) || bool_decide (others = [305]) || bool_decide (others = [383])).

(** ** Texts of the examples *)

Definition text_bez_dph_and_celkem : pystr :=
  py "bez DPH: 495 000,00" ++ newline ++ py "Celkem k úhradě (CZK) 598 950,00".

Definition text_bez_dph_soucet_celkem : pystr :=
  py "bez DPH: 495 000,00" ++ newline ++ py "Součet: 500 000,00" ++ newline
  ++ py "Celkem k úhradě (CZK) 598 950,00".

Definition text_two_totals : pystr :=
  py "Celkem k úhradě: 123 456,00" ++ newline ++ py "Total: 200,50 EUR".

Definition text_two_md_lines : pystr :=
  py "MD 10 15 000,00" ++ newline ++ py "MD 8 15 000,00".

Definition text_md_count_out_of_range : pystr :=
  py "MD 1000 15 000,00" ++ newline ++ py "MD 8 15 000,00".

Definition text_md_rate_out_of_range : pystr :=
  py "MD 10 50,00" ++ newline ++ py "MD 8 15 000,00".




(** What the analysis returns for [total_entry] and [project_entry], and
    the items of its two keyword tables. *)
Definition example_analysis : analysis :=
  MkAnalysis
    (<["projectName" := <[py "project" := 1%nat]> ∅]>
       (<["invoicedTotal" := <[py "celkem" := 1%nat]> (<[py "k úhradě" := 1%nat]> ∅)]>
          (<["currency" := <[py "EUR" := 1%nat]> ∅]> (<["invoiceNumber" := ∅]> ∅))))
    (<["projectName" := 1%nat]> (<["invoicedTotal" := 1%nat]>
       (<["currency" := 1%nat]> (<["invoiceNumber" := O]> ∅))))
    2.

Definition example_tables : gmap string (list (pystr * nat)) :=
  <["projectName" := [(py "project", 1%nat)]]>
    (<["invoicedTotal" := [(py "celkem", 1%nat); (py "k úhradě", 1%nat)]]> ∅).

(** ** Properties of the field extractor *)

Arguments group : simpl never.
Arguments py : simpl never.
Arguments lower : simpl never.
Arguments contains : simpl never.
Arguments normalize_amount : simpl never.
Arguments normalize_rate : simpl never.
Arguments py_float : simpl never.
Arguments py_int : simpl never.
Arguments float_between : simpl never.
Arguments re_search : simpl never.
Arguments re_finditer : simpl never.
Arguments strip : simpl never.
Arguments clean_client : simpl never.
Arguments pat : simpl never.

(** Every pattern that the service writes compiles: none of them is the
    empty pattern that [pat] would give otherwise. *)
Lemma patterns_compile :
  forallb (fun r => negb (is_eps r)) service_patterns = true
  /\ length service_patterns = 29%nat.
Proof. vm_compute. split; reflexivity. Qed.

(** The example of the specification for the VAT-exclusive priority: with
    the two lines only, the amount without VAT is returned. *)
Example bez_dph_preferred_to_celkem :
  invoicedTotal (extract_with_patterns text_bez_dph_and_celkem) = py "495000.00"
  /\ currency (extract_with_patterns text_bez_dph_and_celkem) = py "CZK".
Proof. vm_compute. split; reflexivity. Qed.

(** C1 (code defect).  The [break] after a VAT keyword leaves the loop over
    the matches of one pattern only, and the loop over the patterns goes on:
    a text that contains both fragments of the claim and a later
    [Součet] line gets the [Součet] amount, not the [bez DPH] amount that
    the claim and the priority comment of the source give it. *)
Theorem C1_scan_goes_on_after_vat_keyword :
  contains (py "bez DPH: 495 000,00") text_bez_dph_soucet_celkem = true
  /\ contains (py "Celkem k úhradě (CZK) 598 950,00") text_bez_dph_soucet_celkem = true
  /\ invoicedTotal (extract_with_patterns text_bez_dph_soucet_celkem) = py "500000.00"
  /\ invoicedTotal (extract_with_patterns text_bez_dph_soucet_celkem) <> py "495000.00".
Proof. vm_compute. repeat split; try reflexivity. discriminate. Qed.

(** C5 (counterexample).  For the empty text the project name is not the
    empty string. *)
Lemma C5_project_name_of_empty_text :
  projectName (extract_with_patterns (py "")) <> py "".
Proof. vm_compute. discriminate. Qed.

(** C5 (amended).  For the empty text the extractor returns a record, in
    which every field is the empty string except [currency], which is
    [CZK], and [projectName], which is the placeholder [Imported Invoice]. *)
Theorem C5_empty_text :
  extract_with_patterns (py "") =
  {| projectName := py "Imported Invoice";
     invoicedTotal := py "";
     currency := py "CZK";
     exchangeRate := py "";
     invoiceDate := py "";
     invoiceDueDate := py "";
     invoiceNumber := py "";
     numberOfMDs := py "";
     mdRate := py "";
     client := py "" |}.
Proof. vm_compute. reflexivity. Qed.

(** C9 (code defect).  The value of the label [Počet MJ:] is taken as it
    stands: a count of 5000 is accepted, and so is a count of 0, while a
    count of 5000 on an [MD] line is refused and a rate of 50 after
    [Cena MJ:] is refused. *)
Theorem C9_pocet_mj_is_not_validated :
  numberOfMDs (extract_with_patterns (py "Počet MJ: 5000")) = py "5000"
  /\ numberOfMDs (extract_with_patterns (py "Počet MJ: 0")) = py "0"
  /\ numberOfMDs (extract_with_patterns (py "MD 5000 15 000,00")) = py ""
  /\ mdRate (extract_with_patterns (py "Cena MJ: 50,00")) = py ""
  /\ mdRate (extract_with_patterns (py "Cena MJ: 1 500,00")) = py "1500.00".
Proof. vm_compute. repeat split; reflexivity. Qed.

(** *** The order of floats *)

Lemma Qltb_false (a b : Q) : Qltb a b = false <-> (b <= a)%Q.
Proof.
  unfold Qltb. rewrite negb_false_iff. apply Qle_bool_iff.
Qed.

Lemma Qltb_true (a b : Q) : Qltb a b = true <-> (a < b)%Q.
Proof.
  unfold Qltb. rewrite negb_true_iff. split.
  - intros H. apply Qnot_le_lt. intros Hle.
    apply Qle_bool_iff in Hle. congruence.
  - intros H. destruct (Qle_bool b a) eqn:E; [|reflexivity].
    apply Qle_bool_iff in E. exfalso. exact (Qlt_not_le _ _ H E).
Qed.

Lemma float_ltb_irrefl (x : pyfloat) : float_ltb x x = false.
Proof.
  destruct x as [q|]; simpl; [|reflexivity].
  apply Qltb_false. apply Qle_refl.
Qed.

Lemma float_ltb_asym (x y : pyfloat) :
  float_ltb x y = true -> float_ltb y x = false.
Proof.
  destruct x as [p|], y as [q|]; simpl; try congruence.
  intros H. apply Qltb_true in H. apply Qltb_false. apply Qlt_le_weak, H.
Qed.

(** [y <= x] and [z <= y] give [z <= x]. *)
Lemma float_not_lt_trans (x y z : pyfloat) :
  float_ltb x y = false -> float_ltb y z = false -> float_ltb x z = false.
Proof.
  destruct x as [p|], y as [q|], z as [r|]; simpl; try congruence.
  rewrite !Qltb_false. intros H1 H2. eapply Qle_trans; eassumption.
Qed.

(** *** The descending sort *)

Lemma insert_desc_elem (x y : CandidateAmount) (l : list CandidateAmount) :
  y ∈ insert_desc x l <-> y = x \/ y ∈ l.
Proof.
  induction l as [|z l IH]; simpl.
  - rewrite list_elem_of_singleton, elem_of_nil. tauto.
  - destruct (float_ltb (value x) (value z)).
    + rewrite !elem_of_cons, IH. tauto.
    + rewrite !elem_of_cons. tauto.
Qed.

Lemma sort_desc_elem (y : CandidateAmount) (l : list CandidateAmount) :
  y ∈ sort_desc l <-> y ∈ l.
Proof.
  induction l as [|x l IH]; simpl; [reflexivity|].
  rewrite insert_desc_elem, elem_of_cons, IH. reflexivity.
Qed.

(** The head of the sorted list is a largest element of the list. *)
Lemma sort_desc_head (l : list CandidateAmount) (m : CandidateAmount)
    (r : list CandidateAmount) :
  sort_desc l = m :: r ->
  m ∈ l /\ forall y, y ∈ l -> float_ltb (value m) (value y) = false.
Proof.
  revert m r. induction l as [|x l IH]; intros m r; simpl; [discriminate|].
  destruct (sort_desc l) as [|h t] eqn:E; simpl.
  - intros [= <- <-].
    assert (l = []) as ->.
    { destruct l as [|z l']; [reflexivity|].
      assert (z ∈ sort_desc (z :: l')) as Hz by (apply sort_desc_elem; left).
      rewrite E in Hz. inversion Hz. }
    split; [left|]. intros y Hy. apply list_elem_of_singleton in Hy as ->.
    apply float_ltb_irrefl.
  - destruct (IH h t eq_refl) as [Hh Hmax].
    destruct (float_ltb (value x) (value h)) eqn:Hlt; intros [= <- <-].
    + split; [right; exact Hh|].
      intros y Hy. apply elem_of_cons in Hy as [->|Hy].
      * apply float_ltb_asym, Hlt.
      * apply Hmax, Hy.
    + split; [left|].
      intros y Hy. apply elem_of_cons in Hy as [->|Hy].
      * apply float_ltb_irrefl.
      * eapply float_not_lt_trans; [exact Hlt | apply Hmax, Hy].
Qed.

Lemma sort_desc_nil (l : list CandidateAmount) : sort_desc l = [] -> l = [].
Proof.
  destruct l as [|z l']; [reflexivity|]. intros E.
  assert (z ∈ sort_desc (z :: l')) as Hz by (apply sort_desc_elem; left).
  rewrite E in Hz. inversion Hz.
Qed.

(** *** The amount loops *)

Lemma currency_of_candidate_cases (g0 : pystr) :
  currency_of_candidate g0 = py "CZK" \/ currency_of_candidate g0 = py "EUR".
Proof.
  unfold currency_of_candidate.
  destruct (contains (py "eur") (lower g0) || contains (py "€") g0); auto.
Qed.

Lemma currency_of_label_cases (g0 : pystr) :
  currency_of_label g0 = py "CZK" \/ currency_of_label g0 = py "EUR".
Proof.
  unfold currency_of_label. destruct (contains (py "eur") (lower g0)); auto.
Qed.

Lemma scan_matches_inv (matches : list Match) (st : amount_state) :
  amounts_inv st -> amounts_inv (scan_matches matches st).
Proof.
  revert st. induction matches as [|m rest IH]; intros st Hst; simpl; [exact Hst|].
  destruct (py_float (normalize_amount (group 1 m))) as [a|] eqn:Hf; [|auto].
  destruct (float_between 100 100000000 a) eqn:Hr; [|auto].
  set (c := MkCandidate (normalize_amount (group 1 m)) a
              (currency_of_candidate (group 0 m)) (group 0 m)).
  destruct Hst as (Hall & Hcur & Htot).
  assert (forall c', c' ∈ all_amounts st ++ [c] -> candidate_ok c') as Hall'.
  { intros c' Hc'. apply elem_of_app in Hc' as [Hc'|Hc']; [auto|].
    apply list_elem_of_singleton in Hc' as ->.
    repeat split; simpl; auto using currency_of_candidate_cases. }
  destruct (contains (py "bez") (lower (group 0 m))
            && contains (py "dph") (lower (group 0 m))) eqn:Hbez.
  { split; [exact Hall'|]. split; [apply currency_of_label_cases|].
    right. exists c. split; [apply elem_of_app; right; left|].
    unfold has_vat_keyword. simpl. rewrite Hbez. reflexivity. }
  destruct (contains (py "součet") (lower (group 0 m))
            || contains (py "základ") (lower (group 0 m))) eqn:Hsou.
  { split; [exact Hall'|]. split; [apply currency_of_label_cases|].
    right. exists c. split; [apply elem_of_app; right; left|].
    unfold has_vat_keyword. simpl. rewrite Hbez. simpl. exact Hsou. }
  apply IH. split; [exact Hall'|]. split; [exact Hcur|]. simpl.
  destruct Htot as [Htot|(c' & Hc' & Hkw)]; [left; exact Htot|].
  right. exists c'. split; [apply elem_of_app; left; exact Hc'|exact Hkw].
Qed.

Lemma scan_patterns_inv (ps : list regex) (text : pystr) (st : amount_state) :
  amounts_inv st -> amounts_inv (scan_patterns ps text st).
Proof.
  revert st. induction ps as [|p ps IH]; intros st Hst; simpl; [exact Hst|].
  apply IH, scan_matches_inv, Hst.
Qed.

Lemma scanned_amounts_inv (text : pystr) : amounts_inv (scanned_amounts text).
Proof.
  apply scan_patterns_inv. split; [|split]; simpl; auto.
  intros c Hc. inversion Hc.
Qed.

(** One turn of the inner loop, in terms of [plausible_candidate]. *)
Lemma scan_matches_cons (m : Match) (rest : list Match) (st : amount_state) :
  scan_matches (m :: rest) st =
  match plausible_candidate m with
  | None => scan_matches rest st
  | Some c =>
      if contains (py "bez") (lower (group 0 m))
         && contains (py "dph") (lower (group 0 m))
      then MkAmounts (all_amounts st ++ [c]) (amount c) (currency_of_label (group 0 m))
      else if contains (py "součet") (lower (group 0 m))
              || contains (py "základ") (lower (group 0 m))
      then MkAmounts (all_amounts st ++ [c]) (amount c) (currency_of_label (group 0 m))
      else scan_matches rest
             (MkAmounts (all_amounts st ++ [c]) (st_total st) (st_currency st))
  end.
Proof.
  unfold plausible_candidate. simpl.
  destruct (py_float (normalize_amount (group 1 m))) as [a|]; [|reflexivity].
  destruct (float_between 100 100000000 a); reflexivity.
Qed.

Lemma plausible_candidate_text (m : Match) (c : CandidateAmount) :
  plausible_candidate m = Some c -> matched_text c = group 0 m.
Proof.
  unfold plausible_candidate.
  destruct (py_float (normalize_amount (group 1 m))) as [a|]; [|discriminate].
  destruct (float_between 100 100000000 a); [|discriminate].
  intros [= <-]. reflexivity.
Qed.








(** On that text the total is the larger amount, in crowns. *)
Example largest_of_two_totals :
  map amount (labelled_candidates text_two_totals) = [py "123456.00"; py "200.50"]
  /\ invoicedTotal (extract_with_patterns text_two_totals) = py "123456.00"
  /\ currency (extract_with_patterns text_two_totals) = py "CZK".
Proof. vm_compute. repeat split; reflexivity. Qed.

(** *** Currency and project name *)

Lemma extract_amounts_currency (text : pystr) :
  st_currency (extract_amounts text) = py "CZK"
  \/ st_currency (extract_amounts text) = py "EUR".
Proof.
  unfold extract_amounts. fold (scanned_amounts text).
  destruct (scanned_amounts_inv text) as (Hall & Hcur & _).
  unfold use_largest.
  destruct (st_total (scanned_amounts text)); [|exact Hcur].
  destruct (sort_desc (all_amounts (scanned_amounts text))) as [|c r] eqn:Hs;
    [exact Hcur|].
  apply sort_desc_head in Hs as [Hin _]. simpl.
  destruct (Hall c Hin) as (_ & _ & Hc). exact Hc.
Qed.

Lemma project_loop_length (ps : list regex) (text : pystr) :
  project_loop ps text = py ""
  \/ (5 < length (project_loop ps text) < 100)%nat.
Proof.
  induction ps as [|p ps IH]; simpl; [left; reflexivity|].
  destruct (re_search true p text) as [m|]; [|exact IH].
  destruct ((5 <? length (strip (group 1 m)))%nat
            && (length (strip (group 1 m)) <? 100)%nat) eqn:E; [|exact IH].
  right. apply andb_true_iff in E as [E1 E2].
  apply Nat.ltb_lt in E1, E2. split; assumption.
Qed.

Lemma projectName_eq (text : pystr) :
  projectName (extract_with_patterns text) =
  match project_loop project_patterns text with
  | [] => py_or (extract_invoice_number text) (py "Imported Invoice")
  | _ :: _ => project_loop project_patterns text
  end.
Proof. reflexivity. Qed.

Lemma invoiceNumber_eq (text : pystr) :
  invoiceNumber (extract_with_patterns text) = extract_invoice_number text.
Proof. reflexivity. Qed.

(** C10 (counterexample).  The project name is not the only field that is
    never empty: no text gets an empty currency. *)
Lemma C10_currency_is_never_empty_either :
  ~ exists text, currency (extract_with_patterns text) = py "".
Proof.
  intros [text H]. simpl in H.
  destruct (extract_amounts_currency text) as [E|E]; rewrite E in H;
    vm_compute in H; discriminate.
Qed.

(** C10 (amended).  For every text the project name is not empty: it is the
    name that a label pattern gave, else the invoice number when that is not
    empty, else [Imported Invoice].  The currency is never empty either (it
    is [CZK] or [EUR]); each of the other eight fields is empty for the
    empty text. *)
Theorem C10_project_name_is_never_empty (text : pystr) :
  projectName (extract_with_patterns text) <> py ""
  /\ projectName (extract_with_patterns text) =
     match project_loop project_patterns text,
           invoiceNumber (extract_with_patterns text) with
     | [], [] => py "Imported Invoice"
     | [], number => number
     | name, _ => name
     end
  /\ (currency (extract_with_patterns text) = py "CZK"
      \/ currency (extract_with_patterns text) = py "EUR")
  /\ (let empty := extract_with_patterns (py "") in
      invoicedTotal empty = py "" /\ exchangeRate empty = py ""
      /\ invoiceDate empty = py "" /\ invoiceDueDate empty = py ""
      /\ invoiceNumber empty = py "" /\ numberOfMDs empty = py ""
      /\ mdRate empty = py "" /\ client empty = py "").
Proof.
  split; [|split; [|split]].
  - rewrite projectName_eq.
    destruct (project_loop_length project_patterns text) as [E|E].
    + rewrite E. change (py "") with (@nil N).
      destruct (extract_invoice_number text); simpl.
      * vm_compute. discriminate.
      * discriminate.
    + destruct (project_loop project_patterns text); simpl in E; [lia|].
      discriminate.
  - rewrite projectName_eq, invoiceNumber_eq.
    destruct (project_loop project_patterns text); [|reflexivity].
    destruct (extract_invoice_number text); reflexivity.
  - apply extract_amounts_currency.
  - vm_compute. repeat split; reflexivity.
Qed.

(** *** Line items *)

(** One turn of the loop over the line items. *)
Lemma md_scan_cons (m : Match) (rest : list Match) (md_values : list Z)
    (md_rates : list pystr) :
  md_scan (m :: rest) md_values md_rates =
  md_scan rest (md_values ++ option_list (plausible_count m))
    (md_rates ++ option_list (plausible_rate m)).
Proof.
  unfold plausible_count, plausible_rate. simpl.
  destruct (py_int (group 1 m)) as [n|]; simpl.
  - destruct ((0 <? n)%Z && (n <? 1000)%Z);
      destruct (py_float (normalize_rate (group 2 m))) as [r|];
      try destruct (float_between 100 100000 r);
      simpl; rewrite ?app_nil_r; reflexivity.
  - rewrite !app_nil_r. reflexivity.
Qed.

(** The loop over the line items collects the plausible counts and the
    plausible rates, in the order of the line items. *)
Lemma md_scan_spec (matches : list Match) (md_values : list Z)
    (md_rates : list pystr) :
  md_scan matches md_values md_rates =
  (md_values ++ omap plausible_count matches,
   md_rates ++ omap plausible_rate matches).
Proof.
  revert md_values md_rates.
  induction matches as [|m rest IH]; intros vs rs.
  - simpl. rewrite !app_nil_r. reflexivity.
  - rewrite md_scan_cons, IH.
    change (omap plausible_count (m :: rest))
      with (match plausible_count m with
            | Some y => y :: omap plausible_count rest
            | None => omap plausible_count rest
            end).
    change (omap plausible_rate (m :: rest))
      with (match plausible_rate m with
            | Some y => y :: omap plausible_rate rest
            | None => omap plausible_rate rest
            end).
    destruct (plausible_count m), (plausible_rate m); simpl;
      rewrite <- ?app_assoc, ?app_nil_r; reflexivity.
Qed.

Lemma sum_Z_foldr (l : list Z) : sum_Z l = foldr Z.add 0%Z l.
Proof.
  unfold sum_Z. rewrite <- fold_left_rev_right.
  induction l as [|x l IH] using rev_ind; [reflexivity|].
  rewrite rev_app_distr. simpl. rewrite IH.
  rewrite foldr_app. simpl.
  clear IH. revert x. induction l as [|y l IH]; intros x; simpl; [lia|].
  rewrite <- IH. lia.
Qed.

Lemma py_ascii (c : ascii) (s : string) :
  (N_of_ascii c <? 128) = true ->
  py (String c s) = N_of_ascii c :: py s.
Proof. intros H. unfold py. simpl. rewrite H. reflexivity. Qed.

Lemma py_str_int_nonempty (n : Z) : py_str_int n <> [].
Proof.
  unfold py_str_int.
  destruct (Z.to_int n) as [d|d]; simpl.
  - destruct d; simpl; rewrite py_ascii by reflexivity; discriminate.
  - rewrite py_ascii by reflexivity. discriminate.
Qed.

Lemma plausible_rate_nonempty (m : Match) (r : pystr) :
  plausible_rate m = Some r -> r <> [].
Proof.
  unfold plausible_rate.
  destruct (py_int (group 1 m)); [|discriminate].
  destruct (py_float (normalize_rate (group 2 m))) as [x|] eqn:E; [|discriminate].
  destruct (float_between 100 100000 x); [|discriminate].
  intros [= <-] H. rewrite H in E. vm_compute in E. discriminate.
Qed.

(** C4 (counterexample).  A line item whose count or rate is out of range
    is left out: with the counts 1000 and 8 the field is 8, not 1008, and
    with the rates 50,00 and 15 000,00 the field is the second rate, not the
    rate of the first line item. *)
Lemma C4_out_of_range_line_items :
  map (fun m => py_int (group 1 m)) (line_items text_md_count_out_of_range)
  = [Some 1000%Z; Some 8%Z]
  /\ numberOfMDs (extract_with_patterns text_md_count_out_of_range) = py "8"
  /\ numberOfMDs (extract_with_patterns text_md_count_out_of_range)
     <> py_str_int (1000 + 8)
  /\ map (fun m => normalize_rate (group 2 m)) (line_items text_md_rate_out_of_range)
     = [py "50.00"; py "15000.00"]
  /\ mdRate (extract_with_patterns text_md_rate_out_of_range) = py "15000.00"
  /\ mdRate (extract_with_patterns text_md_rate_out_of_range) <> py "50.00".
Proof. vm_compute. repeat split; try reflexivity; discriminate. Qed.

(** C4 (amended).  [numberOfMDs] is the sum of the counts of the matched
    line items whose count is strictly between 0 and 1000, and [mdRate] is
    the normalized rate of the first matched line item whose rate is
    strictly between 100 and 100000; when there is no such count, or no such
    rate, the field is what the label [Počet MJ:], or [Cena MJ:], gives.
    The two line items [MD 10 15 000,00] and [MD 8 15 000,00] give 18 and
    15000.00. *)
Theorem C4_line_item_aggregation (text : pystr) :
  numberOfMDs (extract_with_patterns text) =
    match omap plausible_count (line_items text) with
    | [] => pocet_mj_label text
    | counts => py_str_int (foldr Z.add 0%Z counts)
    end
  /\ mdRate (extract_with_patterns text) =
    match omap plausible_rate (line_items text) with
    | [] => cena_mj_label text
    | rate :: _ => rate
    end
  /\ numberOfMDs (extract_with_patterns text_two_md_lines) = py "18"
  /\ mdRate (extract_with_patterns text_two_md_lines) = py "15000.00".
Proof.
  split; [|split; [|split; vm_compute; reflexivity]].
  - change (numberOfMDs (extract_with_patterns text))
      with (extract_number_of_mds text).
    unfold extract_number_of_mds. fold (line_items text).
    rewrite md_scan_spec. cbn [fst app].
    destruct (omap plausible_count (line_items text)) as [|c cs] eqn:E.
    + reflexivity.
    + rewrite sum_Z_foldr.
      generalize (py_str_int_nonempty (foldr Z.add 0%Z (c :: cs))).
      destruct (py_str_int (foldr Z.add 0%Z (c :: cs))); [congruence|reflexivity].
  - change (mdRate (extract_with_patterns text)) with (extract_md_rate text).
    unfold extract_md_rate. fold (line_items text).
    rewrite md_scan_spec. cbn [snd app].
    destruct (omap plausible_rate (line_items text)) as [|r rs] eqn:E;
      [reflexivity|].
    assert (r ∈ omap plausible_rate (line_items text)) as Hr
      by (rewrite E; left).
    apply list_elem_of_omap in Hr as (m & _ & Hm).
    apply plausible_rate_nonempty in Hm.
    destruct r; [contradiction|reflexivity].
Qed.

(** *** Client *)

Lemma client_loop_cons (p : regex) (ps : list regex) (text : pystr) :
  client_loop (p :: ps) text =
  match re_search true p text with
  | Some m =>
      if (3 <? length (clean_client (group 1 m)))%nat
         && (length (clean_client (group 1 m)) <? 200)%nat
      then clean_client (group 1 m)
      else client_loop ps text
  | None => client_loop ps text
  end.
Proof. reflexivity. Qed.


Lemma client_loop_length (ps : list regex) (text : pystr) :
  client_loop ps text = py ""
  \/ (3 < length (client_loop ps text) < 200)%nat.
Proof.
  induction ps as [|p ps IH]; [left; reflexivity|].
  rewrite client_loop_cons.
  destruct (re_search true p text) as [m|]; [|exact IH].
  destruct ((3 <? length (clean_client (group 1 m)))%nat
            && (length (clean_client (group 1 m)) <? 200)%nat) eqn:E; [|exact IH].
  right. apply andb_true_iff in E as [E1 E2].
  apply Nat.ltb_lt in E1, E2. split; assumption.
Qed.


(** *** White space at the ends of a string *)

Lemma drop_while_nil_iff (f : N -> bool) (s : pystr) :
  drop_while f s = [] <-> forallb f s = true.
Proof.
  induction s as [|c s IH]; simpl; [tauto|].
  destruct (f c); simpl; [exact IH|]. split; discriminate.
Qed.

Lemma drop_while_head (f : N -> bool) (s : pystr) (c : N) (rest : pystr) :
  drop_while f s = c :: rest -> f c = false.
Proof.
  induction s as [|x s IH]; simpl; [discriminate|].
  destruct (f x) eqn:E; [exact IH|]. intros [= <- _]. exact E.
Qed.

Lemma drop_while_fixed (f : N -> bool) (s : pystr) :
  match s with [] => True | c :: _ => f c = false end -> drop_while f s = s.
Proof.
  destruct s as [|c s]; [reflexivity|]. simpl. intros ->. reflexivity.
Qed.

Lemma drop_while_last (f : N -> bool) (s : pystr) (c : N) :
  last s = Some c -> f c = false -> last (drop_while f s) = Some c.
Proof.
  induction s as [|x s IH]; simpl; [discriminate|].
  intros Hl Hc. destruct (f x) eqn:E; [|exact Hl].
  destruct s as [|y s]; [simpl in Hl; congruence|].
  apply IH; [|exact Hc]. rewrite last_cons in Hl.
  destruct (last (y :: s)); [exact Hl|]. congruence.
Qed.

Lemma strip_nil_iff (s : pystr) : strip s = [] <-> forallb is_space s = true.
Proof.
  unfold strip, rstrip, lstrip. split.
  - intros H. apply (f_equal (@rev N)) in H. rewrite rev_involutive in H.
    simpl in H. apply drop_while_nil_iff in H.
    destruct (drop_while is_space s) as [|c rest] eqn:E;
      [apply drop_while_nil_iff, E|].
    apply drop_while_head in E.
    rewrite forallb_forall in H. rewrite (H c) in E; [discriminate|].
    apply in_rev. rewrite rev_involutive. left. reflexivity.
  - intros H. apply drop_while_nil_iff in H. rewrite H. reflexivity.
Qed.

(** A stripped string begins and ends with a character that is no white
    space. *)
Lemma strip_ends (s : pystr) :
  match strip s with
  | [] => True
  | c :: _ => is_space c = false
  end
  /\ match last (strip s) with
     | None => True
     | Some c => is_space c = false
     end.
Proof.
  unfold strip, rstrip, lstrip.
  set (l := drop_while is_space s).
  assert (Hl : match l with [] => True | c :: _ => is_space c = false end).
  { destruct l as [|c rest] eqn:E; [exact I|]. apply (drop_while_head _ _ _ _ E). }
  set (r := drop_while is_space (rev l)).
  assert (Hr : match r with [] => True | c :: _ => is_space c = false end).
  { destruct r as [|c rest] eqn:E; [exact I|]. apply (drop_while_head _ _ _ _ E). }
  split.
  - destruct (rev r) as [|c rest] eqn:E; [exact I|].
    destruct l as [|x l']; [subst r; simpl in E; discriminate|].
    assert (Hlast : last (rev (x :: l')) = Some x).
    { simpl. apply last_snoc. }
    pose proof (drop_while_last is_space _ x Hlast Hl) as H. fold r in H.
    rewrite <- (rev_involutive r) in H. rewrite E in H. simpl in H.
    rewrite last_snoc in H. congruence.
  - destruct r as [|c rest]; [exact I|]. simpl. rewrite last_snoc. exact Hr.
Qed.

Lemma strip_fixed (s : pystr) :
  match s with [] => True | c :: _ => is_space c = false end ->
  match last s with None => True | Some c => is_space c = false end ->
  strip s = s.
Proof.
  intros Hh Hl. unfold strip, rstrip, lstrip.
  rewrite (drop_while_fixed _ s Hh).
  rewrite drop_while_fixed; [apply rev_involutive|].
  destruct (rev s) as [|c rest] eqn:E; [exact I|].
  apply (f_equal (@rev N)) in E. rewrite rev_involutive in E. subst s.
  simpl in Hl. rewrite last_snoc in Hl. exact Hl.
Qed.

Lemma strip_strip (s : pystr) : strip (strip s) = strip s.
Proof.
  destruct (strip_ends s) as [H1 H2]. apply strip_fixed; assumption.
Qed.

(** *** Amount normalization *)

Lemma replace_char_none (a : N) (s : pystr) : a ∉ replace_char a [] s.
Proof.
  unfold replace_char. induction s as [|c s IH]; simpl; [apply not_elem_of_nil|].
  destruct (N.eqb_spec c a) as [->|Hne]; simpl; [exact IH|].
  apply not_elem_of_cons. split; [congruence|exact IH].
Qed.

Lemma replace_char_other (a b x : N) (s : pystr) :
  x <> b -> x ∉ s -> x ∉ replace_char a [b] s.
Proof.
  intros Hb. unfold replace_char. induction s as [|c s IH]; simpl; intros H;
    [apply not_elem_of_nil|].
  apply not_elem_of_cons in H as [Hc Hs].
  destruct (c =? a); simpl; apply not_elem_of_cons; split; auto.
Qed.

Lemma replace_char_gone (a b : N) (s : pystr) :
  a <> b -> a ∉ replace_char a [b] s.
Proof.
  intros Hb. unfold replace_char. induction s as [|c s IH]; simpl;
    [apply not_elem_of_nil|].
  destruct (N.eqb_spec c a) as [->|Hne]; simpl; apply not_elem_of_cons;
    split; auto.
Qed.

Lemma spaces_and_commas_clean (s : pystr) :
  (32 ∉ spaces_and_commas s) /\ (44 ∉ spaces_and_commas s).
Proof.
  unfold spaces_and_commas. change (py ".") with [46]. change (py "") with (@nil N).
  split.
  - apply replace_char_other; [discriminate|apply replace_char_none].
  - apply replace_char_gone. discriminate.
Qed.

Lemma last_occurrence (x : N) (t : pystr) :
  x ∈ t -> exists a b, t = a ++ x :: b /\ x ∉ b.
Proof.
  induction t as [|c t IH]; intros H; [inversion H|].
  destruct (decide (x ∈ t)) as [Hin|Hnot].
  - destruct (IH Hin) as (a & b & -> & Hb). exists (c :: a), b. auto.
  - apply elem_of_cons in H as [->|H]; [|contradiction].
    exists [], t. auto.
Qed.

Lemma count_none (x : N) (s : pystr) :
  x ∉ s -> filter (fun c => c = x) s = [].
Proof.
  induction s as [|c s IH]; intros H; [reflexivity|].
  apply not_elem_of_cons in H as [Hc Hs].
  rewrite filter_cons_False by congruence. apply IH, Hs.
Qed.

Lemma filter_out_none (x : N) (s : pystr) : x ∉ filter (fun c => c <> x) s.
Proof. intros H. apply list_elem_of_filter in H as [H _]. congruence. Qed.

Lemma split_char_nonempty (sep : N) (s : pystr) : split_char sep s <> [].
Proof.
  destruct s as [|c s]; simpl; [discriminate|].
  destruct (c =? sep); [discriminate|].
  destruct (split_char sep s); discriminate.
Qed.

Lemma split_char_app (sep : N) (a b : pystr) :
  split_char sep (a ++ sep :: b) = split_char sep a ++ split_char sep b.
Proof.
  induction a as [|c a IH]; simpl.
  - rewrite N.eqb_refl. reflexivity.
  - destruct (c =? sep); [rewrite IH; reflexivity|].
    rewrite IH. pose proof (split_char_nonempty sep a) as Hne.
    destruct (split_char sep a); [contradiction|reflexivity].
Qed.

Lemma split_char_none (sep : N) (b : pystr) :
  sep ∉ b -> split_char sep b = [b].
Proof.
  induction b as [|c b IH]; simpl; [reflexivity|].
  intros H. apply not_elem_of_cons in H as [Hc Hb].
  destruct (N.eqb_spec c sep) as [->|_]; [contradiction|].
  rewrite IH by exact Hb. reflexivity.
Qed.

Lemma split_char_concat (sep : N) (a : pystr) :
  concat (split_char sep a) = filter (fun c => c <> sep) a.
Proof.
  induction a as [|c a IH]; simpl; [reflexivity|].
  destruct (N.eqb_spec c sep) as [->|Hne].
  - simpl. rewrite IH. rewrite filter_cons_False by (intros H; apply H; reflexivity).
    reflexivity.
  - rewrite filter_cons_True by exact Hne. rewrite <- IH.
    pose proof (split_char_nonempty sep a) as Hs.
    destruct (split_char sep a); [contradiction|reflexivity].
Qed.

Lemma split_char_some (sep : N) (a : pystr) :
  sep ∈ a -> (2 <= length (split_char sep a))%nat.
Proof.
  induction a as [|c a IH]; intros H; [inversion H|]. simpl.
  destruct (N.eqb_spec c sep) as [->|Hne].
  - simpl. pose proof (split_char_nonempty sep a).
    destruct (split_char sep a); [contradiction|simpl; lia].
  - apply elem_of_cons in H as [->|H]; [contradiction|].
    specialize (IH H). destruct (split_char sep a); simpl in *; lia.
Qed.

(** The rule of the normalization, by the number of points that remain
    after the spaces are removed and the commas are turned into points:
    with no point or one point nothing else is done, and with more the
    points before the last one are dropped. *)
Lemma normalize_amount_rule (s : pystr) :
  let t := spaces_and_commas (strip s) in
  (46 ∉ t -> normalize_amount s = t)
  /\ (forall a b, t = a ++ 46 :: b -> 46 ∉ a -> 46 ∉ b -> normalize_amount s = t)
  /\ (forall a b, t = a ++ 46 :: b -> 46 ∈ a -> 46 ∉ b ->
      normalize_amount s = filter (fun c => c <> 46) a ++ 46 :: b).
Proof.
  intros t. unfold normalize_amount. fold (spaces_and_commas (strip s)). fold t.
  cbv zeta. split; [|split].
  - intros H. rewrite split_char_none by exact H. reflexivity.
  - intros a b E Ha Hb. clearbody t. subst t.
    rewrite split_char_app, !split_char_none by assumption. reflexivity.
  - intros a b E Ha Hb. clearbody t. subst t.
    rewrite split_char_app, (split_char_none _ b) by assumption.
    apply split_char_some in Ha as Hlen.
    rewrite length_app. simpl.
    destruct (Nat.ltb_spec 2 (length (split_char 46 a) + 1)); [|lia].
    rewrite removelast_last, last_snoc. simpl.
    unfold join. rewrite split_char_concat. reflexivity.
Qed.

(** A property of the ten digits holds of every digit. *)
Lemma digit_cases (P : N -> bool) (c : N) :
  forallb P (N_range 48 57) = true -> is_ascii_digit c = true -> P c = true.
Proof.
  intros HP Hc. unfold is_ascii_digit in Hc.
  apply andb_true_iff in Hc as [H1 H2].
  apply N.leb_le in H1, H2.
  rewrite forallb_forall in HP. apply HP.
  unfold N_range. apply in_map_iff. exists (N.to_nat c).
  split; [apply N2Nat.id|]. apply in_seq. lia.
Qed.

Lemma digit_not_space (c : N) : is_ascii_digit c = true -> is_space c = false.
Proof.
  intros H. apply negb_true_iff.
  apply (digit_cases (fun c => negb (is_space c))); [reflexivity|exact H].
Qed.

















(** ** Properties of the correction analysis *)

Lemma count_correction_comm (f g : string) (t : tallies) :
  count_correction f (count_correction g t)
  = count_correction g (count_correction f t).
Proof.
  unfold count_correction. simpl. f_equal.
  destruct (decide (f = g)) as [->|Hne]; [reflexivity|].
  rewrite !lookup_insert_ne by congruence.
  apply insert_insert_ne. congruence.
Qed.

Lemma tally_comm (f g : string) (k j : pystr) (t : tallies) :
  tally f k (tally g j t) = tally g j (tally f k t).
Proof.
  unfold tally. simpl. f_equal.
  destruct (decide (f = g)) as [->|Hne].
  - rewrite !lookup_insert_eq, !insert_insert_eq. simpl. f_equal.
    destruct (decide (k = j)) as [->|Hkj]; [reflexivity|].
    rewrite !lookup_insert_ne by congruence.
    apply insert_insert_ne. congruence.
  - rewrite !lookup_insert_ne by congruence.
    apply insert_insert_ne. congruence.
Qed.

Lemma apply_update_comm (u v : update) (t : tallies) :
  apply_update u (apply_update v t) = apply_update v (apply_update u t).
Proof.
  destruct u as [f|f k], v as [g|g j]; simpl.
  - apply count_correction_comm.
  - reflexivity.
  - reflexivity.
  - apply tally_comm.
Qed.

Lemma apply_updates_app (us vs : list update) (t : tallies) :
  apply_updates (us ++ vs) t = apply_updates vs (apply_updates us t).
Proof. apply fold_left_app. Qed.

Lemma apply_update_updates (u : update) (vs : list update) (t : tallies) :
  apply_update u (apply_updates vs t) = apply_updates vs (apply_update u t).
Proof.
  revert t. induction vs as [|v vs IH]; intros t; [reflexivity|].
  simpl. rewrite IH, apply_update_comm. reflexivity.
Qed.

(** Two sequences of updates can be made in either order. *)
Lemma apply_updates_comm (us vs : list update) (t : tallies) :
  apply_updates us (apply_updates vs t) = apply_updates vs (apply_updates us t).
Proof.
  revert t. induction us as [|u us IH]; intros t; [reflexivity|].
  simpl. rewrite <- IH. rewrite apply_update_updates. reflexivity.
Qed.

Lemma is_updates_id : is_updates (fun t => t).
Proof. exists []. reflexivity. Qed.

Lemma is_updates_one (u : update) : is_updates (apply_update u).
Proof. exists [u]. reflexivity. Qed.

Lemma is_updates_compose (F G : tallies -> tallies) :
  is_updates F -> is_updates G -> is_updates (fun t => G (F t)).
Proof.
  intros [us HF] [vs HG]. exists (us ++ vs). intros t.
  rewrite HG, HF, apply_updates_app. reflexivity.
Qed.

Lemma is_updates_ext (F G : tallies -> tallies) :
  (forall t, F t = G t) -> is_updates G -> is_updates F.
Proof.
  intros E [us HG]. exists us. intros t. rewrite E. apply HG.
Qed.

Lemma is_updates_fold {A : Type} (step : A -> tallies -> tallies) (l : list A) :
  (forall x, is_updates (step x)) ->
  is_updates (fun t => fold_left (fun t x => step x t) l t).
Proof.
  intros H. induction l as [|x l IH]; [apply is_updates_id|].
  simpl. apply (is_updates_compose (step x) _ (H x) IH).
Qed.

Lemma tally_present_updates (field : string) (keys : list pystr) (context : pystr) :
  is_updates (tally_present field keys context).
Proof.
  unfold tally_present.
  apply (is_updates_fold
           (fun key t => if contains key context then tally field key t else t)).
  intros key. destruct (contains key context).
  - apply (is_updates_one (UTally field key)).
  - apply is_updates_id.
Qed.

Lemma spans_fold_updates (raw_text : pystr) (matches : list (nat * nat)) :
  is_updates (fun t =>
    fold_left
      (fun t '(m_start, m_end) =>
         tally_present "invoicedTotal" total_keywords
           (slice (m_start - 30)
              (Nat.min (length raw_text) (m_end + 30)) raw_text) t)
      matches t).
Proof.
  induction matches as [|[a b] ms IH]; [apply is_updates_id|].
  simpl.
  apply (is_updates_compose
           (tally_present "invoicedTotal" total_keywords
              (slice (a - 30) (Nat.min (length raw_text) (b + 30)) raw_text))
           _ (tally_present_updates _ _ _) IH).
Qed.

Section AnalysisProperties.

Variable finditer_spans : pystr -> pystr -> option (list (nat * nat)).

Lemma learn_project_name_updates (entry : FeedbackEntry) (raw_text : pystr) :
  is_updates (learn_project_name entry raw_text).
Proof.
  unfold learn_project_name.
  destruct (flagged entry "projectName"); [|apply is_updates_id].
  destruct (contains (lower (corrected_get entry "projectName")) raw_text).
  - apply (is_updates_compose (count_correction "projectName")).
    + apply (is_updates_one (UCount "projectName")).
    + apply tally_present_updates.
  - apply (is_updates_one (UCount "projectName")).
Qed.

Lemma learn_currency_updates (entry : FeedbackEntry) :
  is_updates (learn_currency entry).
Proof.
  unfold learn_currency.
  destruct (flagged entry "currency"); [|apply is_updates_id].
  apply (is_updates_compose (count_correction "currency")
           (tally "currency" (corrected_get entry "currency"))).
  - apply (is_updates_one (UCount "currency")).
  - apply (is_updates_one (UTally "currency" _)).
Qed.

Lemma learn_invoiced_total_updates (entry : FeedbackEntry) (raw_text : pystr) :
  is_updates_or_raises (learn_invoiced_total finditer_spans entry raw_text).
Proof.
  unfold learn_invoiced_total.
  destruct (flagged entry "invoicedTotal");
    [|right; exists []; reflexivity].
  destruct (corrected_get entry "invoicedTotal") as [|c total] eqn:E.
  { right. exists [UCount "invoicedTotal"]. reflexivity. }
  destruct (finditer_spans _ raw_text) as [matches|]; [|left; reflexivity].
  right.
  assert (is_updates (fun t =>
            fold_left
              (fun t '(m_start, m_end) =>
                 tally_present "invoicedTotal" total_keywords
                   (slice (m_start - 30)
                      (Nat.min (length raw_text) (m_end + 30)) raw_text) t)
              matches (count_correction "invoicedTotal" t))) as [us Hus].
  { apply (is_updates_compose (count_correction "invoicedTotal")).
    - apply (is_updates_one (UCount "invoicedTotal")).
    - apply spans_fold_updates. }
  exists us. intros t. rewrite <- Hus. reflexivity.
Qed.

(** The body of the loop makes a sequence of updates that does not depend
    on the tallies, or raises whatever the tallies are. *)
Lemma analyze_entry_updates (entry : FeedbackEntry) :
  is_updates_or_raises (analyze_entry finditer_spans entry).
Proof.
  unfold analyze_entry.
  set (raw_text := lower (default [] (rawText entry))).
  destruct (learn_project_name_updates entry raw_text) as [us1 H1].
  destruct (learn_currency_updates entry) as [us3 H3].
  destruct (learn_invoiced_total_updates entry raw_text) as [Hn|[us2 H2]].
  - left. intros t. rewrite Hn. reflexivity.
  - right. exists (us1 ++ us2 ++ us3). intros t.
    rewrite H2, H3, H1, !apply_updates_app. reflexivity.
Qed.

(** Two turns of the loop can be made in either order. *)
Lemma analyze_entry_comm (e1 e2 : FeedbackEntry) (t : tallies) :
  analyze_entry finditer_spans e1 t ≫= analyze_entry finditer_spans e2
  = analyze_entry finditer_spans e2 t ≫= analyze_entry finditer_spans e1.
Proof.
  destruct (analyze_entry_updates e1) as [N1|[us1 H1]],
           (analyze_entry_updates e2) as [N2|[us2 H2]].
  - rewrite N1, N2. reflexivity.
  - rewrite N1, H2. simpl. rewrite N1. reflexivity.
  - rewrite H1, N2. simpl. rewrite N2. reflexivity.
  - rewrite H1, H2. simpl. rewrite H1, H2, apply_updates_comm. reflexivity.
Qed.

Lemma analyze_loop_cons (entry : FeedbackEntry) (rest : list FeedbackEntry)
    (t : tallies) :
  analyze_loop finditer_spans (entry :: rest) t
  = analyze_entry finditer_spans entry t ≫= analyze_loop finditer_spans rest.
Proof. simpl. destruct (analyze_entry finditer_spans entry t); reflexivity. Qed.

Lemma analyze_loop_cons2 (e1 e2 : FeedbackEntry) (rest : list FeedbackEntry)
    (t : tallies) :
  analyze_loop finditer_spans (e1 :: e2 :: rest) t
  = (analyze_entry finditer_spans e1 t ≫= analyze_entry finditer_spans e2)
    ≫= analyze_loop finditer_spans rest.
Proof.
  simpl. destruct (analyze_entry finditer_spans e1 t) as [t'|]; simpl;
    [|reflexivity].
  destruct (analyze_entry finditer_spans e2 t'); reflexivity.
Qed.

Lemma analyze_loop_permutation (l1 l2 : list FeedbackEntry) :
  Permutation l1 l2 ->
  forall t, analyze_loop finditer_spans l1 t = analyze_loop finditer_spans l2 t.
Proof.
  induction 1 as [|x l l' _ IH|x y l|l l' l'' _ IH1 _ IH2]; intros t.
  - reflexivity.
  - rewrite !analyze_loop_cons.
    destruct (analyze_entry finditer_spans x t); simpl; [apply IH|reflexivity].
  - rewrite !analyze_loop_cons2, analyze_entry_comm. reflexivity.
  - rewrite IH1. apply IH2.
Qed.

End AnalysisProperties.

(** C7.  For every list of feedback entries and every permutation of it,
    the analysis gives the same result: the same tables of keyword
    frequencies, the same correction counts and the same total; and it
    raises for the one list when it raises for the other. *)
Theorem C7_analysis_is_order_independent
    (finditer_spans : pystr -> pystr -> option (list (nat * nat)))
    (l1 l2 : list FeedbackEntry) :
  Permutation l1 l2 ->
  analyze_corrections finditer_spans l1 = analyze_corrections finditer_spans l2.
Proof.
  intros H. unfold analyze_corrections.
  rewrite (analyze_loop_permutation finditer_spans l1 l2 H).
  rewrite (Permutation_length H). reflexivity.
Qed.

(** On two entries the analysis fills the tables: the prefix [project] is
    seen once near a corrected project name, the keywords [celkem] and
    [k úhradě] once near a corrected total, and the currency [EUR] once. *)
Example analysis_of_two_entries :
  exists a,
    analyze_corrections compiled_spans [total_entry; project_entry] = Some a
    /\ a_patterns a !! "projectName" = Some {[ py "project" := 1%nat ]}
    /\ a_patterns a !! "invoicedTotal"
       = Some (<[py "celkem" := 1%nat]> {[ py "k úhradě" := 1%nat ]})
    /\ a_patterns a !! "currency" = Some {[ py "EUR" := 1%nat ]}
    /\ a_patterns a !! "invoiceNumber" = Some ∅
    /\ total_feedback a = 2%nat.
Proof.
  eexists. split; [vm_compute; reflexivity|].
  repeat split; vm_compute; reflexivity.
Qed.

(** The two entries in the two orders. *)
Lemma C7_analysis_is_order_independent_witness :
  Permutation [total_entry; project_entry] [project_entry; total_entry]
  /\ analyze_corrections compiled_spans [total_entry; project_entry]
     = analyze_corrections compiled_spans [project_entry; total_entry].
Proof.
  split; [apply perm_swap|].
  apply (C7_analysis_is_order_independent compiled_spans).
  apply perm_swap.
Defined.

(** *** Correction counts *)

Lemma tally_present_count (field : string) (keys : list pystr) (context : pystr)
    (t : tallies) :
  corrections_count (tally_present field keys context t) = corrections_count t.
Proof.
  unfold tally_present. revert t.
  induction keys as [|key keys IH]; intros t; [reflexivity|].
  simpl. rewrite IH. destruct (contains key context); reflexivity.
Qed.

Lemma spans_fold_count (raw_text : pystr) (matches : list (nat * nat))
    (t : tallies) :
  corrections_count
    (fold_left
       (fun t '(m_start, m_end) =>
          tally_present "invoicedTotal" total_keywords
            (slice (m_start - 30)
               (Nat.min (length raw_text) (m_end + 30)) raw_text) t)
       matches t)
  = corrections_count t.
Proof.
  revert t. induction matches as [|[a b] ms IH]; intros t; [reflexivity|].
  cbn [fold_left]. rewrite IH. apply tally_present_count.
Qed.

Section Counts.

Variable finditer_spans : pystr -> pystr -> option (list (nat * nat)).

(** One turn of the loop counts the corrections of three fields. *)
Lemma analyze_entry_count (entry : FeedbackEntry) (t t' : tallies) :
  analyze_entry finditer_spans entry t = Some t' ->
  corrections_count t' =
  count_if (flagged entry "currency") "currency"
    (count_if (flagged entry "invoicedTotal") "invoicedTotal"
       (count_if (flagged entry "projectName") "projectName"
          (corrections_count t))).
Proof.
  unfold analyze_entry.
  set (raw_text := lower (default [] (rawText entry))).
  set (t1 := learn_project_name entry raw_text t).
  assert (corrections_count t1 =
          count_if (flagged entry "projectName") "projectName"
            (corrections_count t)) as H1.
  { unfold t1, learn_project_name, count_if.
    destruct (flagged entry "projectName"); [|reflexivity].
    destruct (contains _ raw_text); [|reflexivity].
    rewrite tally_present_count. reflexivity. }
  destruct (learn_invoiced_total finditer_spans entry raw_text t1) as [t2|] eqn:E;
    [|discriminate].
  intros [= <-].
  assert (corrections_count t2 =
          count_if (flagged entry "invoicedTotal") "invoicedTotal"
            (corrections_count t1)) as H2.
  { unfold learn_invoiced_total, count_if in *.
    destruct (flagged entry "invoicedTotal"); [|injection E as <-; reflexivity].
    destruct (corrected_get entry "invoicedTotal");
      [injection E as <-; reflexivity|].
    destruct (finditer_spans _ raw_text) as [matches|]; [|discriminate].
    injection E as <-.
    exact (spans_fold_count raw_text matches
             (count_correction "invoicedTotal" t1)). }
  rewrite <- H1, <- H2. unfold learn_currency, count_if.
  destruct (flagged entry "currency"); reflexivity.
Qed.

Lemma flagged_entries_cons (field : string) (entry : FeedbackEntry)
    (rest : list FeedbackEntry) :
  flagged_entries field (entry :: rest)
  = ((if flagged entry field then 1 else 0) + flagged_entries field rest)%nat.
Proof.
  unfold flagged_entries. rewrite filter_cons.
  destruct (flagged entry field); simpl; reflexivity.
Qed.

Lemma analyze_loop_count (feedback : list FeedbackEntry) (t t' : tallies)
    (n1 n2 n3 n4 : nat) :
  analyze_loop finditer_spans feedback t = Some t' ->
  corrections_count t !! "projectName" = Some n1 ->
  corrections_count t !! "invoicedTotal" = Some n2 ->
  corrections_count t !! "currency" = Some n3 ->
  corrections_count t !! "invoiceNumber" = Some n4 ->
  corrections_count t' !! "projectName"
    = Some (n1 + flagged_entries "projectName" feedback)%nat
  /\ corrections_count t' !! "invoicedTotal"
    = Some (n2 + flagged_entries "invoicedTotal" feedback)%nat
  /\ corrections_count t' !! "currency"
    = Some (n3 + flagged_entries "currency" feedback)%nat
  /\ corrections_count t' !! "invoiceNumber" = Some n4.
Proof.
  revert t n1 n2 n3 n4.
  induction feedback as [|entry rest IH]; intros t n1 n2 n3 n4 H H1 H2 H3 H4.
  - simpl in H. injection H as <-.
    unfold flagged_entries. simpl. rewrite !Nat.add_0_r. auto.
  - simpl in H.
    destruct (analyze_entry finditer_spans entry t) as [t1|] eqn:E; [|discriminate].
    apply analyze_entry_count in E.
    rewrite !flagged_entries_cons.
    assert (corrections_count t1 !! "projectName"
            = Some (n1 + if flagged entry "projectName" then 1 else 0)%nat
            /\ corrections_count t1 !! "invoicedTotal"
            = Some (n2 + if flagged entry "invoicedTotal" then 1 else 0)%nat
            /\ corrections_count t1 !! "currency"
            = Some (n3 + if flagged entry "currency" then 1 else 0)%nat
            /\ corrections_count t1 !! "invoiceNumber" = Some n4)
      as (G1 & G2 & G3 & G4).
    { rewrite E. unfold count_if.
      destruct (flagged entry "projectName"), (flagged entry "invoicedTotal"),
        (flagged entry "currency");
        repeat split; simplify_map_eq; f_equal; lia. }
    destruct (IH t1 _ _ _ _ H G1 G2 G3 G4) as (R1 & R2 & R3 & R4).
    rewrite R1, R2, R3, R4. repeat split; f_equal; lia.
Qed.

(** The counts that the analysis returns: for the project name, the total
    and the currency, the number of entries that flag the field; for the
    invoice number, zero. *)
Lemma corrections_count_spec (feedback : list FeedbackEntry) (a : analysis) :
  analyze_corrections finditer_spans feedback = Some a ->
  a_corrections_count a !! "projectName"
    = Some (flagged_entries "projectName" feedback)
  /\ a_corrections_count a !! "invoicedTotal"
    = Some (flagged_entries "invoicedTotal" feedback)
  /\ a_corrections_count a !! "currency"
    = Some (flagged_entries "currency" feedback)
  /\ a_corrections_count a !! "invoiceNumber" = Some O.
Proof.
  unfold analyze_corrections.
  destruct (analyze_loop finditer_spans feedback initial_tallies) as [t|] eqn:E;
    [|discriminate].
  intros [= <-]. simpl.
  apply (analyze_loop_count feedback initial_tallies t 0 0 0 0 E); reflexivity.
Qed.

End Counts.

(** C6 (code defect).  The counter of the invoice number is set up with the
    other three and returned with them, and no turn of the loop adds to it:
    for the list of one entry that flags the invoice number, the analysis
    returns the count 0 where the claim gives 1. *)
Theorem C6_invoice_number_is_not_counted
    (finditer_spans : pystr -> pystr -> option (list (nat * nat))) :
  flagged_entries "invoiceNumber" [invoice_number_entry] = 1%nat
  /\ exists a,
       analyze_corrections finditer_spans [invoice_number_entry] = Some a
       /\ a_corrections_count a !! "invoiceNumber" = Some O
       /\ a_corrections_count a !! "invoiceNumber"
          <> Some (flagged_entries "invoiceNumber" [invoice_number_entry]).
Proof.
  split; [reflexivity|].
  eexists. split; [reflexivity|].
  split; [vm_compute; reflexivity|]. vm_compute. discriminate.
Qed.

(** ** Soundness of the matcher *)

Lemma drop_cons_inv {A : Type} (n : nat) (l : list A) (x : A) (xs : list A) :
  drop n l = x :: xs -> drop (S n) l = xs /\ (n < length l)%nat.
Proof.
  revert l. induction n as [|n IH]; intros l H.
  - destruct l; [discriminate|]. simpl in H. injection H as -> ->.
    split; [apply drop_0|simpl; lia].
  - destruct l as [|y l]; [discriminate|]. simpl in H.
    destruct (IH l H) as [H1 H2]. split; [exact H1|simpl; lia].
Qed.

Lemma step_char_sound (ic : bool) (gs : list (nat * regex)) (text : pystr)
    (ok : N -> bool) :
  sound_matcher ic gs text (fun w => exists x, w = [x] /\ ok x = true)
    (step_char ok).
Proof.
  intros st k res (Hrest & Hpos & Hcaps) H. unfold step_char in H.
  destruct (m_rest st) as [|x xs] eqn:E; [discriminate|].
  destruct (ok x) eqn:Hok; [|discriminate].
  symmetry in Hrest. apply drop_cons_inv in Hrest as [E1 E2].
  exists [x], (MState (S (m_pos st)) xs (m_caps st)).
  split; [|split; [reflexivity|split; [simpl; lia|split; [eauto|exact H]]]].
  split; [simpl; symmetry; exact E1|]. split; [simpl; lia|exact Hcaps].
Qed.

Lemma rep_opt_sound (ic : bool) (gs : list (nat * regex)) (text : pystr)
    (L : pystr -> Prop) (m : matcher) (extra : nat) :
  sound_matcher ic gs text L m ->
  sound_matcher ic gs text
    (fun w => exists ws, w = concat ws /\ Forall L ws /\ (length ws <= extra)%nat)
    (rep_opt m extra).
Proof.
  intros Hm. induction extra as [|e IH]; intros st k res Hst H; simpl in H.
  - exists [], st. repeat split; try apply Hst; try (simpl; lia); [|exact H].
    exists []. repeat split; [constructor|reflexivity].
  - destruct (m st _) as [r|] eqn:E.
    + injection H as ->.
      destruct (Hm _ _ _ Hst E) as (w1 & st1 & Hst1 & Hr1 & Hp1 & HL & Hk).
      destruct (m_pos st1 =? m_pos st)%nat; [discriminate|].
      destruct (IH _ _ _ Hst1 Hk)
        as (w2 & st2 & Hst2 & Hr2 & Hp2 & (ws & -> & Hws & Hlen) & Hk2).
      exists (w1 ++ concat ws), st2.
      split; [exact Hst2|]. split; [rewrite Hr1, Hr2, app_assoc; reflexivity|].
      split; [rewrite Hp2, Hp1, length_app; lia|]. split; [|exact Hk2].
      exists (w1 :: ws). split; [reflexivity|].
      split; [constructor; assumption|simpl; lia].
    + exists [], st. repeat split; try apply Hst; try (simpl; lia); [|exact H].
      exists []. repeat split; [constructor|simpl; lia].
Qed.

Lemma rep_min_sound (ic : bool) (gs : list (nat * regex)) (text : pystr)
    (L : pystr -> Prop) (m : matcher) (lo : nat) (hi : option nat) :
  sound_matcher ic gs text L m ->
  sound_matcher ic gs text
    (fun w => exists ws,
       w = concat ws /\ Forall L ws /\ (lo <= length ws)%nat
       /\ forall h, hi = Some h -> (length ws <= Nat.max lo h)%nat)
    (rep_min m lo hi).
Proof.
  intros Hm. revert hi.
  induction lo as [|l IH]; intros hi st k res Hst H; simpl in H.
  - destruct (rep_opt_sound ic gs text L m _ Hm _ _ _ Hst H)
      as (w & st1 & Hst1 & Hr & Hp & (ws & -> & Hws & Hlen) & Hk).
    exists (concat ws), st1. repeat split; try apply Hst1; try assumption.
    exists ws. split; [reflexivity|]. split; [exact Hws|]. split; [lia|].
    intros h ->. simpl in Hlen. lia.
  - destruct (Hm _ _ _ Hst H) as (w1 & st1 & Hst1 & Hr1 & Hp1 & HL & Hk).
    destruct (IH _ _ _ _ Hst1 Hk)
      as (w2 & st2 & Hst2 & Hr2 & Hp2 & (ws & -> & Hws & Hlo & Hhi) & Hk2).
    exists (w1 ++ concat ws), st2.
    split; [exact Hst2|]. split; [rewrite Hr1, Hr2, app_assoc; reflexivity|].
    split; [rewrite Hp2, Hp1, length_app; lia|]. split; [|exact Hk2].
    exists (w1 :: ws). split; [reflexivity|].
    split; [constructor; assumption|]. split; [simpl; lia|].
    intros h ->. specialize (Hhi (pred h) eq_refl). simpl. lia.
Qed.

Lemma slice_app_prefix (pos : nat) (text w rest : pystr) :
  drop pos text = w ++ rest -> slice pos (pos + length w) text = w.
Proof.
  intros H. unfold slice. rewrite H.
  replace (pos + length w - pos)%nat with (length w) by lia.
  apply take_app_length.
Qed.

(** The matcher is sound: a result stands for a word of the pattern, and
    every group it closes holds a word of that group. *)
Lemma rmatch_sound (ic : bool) (gs : list (nat * regex)) (text : pystr)
    (r : regex) :
  (forall p, p ∈ groups_of r -> p ∈ gs) ->
  sound_matcher ic gs text (lang ic r) (rmatch ic r).
Proof.
  induction r as [|c|neg items| |a IHa b IHb|a IHa b IHb|a IHa lo hi|n a IHa];
    intros Hgs.
  - intros st k res Hst H. exists [], st.
    repeat split; try apply Hst; try (simpl; lia). exact H.
  - apply step_char_sound.
  - apply step_char_sound.
  - intros st k res Hst H. simpl in H.
    destruct (m_pos st =? 0)%nat; [|discriminate]. exists [], st.
    repeat split; try apply Hst; try (simpl; lia). exact H.
  - intros st k res Hst H. simpl in H.
    assert (forall p, p ∈ groups_of a -> p ∈ gs) as Ha
      by (intros p Hp; apply Hgs; simpl; apply elem_of_app; left; exact Hp).
    assert (forall p, p ∈ groups_of b -> p ∈ gs) as Hb
      by (intros p Hp; apply Hgs; simpl; apply elem_of_app; right; exact Hp).
    destruct (IHa Ha _ _ _ Hst H) as (w1 & st1 & Hst1 & Hr1 & Hp1 & HL1 & Hk1).
    destruct (IHb Hb _ _ _ Hst1 Hk1) as (w2 & st2 & Hst2 & Hr2 & Hp2 & HL2 & Hk2).
    exists (w1 ++ w2), st2.
    split; [exact Hst2|]. split; [rewrite Hr1, Hr2, app_assoc; reflexivity|].
    split; [rewrite Hp2, Hp1, length_app; lia|]. split; [|exact Hk2].
    exists w1, w2. auto.
  - intros st k res Hst H. simpl in H.
    assert (forall p, p ∈ groups_of a -> p ∈ gs) as Ha
      by (intros p Hp; apply Hgs; simpl; apply elem_of_app; left; exact Hp).
    assert (forall p, p ∈ groups_of b -> p ∈ gs) as Hb
      by (intros p Hp; apply Hgs; simpl; apply elem_of_app; right; exact Hp).
    destruct (rmatch ic a st k) as [r|] eqn:E.
    + injection H as ->.
      destruct (IHa Ha _ _ _ Hst E) as (w & st1 & H1 & H2 & H3 & H4 & H5).
      exists w, st1. repeat split; try apply H1; try assumption. left. exact H4.
    + destruct (IHb Hb _ _ _ Hst H) as (w & st1 & H1 & H2 & H3 & H4 & H5).
      exists w, st1. repeat split; try apply H1; try assumption. right. exact H4.
  - intros st k res Hst H. simpl in H.
    apply (rep_min_sound ic gs text (lang ic a) (rmatch ic a) lo hi (IHa Hgs)
             st k res Hst H).
  - intros st k res Hst H. simpl in H.
    assert (forall p, p ∈ groups_of a -> p ∈ gs) as Ha
      by (intros p Hp; apply Hgs; simpl; right; exact Hp).
    destruct (IHa Ha _ _ _ Hst H) as (w & st1 & Hst1 & Hr1 & Hp1 & HL & Hk).
    exists w, (MState (m_pos st1) (m_rest st1)
                 ((n, (m_pos st, m_pos st1)) :: m_caps st1)).
    split; [|split; [exact Hr1|split; [exact Hp1|split; [exact HL|exact Hk]]]].
    destruct Hst1 as (R1 & P1 & C1). destruct Hst as (R0 & P0 & C0).
    split; [exact R1|]. split; [exact P1|]. simpl.
    intros n' s e Hin. apply elem_of_cons in Hin as [[= -> -> ->]|Hin].
    + exists a. split; [apply Hgs; simpl; left|].
      rewrite Hp1. rewrite (slice_app_prefix _ text w (m_rest st1)); [exact HL|].
      rewrite <- R0. exact Hr1.
    + apply C1, Hin.
Qed.

Lemma match_at_sound (ic : bool) (r : regex) (text : pystr) (pos : nat)
    (m : Match) :
  (pos <= length text)%nat ->
  match_at ic r text pos (drop pos text) = Some m ->
  match_in ic r text m /\ m_start m = pos.
Proof.
  intros Hpos H. unfold match_at in H.
  destruct (rmatch ic r (MState pos (drop pos text) []) Some) as [st|] eqn:E;
    [|discriminate].
  injection H as <-.
  assert (state_in ic (groups_of r) text (MState pos (drop pos text) [])) as Hst.
  { split; [reflexivity|]. split; [exact Hpos|]. intros n s e Hin. inversion Hin. }
  destruct (rmatch_sound ic (groups_of r) text r (fun p Hp => Hp) _ _ _ Hst E)
    as (w & st1 & (R1 & P1 & C1) & Hr & Hp & HL & [= <-]).
  simpl in Hr, Hp. split; [|reflexivity].
  split; [reflexivity|]. simpl. split; [lia|].
  split; [|exact C1].
  unfold group. simpl. rewrite Hp.
  rewrite (slice_app_prefix pos text w (m_rest st1) Hr). exact HL.
Qed.

Lemma search_from_sound (ic : bool) (r : regex) (text : pystr) (rest : pystr)
    (pos : nat) (m : Match) :
  rest = drop pos text -> (pos <= length text)%nat ->
  search_from ic r text pos rest = Some m -> match_in ic r text m.
Proof.
  revert pos. induction rest as [|x rest IH]; intros pos Hrest Hpos H; simpl in H.
  - destruct (match_at ic r text pos []) as [m'|] eqn:E; [|discriminate].
    injection H as ->. rewrite Hrest in E.
    apply (match_at_sound ic r text pos m Hpos E).
  - destruct (match_at ic r text pos (x :: rest)) as [m'|] eqn:E.
    + injection H as ->. rewrite Hrest in E.
      apply (match_at_sound ic r text pos m Hpos E).
    + symmetry in Hrest. apply drop_cons_inv in Hrest as [H1 H2].
      apply (IH (S pos)); [symmetry; exact H1|lia|exact H].
Qed.

(** What [re.search] returns is a match of the pattern in the text. *)
Lemma re_search_sound (ic : bool) (r : regex) (text : pystr) (m : Match) :
  re_search ic r text = Some m -> match_in ic r text m.
Proof.
  unfold re_search. apply search_from_sound; [symmetry; apply drop_0|lia].
Qed.




Lemma assoc_elem (n : nat) (l : list (nat * (nat * nat))) (v : nat * nat) :
  assoc n l = Some v -> (n, v) ∈ l.
Proof.
  induction l as [|[k u] l IH]; simpl; [discriminate|].
  destruct (Nat.eqb_spec k n) as [->|_].
  - intros [= ->]. left.
  - intros H. right. apply IH, H.
Qed.

(** A group of a match is empty or holds a word of a group of its number. *)
Lemma group_in (ic : bool) (r : regex) (text : pystr) (m : Match) (n : nat) :
  match_in ic r text m -> (0 < n)%nat ->
  group n m = [] \/ exists a, (n, a) ∈ groups_of r /\ lang ic a (group n m).
Proof.
  intros (Hs & _ & _ & Hg) Hn. unfold group.
  destruct n as [|n]; [lia|].
  destruct (assoc (S n) (m_groups m)) as [[s e]|] eqn:E; [|left; reflexivity].
  right. apply assoc_elem in E. rewrite Hs. apply Hg, E.
Qed.

(** *** Lengths and characters of the words of a pattern *)

Lemma lang_min_len (ic : bool) (r : regex) (w : pystr) :
  lang ic r w -> (min_len r <= length w)%nat.
Proof.
  revert w.
  induction r as [|c|neg items| |a IHa b IHb|a IHa b IHb|a IHa lo hi|n a IHa];
    intros w H; simpl in *.
  - subst. simpl. lia.
  - destruct H as (x & -> & _). simpl. lia.
  - destruct H as (x & -> & _). simpl. lia.
  - subst. simpl. lia.
  - destruct H as (w1 & w2 & -> & H1 & H2). rewrite length_app.
    specialize (IHa _ H1). specialize (IHb _ H2). lia.
  - destruct H as [H|H]; [specialize (IHa _ H)|specialize (IHb _ H)]; lia.
  - destruct H as (ws & -> & Hws & Hlo & _).
    assert (length ws * min_len a <= length (concat ws))%nat.
    { clear Hlo. induction Hws as [|w ws Hw Hws IH]; simpl; [lia|].
      rewrite length_app. specialize (IHa _ Hw). lia. }
    nia.
  - apply IHa, H.
Qed.

Lemma lang_max_len (ic : bool) (r : regex) (w : pystr) (h : nat) :
  lang ic r w -> max_len r = Some h -> (length w <= h)%nat.
Proof.
  revert w h.
  induction r as [|c|neg items| |a IHa b IHb|a IHa b IHb|a IHa lo hi|n a IHa];
    intros w h H E; simpl in *.
  - injection E as <-. subst. simpl. lia.
  - injection E as <-. destruct H as (x & -> & _). simpl. lia.
  - injection E as <-. destruct H as (x & -> & _). simpl. lia.
  - injection E as <-. subst. simpl. lia.
  - destruct (max_len a) as [x|]; [|discriminate].
    destruct (max_len b) as [y|]; [|discriminate]. injection E as <-.
    destruct H as (w1 & w2 & -> & H1 & H2). rewrite length_app.
    specialize (IHa _ _ H1 eq_refl). specialize (IHb _ _ H2 eq_refl). lia.
  - destruct (max_len a) as [x|]; [|discriminate].
    destruct (max_len b) as [y|]; [|discriminate]. injection E as <-.
    destruct H as [H|H];
      [specialize (IHa _ _ H eq_refl)|specialize (IHb _ _ H eq_refl)]; lia.
  - destruct hi as [hi|]; [|discriminate].
    destruct (max_len a) as [x|]; [|discriminate]. injection E as <-.
    destruct H as (ws & -> & Hws & _ & Hhi). specialize (Hhi hi eq_refl).
    assert (length (concat ws) <= length ws * x)%nat.
    { clear Hhi. induction Hws as [|w ws Hw Hws IH]; simpl; [lia|].
      rewrite length_app. specialize (IHa _ _ Hw eq_refl). lia. }
    nia.
  - apply (IHa _ _ H E).
Qed.

Lemma lang_accepts (ic : bool) (r : regex) (w : pystr) :
  lang ic r w -> Forall (fun x => accepts ic r x = true) w.
Proof.
  revert w.
  induction r as [|c|neg items| |a IHa b IHb|a IHa b IHb|a IHa lo hi|n a IHa];
    intros w H; simpl in *.
  - subst. constructor.
  - destruct H as (x & -> & Hx). repeat constructor. exact Hx.
  - destruct H as (x & -> & Hx). repeat constructor. exact Hx.
  - subst. constructor.
  - destruct H as (w1 & w2 & -> & H1 & H2). apply Forall_app. split.
    + eapply Forall_impl; [apply IHa, H1|]. simpl. intros x ->. reflexivity.
    + eapply Forall_impl; [apply IHb, H2|]. simpl. intros x ->.
      apply orb_true_r.
  - destruct H as [H|H].
    + eapply Forall_impl; [apply IHa, H|]. simpl. intros x ->. reflexivity.
    + eapply Forall_impl; [apply IHb, H|]. simpl. intros x ->.
      apply orb_true_r.
  - destruct H as (ws & -> & Hws & _).
    induction Hws as [|w ws Hw Hws IH]; simpl; [constructor|].
    apply Forall_app. split; [apply IHa, Hw|exact IH].
  - apply IHa, H.
Qed.

(** *** Characters under [re.IGNORECASE] *)

Ltac bool_to_prop :=
  repeat match goal with
    | H : _ && _ = true |- _ => apply andb_true_iff in H as [? ?]
    | H : _ || _ = false |- _ => apply orb_false_iff in H as [? ?]
    | H : negb _ = true |- _ => apply negb_true_iff in H
    | H : negb _ = false |- _ => apply negb_false_iff in H
    | H : (_ <=? _) = true |- _ => apply N.leb_le in H
    | H : (_ <=? _) = false |- _ => apply N.leb_gt in H
    | H : (_ <? _) = true |- _ => apply N.ltb_lt in H
    | H : (_ <? _) = false |- _ => apply N.ltb_ge in H
    | H : (_ =? _) = true |- _ => apply N.eqb_eq in H
    | H : (_ =? _) = false |- _ => apply N.eqb_neq in H
    | H : _ && _ = false |- _ => apply andb_false_iff in H as [?|?]
    | H : _ || _ = true |- _ => apply orb_true_iff in H as [?|?]
    end.

(** The cases of a conditional, one after the other: [tac] closes the case
    in which the condition holds. *)
Ltac each_branch tac :=
  repeat match goal with
    | |- context [if ?b then _ else _] =>
        let E := fresh "E" in
        destruct b eqn:E;
        [bool_to_prop;
         repeat match goal with
           | |- context [if ?c then _ else _] => destruct c
           end; tac
        | clear E]
    end.

Lemma in_ranges_elem (table : list (N * N)) (c : N) :
  in_ranges table c = true -> exists lo hi, (lo, hi) ∈ table /\ lo <= c <= hi.
Proof.
  induction table as [|[lo hi] rest IH]; simpl; [discriminate|].
  destruct (c <? lo) eqn:E1; [discriminate|].
  destruct (c <=? hi) eqn:E2.
  - intros _. exists lo, hi. split; [left|]. bool_to_prop. lia.
  - intros H. destruct (IH H) as (a & b & Hin & Hab).
    exists a, b. split; [right; exact Hin|exact Hab].
Qed.

Lemma outside_ranges_spec (table : list (N * N)) (lo hi c : N) :
  outside_ranges table lo hi = true -> lo <= c <= hi -> in_ranges table c = false.
Proof.
  intros Ho Hc. destruct (in_ranges table c) eqn:E; [|reflexivity]. exfalso.
  apply in_ranges_elem in E as (a & b & Hin & Hab).
  unfold outside_ranges in Ho. rewrite forallb_forall in Ho.
  apply list_elem_of_In in Hin. specialize (Ho _ Hin). cbv beta iota in Ho.
  bool_to_prop; lia.
Qed.

Ltac decide_comparisons :=
  repeat match goal with
    | |- context [?a <? ?b] => destruct (N.ltb_spec a b); try lia
    | |- context [?a <=? ?b] => destruct (N.leb_spec a b); try lia
    end.

Lemma is_space_ranges (c : N) :
  is_space c = true -> in_ranges space_ranges c = true.
Proof.
  intros H. unfold is_space in H. unfold space_ranges, in_ranges.
  bool_to_prop; subst; decide_comparisons; reflexivity.
Qed.

Lemma lookup_lower_cases (table : list (N * N * N * N)) (c : N) :
  lookup_lower table c = c
  \/ exists lo hi step target,
       (lo, hi, step, target) ∈ table /\ lo <= c <= hi
       /\ lookup_lower table c = target + (c - lo).
Proof.
  induction table as [|[[[lo hi] step] target] rest IH]; simpl; [left; reflexivity|].
  destruct (c <? lo) eqn:E1; [left; reflexivity|].
  destruct (c <=? hi) eqn:E2.
  - destruct ((c - lo) mod step =? 0); [|left; reflexivity].
    right. exists lo, hi, step, target.
    split; [left|]. bool_to_prop. split; [lia|reflexivity].
  - destruct IH as [IH|(a & b & st & t & Hin & Hab & E)]; [left; exact IH|].
    right. exists a, b, st, t. split; [right; exact Hin|]. split; assumption.
Qed.

Lemma lower_table_ok : forallb lower_entry_ok lower_table = true.
Proof. vm_compute. reflexivity. Qed.

Lemma case_fix_table_ok : forallb fix_entry_ok case_fix_table = true.
Proof. vm_compute. reflexivity. Qed.

(** A character that the lower-case mapping changes is a letter from [A]
    on, outside the code points between [Z] and U+00C0 and no white space;
    it becomes a code point from [a] on that is no decimal digit. *)
Lemma tolower_image (x : N) :
  unicode_tolower x = x
  \/ (65 <= x /\ (x <= 90 \/ 192 <= x) /\ is_space x = false
      /\ 97 <= unicode_tolower x /\ is_digit (unicode_tolower x) = false).
Proof.
  unfold unicode_tolower.
  destruct (lookup_lower_cases lower_table x)
    as [E|(lo & hi & step & target & Hin & Hx & E)]; [left; exact E|].
  right. pose proof lower_table_ok as Hok. rewrite forallb_forall in Hok.
  apply list_elem_of_In in Hin. specialize (Hok _ Hin).
  unfold lower_entry_ok in Hok. cbv beta iota in Hok.
  apply andb_true_iff in Hok as [Hok Hdigit].
  apply andb_true_iff in Hok as [Hok Hspace].
  rewrite E. bool_to_prop.
  all: repeat split; try lia.
  all: first
    [ destruct (is_space x) eqn:Hs; [|reflexivity];
      apply is_space_ranges in Hs;
      rewrite (outside_ranges_spec _ _ _ x Hspace) in Hs by lia; discriminate
    | apply (outside_ranges_spec _ _ _ _ Hdigit); lia ].
Qed.

(** The lower-case mapping changes letters only. *)
Lemma tolower_outside (x : N) :
  x < 65 \/ 90 < x < 192 -> unicode_tolower x = x.
Proof.
  intros H. destruct (tolower_image x) as [E|E]; [exact E|lia].
Qed.

Lemma tolower_space (x : N) : is_space x = true -> unicode_tolower x = x.
Proof.
  intros H. destruct (tolower_image x) as [E|(_ & _ & E & _)]; [exact E|congruence].
Qed.

Lemma lookup_fixes_cases (table : list (N * list N)) (c : N) :
  lookup_fixes table c = []
  \/ exists others, (c, others) ∈ table /\ lookup_fixes table c = others.
Proof.
  induction table as [|[k others] rest IH]; simpl; [left; reflexivity|].
  destruct (N.eqb_spec c k) as [->|_].
  - right. exists others. split; [left|reflexivity].
  - destruct IH as [IH|(o & Hin & E)]; [left; exact IH|].
    right. exists o. split; [right; exact Hin|exact E].
Qed.

Lemma case_fixes_cases (c : N) :
  case_fixes c = []
  \/ (105 <= c /\ (c <= 122 -> case_fixes c = [305] \/ case_fixes c = [383])).
Proof.
  unfold case_fixes.
  destruct (lookup_fixes_cases case_fix_table c) as [E|(others & Hin & E)];
    [left; exact E|].
  right. pose proof case_fix_table_ok as Hok. rewrite forallb_forall in Hok.
  apply list_elem_of_In in Hin. specialize (Hok _ Hin).
  unfold fix_entry_ok in Hok. cbv beta iota in Hok.
  rewrite E. apply andb_true_iff in Hok as [Hk Ho]. apply N.leb_le in Hk.
  split; [exact Hk|]. intros Hc.
  apply orb_true_iff in Ho as [Ho|Ho];
    [apply orb_true_iff in Ho as [Ho|Ho]|].
  - apply negb_true_iff, N.leb_gt in Ho. lia.
  - left. apply bool_decide_eq_true_1 in Ho. exact Ho.
  - right. apply bool_decide_eq_true_1 in Ho. exact Ho.
Qed.

Lemma tolower_plain (c : N) :
  c < 65 \/ 90 < c < 192 -> unicode_tolower c = c /\ (c < 97 -> case_fixes c = []).
Proof.
  intros H. split; [apply tolower_outside; lia|].
  intros Hc. destruct (case_fixes_cases c) as [E|[E _]]; [exact E|lia].
Qed.

(** Under [re.IGNORECASE] a digit or an ASCII punctuation character of a
    pattern matches itself only. *)
Lemma chr_match_plain (c x : N) :
  c < 65 \/ 90 < c < 97 -> chr_match true c x = true -> x = c.
Proof.
  intros Hc H. unfold chr_match in H.
  destruct (tolower_plain c ltac:(lia)) as [E1 E2].
  rewrite E1, E2 in H by lia. simpl in H. rewrite orb_false_r in H.
  apply N.eqb_eq in H. destruct (tolower_image x) as [E|E]; lia.
Qed.

Lemma N_range_bounds (a b i : N) : In i (N_range a b) -> a <= i <= b.
Proof.
  unfold N_range. intros H. apply in_map_iff in H as (k & <- & Hk).
  apply in_seq in Hk. lia.
Qed.

(** The class [0-9] matches the ten ASCII digits, with [re.IGNORECASE]
    too. *)
Lemma range_digit (x : N) :
  existsb (fun i => chr_match true i x) (N_range 48 57) = true ->
  is_ascii_digit x = true.
Proof.
  intros H. apply existsb_exists in H as (i & Hi & H).
  apply N_range_bounds in Hi. apply chr_match_plain in H as ->; [|lia].
  unfold is_ascii_digit. apply andb_true_iff. split; apply N.leb_le; lia.
Qed.

(** The class [\d] under [re.IGNORECASE]. *)
Lemma digit_class (x : N) :
  is_digit (unicode_tolower x) = true -> is_digit x = true.
Proof.
  intros H. destruct (tolower_image x) as [E|(_ & _ & _ & _ & E)];
    [rewrite E in H; exact H|congruence].
Qed.

Lemma case_fixes_letter (i : N) :
  97 <= i <= 122 ->
  case_fixes i = [] \/ case_fixes i = [305] \/ case_fixes i = [383].
Proof.
  intros H. destruct (case_fixes_cases i) as [E|[_ E]]; [left; exact E|].
  right. apply E. lia.
Qed.

(** The class [a-z] under [re.IGNORECASE] matches no white space. *)
Lemma range_letter_not_space (x : N) :
  existsb (fun i => chr_match true i x) (N_range 97 122) = true ->
  is_space x = false.
Proof.
  intros H. apply existsb_exists in H as (i & Hi & H).
  apply N_range_bounds in Hi.
  destruct (is_space x) eqn:Hs; [|reflexivity]. exfalso.
  pose proof (tolower_space x Hs) as E.
  destruct (tolower_plain i ltac:(lia)) as [Ei _].
  unfold chr_match in H. rewrite E, Ei in H.
  assert (x = i \/ x = 305 \/ x = 383) as Hx.
  { apply orb_true_iff in H as [H|H]; [apply N.eqb_eq in H; auto|].
    destruct (case_fixes_letter i Hi) as [F|[F|F]]; rewrite F in H;
      simpl in H; try discriminate;
      rewrite orb_false_r in H; apply N.eqb_eq in H; auto. }
  unfold is_space in Hs. bool_to_prop; lia.
Qed.

(** *** Fields copied from the text *)

Lemma starts_with_spec (p s : pystr) :
  starts_with p s = true <-> exists after, s = p ++ after.
Proof.
  revert s. induction p as [|a p IH]; intros s; simpl.
  - split; [intros _; exists s; reflexivity|reflexivity].
  - destruct s as [|b s].
    + split; [discriminate|intros [after H]; discriminate].
    + rewrite andb_true_iff, N.eqb_eq, IH. split.
      * intros [-> [after ->]]. exists after. reflexivity.
      * intros [after [= -> ->]]. split; [reflexivity|]. exists after. reflexivity.
Qed.

Lemma contains_spec (p s : pystr) : contains p s = true <-> is_substring p s.
Proof.
  unfold is_substring. induction s as [|c s IH].
  - unfold contains. rewrite orb_false_r, starts_with_spec. split.
    + intros [after H]. exists [], after. exact H.
    + intros (before & after & H). destruct before; [|discriminate].
      exists after. exact H.
  - change (contains p (c :: s)) with (starts_with p (c :: s) || contains p s).
    rewrite orb_true_iff, starts_with_spec, IH. split.
    + intros [[after H]|(before & after & H)].
      * exists [], after. exact H.
      * exists (c :: before), after. rewrite H. reflexivity.
    + intros (before & after & H). destruct before as [|b before].
      * left. exists after. exact H.
      * right. injection H as -> ->. exists before, after. reflexivity.
Qed.

Lemma is_substring_refl (s : pystr) : is_substring s s.
Proof. exists [], []. rewrite app_nil_r. reflexivity. Qed.

Lemma is_substring_trans (a b c : pystr) :
  is_substring a b -> is_substring b c -> is_substring a c.
Proof.
  intros (p1 & q1 & ->) (p2 & q2 & ->).
  exists (p2 ++ p1), (q1 ++ q2). rewrite <- !app_assoc. reflexivity.
Qed.

Lemma slice_substring (i j : nat) (s : pystr) : is_substring (slice i j s) s.
Proof.
  unfold slice. exists (take i s), (drop (j - i) (drop i s)).
  rewrite take_drop, take_drop. reflexivity.
Qed.

Lemma drop_while_suffix (f : N -> bool) (s : pystr) :
  exists before, s = before ++ drop_while f s.
Proof.
  induction s as [|c s [before IH]]; [exists []; reflexivity|].
  simpl. destruct (f c); [|exists []; reflexivity].
  exists (c :: before). simpl. rewrite <- IH. reflexivity.
Qed.

Lemma strip_substring (s : pystr) : is_substring (strip s) s.
Proof.
  unfold strip, rstrip, lstrip.
  destruct (drop_while_suffix is_space s) as [before H].
  destruct (drop_while_suffix is_space (rev (drop_while is_space s)))
    as [after H'].
  exists before, (rev after). rewrite H at 1. f_equal.
  rewrite <- (rev_involutive (drop_while is_space s)) at 1.
  rewrite H' at 1. rewrite rev_app_distr. reflexivity.
Qed.

Lemma group_substring (ic : bool) (r : regex) (text : pystr) (m : Match)
    (n : nat) :
  match_in ic r text m -> is_substring (group n m) text.
Proof.
  intros (Hs & _). unfold group. rewrite Hs.
  destruct n; [apply slice_substring|].
  destruct (assoc (S n) (m_groups m)) as [[s e]|]; [apply slice_substring|].
  exists [], text. reflexivity.
Qed.

Lemma first_search_some (ps : list regex) (text : pystr) (m : Match) :
  first_search ps text = Some m ->
  exists p, p ∈ ps /\ re_search true p text = Some m.
Proof.
  induction ps as [|p ps IH]; simpl; [discriminate|].
  destruct (re_search true p text) as [m'|] eqn:E.
  - intros [= ->]. exists p. split; [left|exact E].
  - intros H. destruct (IH H) as (q & Hq & Hm). exists q. split; [right; exact Hq|exact Hm].
Qed.

(** The first group of a match of one of the patterns: empty, or a word of
    the first group of that pattern. *)
Lemma search_group1 (P : pystr -> Prop) (p : regex) (text : pystr) (m : Match) :
  re_search true p text = Some m ->
  (forall a w, (1%nat, a) ∈ groups_of p -> lang true a w -> P w) ->
  is_substring (group 1 m) text /\ (group 1 m = [] \/ P (group 1 m)).
Proof.
  intros Hm HP. apply re_search_sound in Hm.
  split; [apply (group_substring true p text m 1 Hm)|].
  destruct (group_in true p text m 1 Hm ltac:(lia)) as [E|(a & Ha & Hl)];
    [left; exact E|right; exact (HP a _ Ha Hl)].
Qed.

Ltac split_orb H :=
  repeat match type of H with
    | (_ || _) = true => apply orb_true_iff in H as [H|H]
    end.

Lemma cls_digit (x : N) :
  cls_match true false [CDigit] x = true -> is_digit x = true.
Proof.
  unfold cls_match, item_match. cbn [existsb xorb].
  rewrite orb_false_r. apply digit_class.
Qed.

Lemma cls_ascii_digit (x : N) :
  cls_match true false [CRange 48 57] x = true -> is_ascii_digit x = true.
Proof.
  unfold cls_match, item_match. cbn [existsb xorb].
  rewrite orb_false_r. apply range_digit.
Qed.

Lemma cls_date_separator (x : N) :
  cls_match true false [CChar 47; CChar 45; CChar 46] x = true ->
  x = 47 \/ x = 45 \/ x = 46.
Proof.
  unfold cls_match, item_match. cbn [existsb xorb]. intros H.
  split_orb H; try discriminate; apply chr_match_plain in H; lia.
Qed.

Ltac date_atom H :=
  first
    [ apply cls_digit in H; unfold date_char; rewrite H; reflexivity
    | apply cls_date_separator in H; destruct H as [ -> | [ -> | -> ] ]; reflexivity
    | apply chr_match_plain in H; [subst; reflexivity|lia] ].

Lemma date_group (p : regex) (a : regex) (w : pystr) :
  p ∈ invoice_date_patterns ++ due_date_patterns ->
  (1%nat, a) ∈ groups_of p -> lang true a w ->
  (6 <= length w <= 10)%nat /\ Forall (fun x => date_char x = true) w.
Proof.
  intros Hp Ha Hw.
  assert (min_len a = 6%nat /\ max_len a = Some 10%nat
          /\ forall x, accepts true a x = true -> date_char x = true)
    as (Hmin & Hmax & Hacc).
  { unfold invoice_date_patterns, due_date_patterns in Hp. simpl in Hp.
    repeat (apply elem_of_cons in Hp as [->|Hp]); [..|inversion Hp];
      vm_compute in Ha; apply list_elem_of_singleton in Ha;
      injection Ha as ->;
      (split; [reflexivity|split; [reflexivity|]]);
      intros x Hx; cbn [accepts] in Hx;
      split_orb Hx; try discriminate; date_atom Hx. }
  split.
  - pose proof (lang_min_len true a w Hw).
    pose proof (lang_max_len true a w 10 Hw Hmax). lia.
  - eapply Forall_impl; [apply lang_accepts, Hw|]. exact Hacc.
Qed.

(** X1.  The two dates of the record are empty or are dates of the text:
    six to ten characters, each a decimal digit, a point, a slash or a
    hyphen, standing in the text as they are returned. *)
Theorem dates_come_from_the_text (text : pystr) :
  date_or_empty text (invoiceDate (extract_with_patterns text))
  /\ date_or_empty text (invoiceDueDate (extract_with_patterns text)).
Proof.
  assert (forall ps, (forall p, p ∈ ps -> p ∈ invoice_date_patterns ++ due_date_patterns) ->
            date_or_empty text (extract_date ps text)) as H.
  { intros ps Hps. unfold extract_date, date_or_empty.
    destruct (first_search ps text) as [m|] eqn:E; [|left; reflexivity].
    apply first_search_some in E as (p & Hp & Hm).
    destruct (search_group1
                (fun w => (6 <= length w <= 10)%nat
                          /\ Forall (fun x => date_char x = true) w)
                p text m Hm) as [Hsub [Hnil|[Hlen Hch]]].
    - intros a w Ha Hw. apply (date_group p a w (Hps p Hp) Ha Hw).
    - left. exact Hnil.
    - right. auto. }
  split; apply H; intros p Hp; apply elem_of_app; [left|right]; exact Hp.
Qed.

Lemma is_substring_Forall (P : N -> Prop) (a b : pystr) :
  is_substring a b -> Forall P b -> Forall P a.
Proof.
  intros (p & q & ->) H. apply Forall_app in H as [_ H].
  apply Forall_app in H as [H _]. exact H.
Qed.

Lemma cls_token (x : N) :
  cls_match true false [CRange 97 122; CRange 48 57; CChar 45] x = true ->
  is_space x = false.
Proof.
  unfold cls_match, item_match. cbn [existsb xorb]. intros H.
  split_orb H; try discriminate.
  - apply range_letter_not_space, H.
  - apply digit_not_space, range_digit, H.
  - apply chr_match_plain in H; [subst; reflexivity|lia].
Qed.

Lemma invoice_number_group (p : regex) (a : regex) (w : pystr) :
  p ∈ invoice_num_patterns ->
  (1%nat, a) ∈ groups_of p -> lang true a w -> no_space_inside w.
Proof.
  intros Hp Ha Hw.
  assert (forall x, accepts true a x = true -> is_space x = false) as Hacc.
  { unfold invoice_num_patterns in Hp.
    repeat (apply elem_of_cons in Hp as [->|Hp]); [..|inversion Hp];
      vm_compute in Ha; apply list_elem_of_singleton in Ha;
      injection Ha as ->;
      intros x Hx; cbn [accepts] in Hx;
      split_orb Hx; try discriminate;
      first [ apply cls_token, Hx
            | apply digit_not_space, cls_ascii_digit, Hx ]. }
  eapply Forall_impl; [apply lang_accepts, Hw|]. exact Hacc.
Qed.

(** X2.  The invoice number is a piece of the text without white space in
    it (or empty), and the project name is a piece of the text or the
    placeholder [Imported Invoice]. *)
Theorem number_and_name_come_from_the_text (text : pystr) :
  is_substring (invoiceNumber (extract_with_patterns text)) text
  /\ no_space_inside (invoiceNumber (extract_with_patterns text))
  /\ (projectName (extract_with_patterns text) = py "Imported Invoice"
      \/ is_substring (projectName (extract_with_patterns text)) text).
Proof.
  assert (is_substring (extract_invoice_number text) text
          /\ no_space_inside (extract_invoice_number text)) as [Hsub Hns].
  { unfold extract_invoice_number.
    destruct (first_search invoice_num_patterns text) as [m|] eqn:E;
      [|split; [exists [], text; reflexivity|constructor]].
    apply first_search_some in E as (p & Hp & Hm).
    destruct (search_group1 no_space_inside p text m Hm) as [Hsub Hw].
    { intros a w Ha Hw. apply (invoice_number_group p a w Hp Ha Hw). }
    split.
    - eapply is_substring_trans; [apply strip_substring|exact Hsub].
    - apply (is_substring_Forall _ _ _ (strip_substring _)).
      destruct Hw as [->|Hw]; [constructor|exact Hw]. }
  rewrite invoiceNumber_eq, projectName_eq.
  split; [exact Hsub|]. split; [exact Hns|].
  assert (forall ps, project_loop ps text = []
                     \/ is_substring (project_loop ps text) text) as Hloop.
  { induction ps as [|p ps IH]; [left; reflexivity|]. simpl.
    destruct (re_search true p text) as [m|] eqn:Hm; [|exact IH].
    destruct ((5 <? length (strip (group 1 m)))%nat
              && (length (strip (group 1 m)) <? 100)%nat); [|exact IH].
    right. apply re_search_sound in Hm.
    eapply is_substring_trans; [apply strip_substring|].
    apply (group_substring true p text m 1 Hm). }
  destruct (Hloop project_patterns) as [E|Hp].
  - rewrite E. destruct (extract_invoice_number text) eqn:En.
    + left. reflexivity.
    + right. exact Hsub.
  - destruct (project_loop project_patterns text) eqn:E.
    + destruct (extract_invoice_number text) eqn:En;
        [left; reflexivity|right; exact Hsub].
    + right. exact Hp.
Qed.

Lemma uint_string_digits (d : Decimal.uint) :
  all_digits (py (NilEmpty.string_of_uint d)).
Proof.
  induction d; simpl;
    [constructor|rewrite py_ascii by reflexivity; constructor; [reflexivity|assumption]..].
Qed.

Lemma py_str_int_digits (n : Z) : (0 <= n)%Z -> all_digits (py_str_int n).
Proof.
  intros H. unfold py_str_int.
  assert (forall d, all_digits (py (NilZero.string_of_uint d))) as Hd.
  { intros d. destruct d;
      first [exact (uint_string_digits _) | vm_compute; repeat constructor]. }
  destruct n as [|p|p]; [apply Hd|apply Hd|lia].
Qed.

Lemma pocet_mj_group (a : regex) (w : pystr) :
  (1%nat, a) ∈ groups_of pocet_mj_pattern -> lang true a w -> all_digits w.
Proof.
  intros Ha Hw. vm_compute in Ha. apply list_elem_of_singleton in Ha.
  injection Ha as ->.
  eapply Forall_impl; [apply lang_accepts, Hw|].
  intros x Hx. cbn [accepts] in Hx. split_orb Hx; try discriminate.
  apply cls_ascii_digit, Hx.
Qed.

(** X3.  The number of man-days is empty or a run of ASCII digits, on the
    line-item path and on the [Počet MJ:] path alike. *)
Theorem number_of_mds_is_digits (text : pystr) :
  all_digits (numberOfMDs (extract_with_patterns text)).
Proof.
  change (numberOfMDs (extract_with_patterns text))
    with (extract_number_of_mds text).
  unfold extract_number_of_mds. fold (line_items text).
  rewrite md_scan_spec. cbn [fst app].
  assert (all_digits
            (match omap plausible_count (line_items text) with
             | [] => []
             | _ :: _ => py_str_int (sum_Z (omap plausible_count (line_items text)))
             end)) as H.
  { destruct (omap plausible_count (line_items text)) as [|c cs] eqn:E;
      [constructor|].
    apply py_str_int_digits. rewrite sum_Z_foldr.
    assert (Forall (fun n => 0 < n)%Z (c :: cs)) as Hpos.
    { rewrite <- E. apply Forall_forall. intros n Hn.
      apply list_elem_of_omap in Hn as (m & _ & Hm).
      unfold plausible_count in Hm.
      destruct (py_int (group 1 m)) as [k|]; [|discriminate].
      destruct ((0 <? k)%Z && (k <? 1000)%Z) eqn:Hk; [|discriminate].
      injection Hm as <-. apply andb_true_iff in Hk as [Hk _].
      apply Z.ltb_lt in Hk. exact Hk. }
    clear E. induction Hpos as [|y l Hy _ IH]; simpl; lia. }
  destruct (match omap plausible_count (line_items text) with
            | [] => []
            | _ :: _ => py_str_int (sum_Z (omap plausible_count (line_items text)))
            end) eqn:E; [|exact H].
  destruct (re_search true pocet_mj_pattern text) as [m|] eqn:Hm; [|constructor].
  destruct (search_group1 all_digits pocet_mj_pattern text m Hm) as [_ [->|Hd]];
    [apply pocet_mj_group|constructor|exact Hd].
Qed.

(** *** Total and currency *)

Lemma plausible_candidate_inv (m : Match) (c : CandidateAmount) :
  plausible_candidate m = Some c ->
  number_between 100 100000000 (amount c)
  /\ py_float (amount c) = Some (value c)
  /\ cand_currency c = currency_of_candidate (matched_text c).
Proof.
  unfold plausible_candidate.
  destruct (py_float (normalize_amount (group 1 m))) as [a|] eqn:E; [|discriminate].
  destruct (float_between 100 100000000 a) eqn:Hb; [|discriminate].
  intros [= <-]. simpl. split; [|split; [exact E|reflexivity]].
  split; [|exists a; auto].
  intros H. rewrite H in E. vm_compute in E. discriminate.
Qed.

Lemma labelled_candidate_inv (text : pystr) (c : CandidateAmount) :
  c ∈ labelled_candidates text -> exists m, plausible_candidate m = Some c.
Proof.
  unfold labelled_candidates. intros H. apply list_elem_of_In in H.
  apply in_flat_map in H as (p & _ & H). apply list_elem_of_In in H.
  apply list_elem_of_omap in H as (m & _ & H). exists m. exact H.
Qed.

(** The inner loop adds candidates at the end of the list. *)
Lemma scan_matches_grows (matches : list Match) (st : amount_state) :
  exists l, all_amounts (scan_matches matches st) = all_amounts st ++ l
            /\ (l = [] -> omap plausible_candidate matches = []).
Proof.
  revert st. induction matches as [|m rest IH]; intros st.
  - exists []. simpl. rewrite app_nil_r. auto.
  - rewrite scan_matches_cons.
    change (omap plausible_candidate (m :: rest))
      with (match plausible_candidate m with
            | Some y => y :: omap plausible_candidate rest
            | None => omap plausible_candidate rest
            end).
    destruct (plausible_candidate m) as [c|]; [|apply IH].
    destruct (contains (py "bez") (lower (group 0 m))
              && contains (py "dph") (lower (group 0 m)));
      [exists [c]; split; [reflexivity|discriminate]|].
    destruct (contains (py "součet") (lower (group 0 m))
              || contains (py "základ") (lower (group 0 m)));
      [exists [c]; split; [reflexivity|discriminate]|].
    destruct (IH (MkAmounts (all_amounts st ++ [c]) (st_total st) (st_currency st)))
      as (l & Hl & _).
    exists (c :: l). split; [|discriminate].
    rewrite Hl. simpl. rewrite <- app_assoc. reflexivity.
Qed.

Lemma scan_patterns_grows (ps : list regex) (text : pystr) (st : amount_state) :
  exists l, all_amounts (scan_patterns ps text st) = all_amounts st ++ l
            /\ (l = [] ->
                flat_map (fun p => omap plausible_candidate (re_finditer true p text)) ps
                = []).
Proof.
  revert st. induction ps as [|p ps IH]; intros st.
  - exists []. simpl. rewrite app_nil_r. auto.
  - change (scan_patterns (p :: ps) text st)
      with (scan_patterns ps text (scan_matches (re_finditer true p text) st)).
    destruct (scan_matches_grows (re_finditer true p text) st) as (l1 & H1 & N1).
    destruct (IH (scan_matches (re_finditer true p text) st)) as (l2 & H2 & N2).
    exists (l1 ++ l2). split; [rewrite H2, H1, app_assoc; reflexivity|].
    intros E. apply app_eq_nil in E as [E1 E2]. simpl.
    rewrite (N1 E1), (N2 E2). reflexivity.
Qed.

Lemma scan_matches_from (pool : list CandidateAmount) (matches : list Match)
    (st : amount_state) :
  (forall c, c ∈ omap plausible_candidate matches -> c ∈ pool) ->
  amounts_from pool st -> amounts_from pool (scan_matches matches st).
Proof.
  revert st. induction matches as [|m rest IH]; intros st Hms Hst; [exact Hst|].
  rewrite scan_matches_cons.
  assert (forall c, c ∈ omap plausible_candidate rest -> c ∈ pool) as Hrest.
  { intros c Hc. apply Hms. apply list_elem_of_omap in Hc as (m' & Hm' & Hc).
    apply list_elem_of_omap. exists m'. split; [right; exact Hm'|exact Hc]. }
  destruct (plausible_candidate m) as [c|] eqn:E; [|apply IH; assumption].
  assert (c ∈ pool) as Hc.
  { apply Hms. apply list_elem_of_omap. exists m. split; [left|exact E]. }
  destruct Hst as [Hall Htot].
  assert (forall c', c' ∈ all_amounts st ++ [c] -> c' ∈ pool) as Hall'.
  { intros c' H. apply elem_of_app in H as [H|H]; [apply Hall, H|].
    apply list_elem_of_singleton in H as ->. exact Hc. }
  assert (c ∈ all_amounts st ++ [c]) as Hin
    by (apply elem_of_app; right; left).
  pose proof (plausible_candidate_text m c E) as Ht.
  destruct (contains (py "bez") (lower (group 0 m))
            && contains (py "dph") (lower (group 0 m))).
  { split; [exact Hall'|]. right. exists c. rewrite Ht. auto. }
  destruct (contains (py "součet") (lower (group 0 m))
            || contains (py "základ") (lower (group 0 m))).
  { split; [exact Hall'|]. right. exists c. rewrite Ht. auto. }
  apply IH; [exact Hrest|]. split; [exact Hall'|]. simpl.
  destruct Htot as [Htot|(c' & Hc' & H1 & H2)]; [left; exact Htot|].
  right. exists c'. split; [apply elem_of_app; left; exact Hc'|auto].
Qed.

Lemma scan_patterns_from (text : pystr) (ps : list regex) (st : amount_state)
    (pool : list CandidateAmount) :
  (forall c,
     c ∈ flat_map (fun p => omap plausible_candidate (re_finditer true p text)) ps ->
     c ∈ pool) ->
  amounts_from pool st -> amounts_from pool (scan_patterns ps text st).
Proof.
  revert st. induction ps as [|p ps IH]; intros st Hps Hst; [exact Hst|].
  change (scan_patterns (p :: ps) text st)
    with (scan_patterns ps text (scan_matches (re_finditer true p text) st)).
  apply IH.
  - intros c Hc. apply Hps. simpl. apply elem_of_app. right. exact Hc.
  - apply scan_matches_from; [|exact Hst].
    intros c Hc. apply Hps. simpl. apply elem_of_app. left. exact Hc.
Qed.

(** The state of the amount loops at their end, and then the state after
    the largest candidate has been looked at. *)
Lemma scanned_amounts_from (text : pystr) :
  amounts_from (labelled_candidates text) (scanned_amounts text)
  /\ (all_amounts (scanned_amounts text) = [] -> labelled_candidates text = []).
Proof.
  split.
  - apply scan_patterns_from; [auto|].
    split; [intros c H; inversion H|left; auto].
  - destruct (scan_patterns_grows amount_patterns text
                (MkAmounts [] (py "") (py "CZK"))) as (l & Hl & Hn).
    intros E. apply Hn. unfold scanned_amounts in E. rewrite Hl in E. exact E.
Qed.

Lemma extract_amounts_cases (text : pystr) :
  (labelled_candidates text = []
   /\ st_total (extract_amounts text) = []
   /\ st_currency (extract_amounts text) = py "CZK")
  \/ exists c,
       c ∈ labelled_candidates text
       /\ st_total (extract_amounts text) = amount c
       /\ (st_currency (extract_amounts text) = currency_of_label (matched_text c)
           \/ st_currency (extract_amounts text)
              = currency_of_candidate (matched_text c)).
Proof.
  destruct (scanned_amounts_from text) as [[Hall Htot] Hnil].
  unfold extract_amounts. fold (scanned_amounts text). unfold use_largest.
  destruct Htot as [[Ht Hc]|(c & Hc & Ht & Hcur)].
  - rewrite Ht.
    destruct (sort_desc (all_amounts (scanned_amounts text))) as [|c r] eqn:Hs.
    + left. apply sort_desc_nil in Hs. rewrite Ht. auto.
    + right. apply sort_desc_head in Hs as [Hin _]. exists c. simpl.
      split; [apply Hall, Hin|]. split; [reflexivity|right].
      destruct (labelled_candidate_inv text c (Hall c Hin)) as [m Hm].
      apply plausible_candidate_inv in Hm as (_ & _ & Hm). exact Hm.
  - right. exists c.
    assert (st_total (scanned_amounts text) <> []) as Hne.
    { rewrite Ht. destruct (labelled_candidate_inv text c (Hall c Hc)) as [m Hm].
      apply plausible_candidate_inv in Hm as ((Hm & _) & _). exact Hm. }
    destruct (st_total (scanned_amounts text)) eqn:E; [contradiction|].
    split; [apply Hall, Hc|]. split; [rewrite E; exact Ht|left; exact Hcur].
Qed.


(** X5.  The currency is [CZK] unless a total is returned and the matched
    text of a plausible labelled amount names the euro ([eur] in any case,
    or the euro sign); then it is [EUR]. *)
Theorem currency_is_euro_only_with_a_euro_token (text : pystr) :
  currency (extract_with_patterns text) = py "CZK"
  \/ (currency (extract_with_patterns text) = py "EUR"
      /\ invoicedTotal (extract_with_patterns text) <> []
      /\ exists c, c ∈ labelled_candidates text
                   /\ euro_token (matched_text c) = true).
Proof.
  change (invoicedTotal (extract_with_patterns text))
    with (st_total (extract_amounts text)).
  change (currency (extract_with_patterns text))
    with (st_currency (extract_amounts text)).
  destruct (extract_amounts_cases text) as [(_ & _ & Hc)|(c & Hc & Ht & Hcur)];
    [left; exact Hc|].
  assert (st_total (extract_amounts text) <> []) as Hne.
  { rewrite Ht. destruct (labelled_candidate_inv text c Hc) as [m Hm].
    apply plausible_candidate_inv in Hm as ((Hm & _) & _). exact Hm. }
  unfold currency_of_label, currency_of_candidate in Hcur. unfold euro_token.
  destruct (contains (py "eur") (lower (matched_text c))) eqn:E1;
    destruct (contains (py "€") (matched_text c)) eqn:E2;
    simpl in Hcur; destruct Hcur as [Hcur|Hcur]; rewrite Hcur;
    first [left; reflexivity
          | right; split; [reflexivity|split; [exact Hne|]];
            exists c; rewrite E1, E2; auto ].
Qed.

(** X6.  The man-day rate is empty or a number strictly between 100 and
    100000, on the line-item path and on the [Cena MJ:] path alike. *)
Theorem md_rate_is_plausible (text : pystr) :
  mdRate (extract_with_patterns text) = []
  \/ number_between 100 100000 (mdRate (extract_with_patterns text)).
Proof.
  assert (forall s v, py_float s = Some v -> float_between 100 100000 v = true ->
            number_between 100 100000 s) as Hnum.
  { intros s v Hf Hb. split; [|exists v; auto].
    intros ->. vm_compute in Hf. discriminate. }
  change (mdRate (extract_with_patterns text)) with (extract_md_rate text).
  unfold extract_md_rate. fold (line_items text).
  rewrite md_scan_spec. cbn [snd app].
  destruct (omap plausible_rate (line_items text)) as [|r rs] eqn:E.
  - destruct (re_search true cena_mj_pattern text) as [m|]; [|left; reflexivity].
    destruct (py_float (normalize_rate (group 1 m))) as [v|] eqn:Hf;
      [|left; reflexivity].
    destruct (float_between 100 100000 v) eqn:Hb; [|left; reflexivity].
    right. exact (Hnum _ _ Hf Hb).
  - assert (r ∈ omap plausible_rate (line_items text)) as Hr
      by (rewrite E; left).
    apply list_elem_of_omap in Hr as (m & _ & Hm).
    assert (number_between 100 100000 r) as Hn.
    { unfold plausible_rate in Hm.
      destruct (py_int (group 1 m)); [|discriminate].
      destruct (py_float (normalize_rate (group 2 m))) as [v|] eqn:Hf;
        [|discriminate].
      destruct (float_between 100 100000 v) eqn:Hb; [|discriminate].
      injection Hm as <-. exact (Hnum _ _ Hf Hb). }
    destruct r as [|x r]; [destruct Hn as [Hn _]; contradiction|].
    right. exact Hn.
Qed.

(** *** The canonical form of an amount *)

(** X7.  A normalized amount holds no space and no comma, and at most one
    point. *)
Theorem normalized_amount_is_canonical (s : pystr) :
  (32 ∉ normalize_amount s)
  /\ (44 ∉ normalize_amount s)
  /\ (length (filter (fun c : N => c = 46%N) (normalize_amount s)) <= 1)%nat.
Proof.
  pose proof (normalize_amount_rule s) as Hr. cbv zeta in Hr.
  destruct Hr as (H0 & H1 & H2).
  destruct (spaces_and_commas_clean (strip s)) as [Hsp Hco].
  destruct (decide (46 ∈ spaces_and_commas (strip s))) as [Hin|Hnot].
  - destruct (last_occurrence 46 _ Hin) as (a & b & E & Hb).
    assert ((32 ∉ a) /\ (32 ∉ b) /\ (44 ∉ a) /\ (44 ∉ b))
      as (Ha32 & Hb32 & Ha44 & Hb44).
    { rewrite E in Hsp, Hco.
      rewrite not_elem_of_app, not_elem_of_cons in Hsp, Hco. tauto. }
    destruct (decide (46 ∈ a)) as [Ha|Ha].
    + rewrite (H2 a b E Ha Hb).
      assert (forall x, x ∉ a -> x ∉ filter (fun c => c <> 46) a) as Hf.
      { intros x Hx Hx'. apply list_elem_of_filter in Hx' as [_ Hx']. contradiction. }
      rewrite !not_elem_of_app, !not_elem_of_cons.
      split; [split; [auto|split; [discriminate|auto]]|].
      split; [split; [auto|split; [discriminate|auto]]|].
      rewrite filter_app, filter_cons_True by reflexivity.
      rewrite (count_none 46 _ (filter_out_none 46 a)), (count_none 46 b Hb).
      simpl. lia.
    + rewrite (H1 a b E Ha Hb), E.
      rewrite !not_elem_of_app, !not_elem_of_cons.
      split; [split; [auto|split; [discriminate|auto]]|].
      split; [split; [auto|split; [discriminate|auto]]|].
      rewrite filter_app, filter_cons_True by reflexivity.
      rewrite (count_none 46 a Ha), (count_none 46 b Hb). simpl. lia.
  - rewrite (H0 Hnot). split; [exact Hsp|]. split; [exact Hco|].
    rewrite (count_none 46 _ Hnot). simpl. lia.
Qed.

(** ** Further properties of the correction analysis *)

Section Raising.

Variable finditer_spans : pystr -> pystr -> option (list (nat * nat)).



End Raising.

(** *** The tables of the analysis *)

Lemma table_of_tally (f g : string) (k : pystr) (t : tallies) :
  table_of (patterns (tally f k t)) g
  = if decide (f = g)
    then <[k := S (default O (table_of (patterns t) f !! k))]>
           (table_of (patterns t) f)
    else table_of (patterns t) g.
Proof.
  unfold tally, table_of. simpl. rewrite lookup_insert.
  destruct (decide (f = g)); reflexivity.
Qed.

Lemma tally_fields (f g : string) (k : pystr) (t : tallies) :
  is_Some (patterns t !! g) -> is_Some (patterns (tally f k t) !! g).
Proof.
  intros H. unfold tally. simpl. rewrite lookup_insert.
  destruct (decide (f = g)); [eexists; reflexivity|exact H].
Qed.

Lemma tally_present_cons (f : string) (key : pystr) (keys : list pystr)
    (ctx : pystr) (t : tallies) :
  tally_present f (key :: keys) ctx t
  = tally_present f keys ctx (if contains key ctx then tally f key t else t).
Proof. reflexivity. Qed.

Lemma tally_present_fields (f g : string) (keys : list pystr) (ctx : pystr)
    (t : tallies) :
  is_Some (patterns t !! g) -> is_Some (patterns (tally_present f keys ctx t) !! g).
Proof.
  revert t. induction keys as [|key keys IH]; intros t H; [exact H|].
  rewrite tally_present_cons. apply IH.
  destruct (contains key ctx); [apply tally_fields|]; exact H.
Qed.

Lemma tally_present_other (f g : string) (keys : list pystr) (ctx : pystr)
    (t : tallies) :
  f <> g ->
  table_of (patterns (tally_present f keys ctx t)) g = table_of (patterns t) g.
Proof.
  intros Hne. revert t. induction keys as [|key keys IH]; intros t; [reflexivity|].
  rewrite tally_present_cons, IH.
  destruct (contains key ctx); [|reflexivity].
  rewrite table_of_tally. destruct (decide (f = g)); [contradiction|reflexivity].
Qed.

Lemma tally_present_notin (f : string) (keys : list pystr) (ctx : pystr)
    (t : tallies) (k : pystr) :
  k ∉ keys ->
  table_of (patterns (tally_present f keys ctx t)) f !! k
  = table_of (patterns t) f !! k.
Proof.
  revert t. induction keys as [|key keys IH]; intros t H; [reflexivity|].
  apply not_elem_of_cons in H as [Hk Hks].
  rewrite tally_present_cons, IH by exact Hks.
  destruct (contains key ctx); [|reflexivity].
  rewrite table_of_tally. destruct (decide (f = f)); [|contradiction].
  apply lookup_insert_ne. congruence.
Qed.

Lemma tally_present_keys (f : string) (keys : list pystr) (ctx : pystr)
    (t : tallies) (k : pystr) :
  is_Some (table_of (patterns (tally_present f keys ctx t)) f !! k) ->
  is_Some (table_of (patterns t) f !! k) \/ k ∈ keys.
Proof.
  destruct (decide (k ∈ keys)) as [Hin|Hnot]; [auto|].
  rewrite tally_present_notin by exact Hnot. auto.
Qed.

Lemma tally_present_bound (f : string) (keys : list pystr) (ctx : pystr)
    (t : tallies) (k : pystr) :
  NoDup keys ->
  (default O (table_of (patterns (tally_present f keys ctx t)) f !! k)
   <= S (default O (table_of (patterns t) f !! k)))%nat.
Proof.
  revert t. induction keys as [|key keys IH]; intros t Hnd; [simpl; lia|].
  apply NoDup_cons in Hnd as [Hkey Hnd].
  rewrite tally_present_cons.
  destruct (decide (k = key)) as [->|Hne].
  - rewrite tally_present_notin by exact Hkey.
    destruct (contains key ctx); [|lia].
    rewrite table_of_tally. destruct (decide (f = f)); [|contradiction].
    rewrite lookup_insert_eq. simpl. lia.
  - etransitivity; [apply IH, Hnd|].
    destruct (contains key ctx); [|lia].
    rewrite table_of_tally. destruct (decide (f = f)); [|contradiction].
    rewrite lookup_insert_ne by congruence. lia.
Qed.

Lemma table_total_bump (k : pystr) (m : gmap pystr nat) :
  table_total (<[k := S (default O (m !! k))]> m) = S (table_total m).
Proof.
  unfold table_total.
  destruct (m !! k) as [v|] eqn:E; simpl.
  - rewrite <- (insert_delete_eq m k (S v)).
    rewrite map_fold_insert_L; [|intros; lia|apply lookup_delete_eq].
    rewrite (map_fold_delete_L _ _ k v m); [lia|intros; lia|exact E].
  - rewrite map_fold_insert_L; [lia|intros; lia|exact E].
Qed.

Lemma project_prefixes_nodup : NoDup project_prefixes.
Proof.
  apply (bool_decide_eq_true_1 (NoDup project_prefixes)). vm_compute. reflexivity.
Qed.

Lemma count_if_lookup (b : bool) (f g : string) (c : gmap string nat) :
  default O (count_if b f c !! g)
  = ((if b && bool_decide (f = g) then 1 else 0) + default O (c !! g))%nat.
Proof.
  unfold count_if. destruct b; [|reflexivity]. simpl.
  rewrite lookup_insert. destruct (decide (f = g)) as [->|Hne].
  - rewrite bool_decide_eq_true_2 by reflexivity. reflexivity.
  - rewrite bool_decide_eq_false_2 by exact Hne. reflexivity.
Qed.

Lemma spans_fold_frame (raw_text : pystr) (matches : list (nat * nat))
    (t : tallies) :
  let t' :=
    fold_left
      (fun t '(m_start, m_end) =>
         tally_present "invoicedTotal" total_keywords
           (slice (m_start - 30)
              (Nat.min (length raw_text) (m_end + 30)) raw_text) t)
      matches t in
  (forall g, is_Some (patterns t !! g) -> is_Some (patterns t' !! g))
  /\ (forall g, g <> "invoicedTotal" ->
                table_of (patterns t') g = table_of (patterns t) g)
  /\ (forall k, is_Some (table_of (patterns t') "invoicedTotal" !! k) ->
                is_Some (table_of (patterns t) "invoicedTotal" !! k)
                \/ k ∈ total_keywords).
Proof.
  revert t. induction matches as [|[a b] ms IH]; intros t; cbn [fold_left].
  - split; [auto|]. split; [reflexivity|auto].
  - specialize (IH (tally_present "invoicedTotal" total_keywords
                      (slice (a - 30) (Nat.min (length raw_text) (b + 30)) raw_text) t)).
    cbv zeta in IH. destruct IH as (F & O & K). cbv zeta.
    split; [intros g Hg; apply F, tally_present_fields, Hg|].
    split.
    + intros g Hg. rewrite O by exact Hg. apply tally_present_other. congruence.
    + intros k Hk. destruct (K k Hk) as [H|H]; [|auto].
      apply tally_present_keys in H. tauto.
Qed.

Section Tables.

Variable finditer_spans : pystr -> pystr -> option (list (nat * nat)).

(** One turn of the loop keeps the tallies in order. *)
Lemma analyze_entry_ok (entry : FeedbackEntry) (t t' : tallies) :
  tallies_ok t -> analyze_entry finditer_spans entry t = Some t' -> tallies_ok t'.
Proof.
  intros (HF & HN & HP & HT & HB & HC) H.
  pose proof (analyze_entry_count finditer_spans entry t t' H) as Hcount.
  unfold analyze_entry in H. fold (raw_text_of entry) in H.
  set (raw := raw_text_of entry) in *.
  set (t1 := learn_project_name entry raw t) in *.
  (* the project name *)
  assert ((forall g, is_Some (patterns t !! g) -> is_Some (patterns t1 !! g))
          /\ (forall g, g <> "projectName" ->
                        table_of (patterns t1) g = table_of (patterns t) g)
          /\ (forall k, is_Some (table_of (patterns t1) "projectName" !! k) ->
                        is_Some (table_of (patterns t) "projectName" !! k)
                        \/ k ∈ project_prefixes)
          /\ (forall k,
                (default O (table_of (patterns t1) "projectName" !! k)
                 <= (if flagged entry "projectName" then 1 else 0)
                    + default O (table_of (patterns t) "projectName" !! k))%nat))
    as (F1 & O1 & K1 & B1).
  { unfold t1, learn_project_name.
    destruct (flagged entry "projectName");
      [|split; [auto|split; [reflexivity|split; [auto|intros; lia]]]].
    destruct (contains _ raw);
      [|split; [auto|split; [reflexivity|split; [auto|intros; simpl; lia]]]].
    set (tc := count_correction "projectName" t).
    change (patterns t) with (patterns tc).
    split; [intros g Hg; apply tally_present_fields, Hg|].
    split; [intros g Hg; apply tally_present_other; congruence|].
    split; [intros k Hk; apply tally_present_keys in Hk; exact Hk|].
    intros k. apply (tally_present_bound "projectName" project_prefixes _
                       tc k project_prefixes_nodup). }
  destruct (learn_invoiced_total finditer_spans entry raw t1) as [t2|] eqn:E2;
    [|discriminate].
  injection H as <-.
  (* the total *)
  assert ((forall g, is_Some (patterns t1 !! g) -> is_Some (patterns t2 !! g))
          /\ (forall g, g <> "invoicedTotal" ->
                        table_of (patterns t2) g = table_of (patterns t1) g)
          /\ (forall k, is_Some (table_of (patterns t2) "invoicedTotal" !! k) ->
                        is_Some (table_of (patterns t1) "invoicedTotal" !! k)
                        \/ k ∈ total_keywords))
    as (F2 & O2 & K2).
  { unfold learn_invoiced_total in E2.
    destruct (flagged entry "invoicedTotal");
      [|injection E2 as <-; split; [auto|split; [reflexivity|auto]]].
    destruct (corrected_get entry "invoicedTotal");
      [injection E2 as <-; split; [auto|split; [reflexivity|auto]]|].
    destruct (finditer_spans _ raw) as [matches|]; [|discriminate].
    injection E2 as <-.
    exact (spans_fold_frame raw matches (count_correction "invoicedTotal" t1)). }
  (* the currency *)
  assert ((forall g, is_Some (patterns t2 !! g) ->
                     is_Some (patterns (learn_currency entry t2) !! g))
          /\ (forall g, g <> "currency" ->
                        table_of (patterns (learn_currency entry t2)) g
                        = table_of (patterns t2) g)
          /\ table_total (table_of (patterns (learn_currency entry t2)) "currency")
             = ((if flagged entry "currency" then 1 else 0)
                + table_total (table_of (patterns t2) "currency"))%nat)
    as (F3 & O3 & S3).
  { unfold learn_currency.
    destruct (flagged entry "currency"); [|split; [auto|split; reflexivity]].
    set (tc := count_correction "currency" t2).
    change (patterns t2) with (patterns tc).
    split; [intros g Hg; apply tally_fields, Hg|].
    split.
    - intros g Hg. rewrite table_of_tally.
      destruct (decide ("currency" = g)); [congruence|reflexivity].
    - rewrite table_of_tally. destruct (decide ("currency" = "currency")); [|contradiction].
      apply table_total_bump. }
  split; [intros g Hg; apply F3, F2, F1, HF, Hg|].
  split; [rewrite O3, O2, O1 by discriminate; exact HN|].
  split.
  { intros k. rewrite O3, O2 by discriminate. intros Hk.
    destruct (K1 k Hk) as [Hk'|Hk']; [apply HP, Hk'|exact Hk']. }
  split.
  { intros k. rewrite O3 by discriminate. intros Hk.
    destruct (K2 k Hk) as [Hk'|Hk']; [|exact Hk'].
    rewrite O1 in Hk' by discriminate. apply HT, Hk'. }
  split.
  { intros k. rewrite O3, O2 by discriminate. rewrite Hcount.
    rewrite !count_if_lookup. simpl. rewrite !andb_false_r, andb_true_r. simpl.
    specialize (B1 k). specialize (HB k). lia. }
  rewrite S3, O2, O1 by discriminate. rewrite Hcount, HC.
  rewrite !count_if_lookup. simpl. rewrite !andb_false_r, andb_true_r. lia.
Qed.

Lemma analyze_loop_ok (feedback : list FeedbackEntry) (t t' : tallies) :
  tallies_ok t -> analyze_loop finditer_spans feedback t = Some t' -> tallies_ok t'.
Proof.
  revert t. induction feedback as [|e rest IH]; intros t Ht H; simpl in H.
  - injection H as <-. exact Ht.
  - destruct (analyze_entry finditer_spans e t) as [t1|] eqn:E; [|discriminate].
    apply (IH t1); [apply (analyze_entry_ok e t t1 Ht E)|exact H].
Qed.

Lemma initial_tallies_ok : tallies_ok initial_tallies.
Proof.
  split.
  { intros g Hg. repeat (apply elem_of_cons in Hg as [->|Hg]);
      [eexists; reflexivity..|inversion Hg]. }
  split; [reflexivity|].
  split; [intros k [x Hx]; vm_compute in Hx; discriminate|].
  split; [intros k [x Hx]; vm_compute in Hx; discriminate|].
  split; [intros k; vm_compute; lia|reflexivity].
Qed.

(** X9.  Whatever the feedback, the analysis returns a table for each of
    the four fields; the table of the invoice number is empty; the keys of
    the table of the project name are among the seven prefixes and those of
    the table of the total among the six keywords; no prefix is counted more
    often than project names were corrected; and the frequencies of the
    currency table add up to the number of currency corrections. *)
Theorem analysis_tables_are_bounded (feedback : list FeedbackEntry) (a : analysis) :
  analyze_corrections finditer_spans feedback = Some a ->
  (exists names totals currencies,
     a_patterns a !! "projectName" = Some names
     /\ a_patterns a !! "invoicedTotal" = Some totals
     /\ a_patterns a !! "currency" = Some currencies
     /\ a_patterns a !! "invoiceNumber" = Some ∅
     /\ (forall key, is_Some (names !! key) -> key ∈ project_prefixes)
     /\ (forall key, is_Some (totals !! key) -> key ∈ total_keywords)
     /\ (forall key, (default O (names !! key)
                      <= flagged_entries "projectName" feedback)%nat)
     /\ table_total currencies = flagged_entries "currency" feedback)
  /\ total_feedback a = length feedback.
Proof.
  intros H.
  destruct (corrections_count_spec finditer_spans feedback a H)
    as (C1 & _ & C3 & _).
  unfold analyze_corrections in H.
  destruct (analyze_loop finditer_spans feedback initial_tallies) as [t|] eqn:E;
    [|discriminate].
  injection H as <-. simpl in *. split; [|reflexivity].
  destruct (analyze_loop_ok feedback _ t initial_tallies_ok E)
    as (HF & HN & HP & HT & HB & HC).
  unfold table_of in *.
  destruct (HF "projectName") as [names En]; [set_solver|].
  destruct (HF "invoicedTotal") as [totals Et]; [set_solver|].
  destruct (HF "currency") as [currencies Ec]; [set_solver|].
  destruct (HF "invoiceNumber") as [numbers Ei]; [set_solver|].
  rewrite En, Et, Ec, Ei, ?C1, ?C3 in *. simpl in *. subst numbers.
  exists names, totals, currencies. repeat split; auto.
Qed.

End Tables.

(** ** Properties of the endpoint *)

Lemma pages_text_app (text : pystr) (pages : list (option pystr)) :
  pages_text text pages = text ++ pages_text [] pages.
Proof.
  revert text. induction pages as [|[[|c page]|] rest IH]; intros text; simpl.
  - rewrite app_nil_r. reflexivity.
  - apply IH.
  - rewrite IH, (IH (c :: page ++ [10])). rewrite <- !app_assoc. reflexivity.
  - apply IH.
Qed.

Lemma pages_text_blank (pages : list (option pystr)) :
  forallb is_space (pages_text [] pages) = forallb blank_page pages.
Proof.
  induction pages as [|[[|c page]|] rest IH]; simpl; try exact IH; [reflexivity|].
  rewrite pages_text_app. unfold blank_page at 1. simpl.
  rewrite !forallb_app, IH. simpl. rewrite andb_true_r, andb_assoc. reflexivity.
Qed.

Lemma pages_text_end (pages : list (option pystr)) :
  pages_text [] pages = [] \/
  (last (pages_text [] pages) = Some 10%N /\ (2 <= length (pages_text [] pages))%nat).
Proof.
  induction pages as [|[[|c page]|] rest IH]; simpl; try exact IH; [left; reflexivity|].
  right. rewrite pages_text_app. simpl.
  destruct IH as [->|[IH1 IH2]].
  - rewrite app_nil_r, last_cons, last_snoc, length_app. simpl. split; [reflexivity|lia].
  - rewrite !app_comm_cons, last_app, IH1, !length_app. simpl. split; [reflexivity|lia].
Qed.

Lemma project_name_not_empty (text : pystr) :
  projectName (extract_with_patterns text) <> [].
Proof.
  rewrite projectName_eq.
  destruct (project_loop project_patterns text) as [|c name]; [|discriminate].
  destruct (extract_invoice_number text); simpl; [vm_compute|]; discriminate.
Qed.

(** *** Stripped fields of the record *)

Lemma client_loop_stripped (ps : list regex) (text : pystr) :
  strip (client_loop ps text) = client_loop ps text.
Proof.
  induction ps as [|p ps IH]; [reflexivity|].
  rewrite client_loop_cons.
  destruct (re_search true p text) as [m|]; [|exact IH].
  destruct ((3 <? length (clean_client (group 1 m)))%nat
            && (length (clean_client (group 1 m)) <? 200)%nat); [|exact IH].
  unfold clean_client. apply strip_strip.
Qed.

Lemma project_loop_stripped (ps : list regex) (text : pystr) :
  strip (project_loop ps text) = project_loop ps text.
Proof.
  induction ps as [|p ps IH]; simpl; [reflexivity|].
  destruct (re_search true p text) as [m|]; [|exact IH].
  destruct ((5 <? length (strip (group 1 m)))%nat
            && (length (strip (group 1 m)) <? 100)%nat); [|exact IH].
  apply strip_strip.
Qed.

(** X16.  The invoice number, the project name and the client of the record
    are stripped: [strip] leaves each of them as it is, so that none begins
    or ends with white space, whatever the text. *)
Theorem names_are_stripped (text : pystr) :
  let extracted := extract_with_patterns text in
  strip (invoiceNumber extracted) = invoiceNumber extracted
  /\ strip (projectName extracted) = projectName extracted
  /\ strip (client extracted) = client extracted.
Proof.
  cbv zeta.
  assert (Hn : strip (extract_invoice_number text) = extract_invoice_number text).
  { unfold extract_invoice_number.
    destruct (first_search invoice_num_patterns text); [apply strip_strip|reflexivity]. }
  split; [exact Hn|]. split; [|apply client_loop_stripped].
  rewrite projectName_eq.
  destruct (project_loop project_patterns text) as [|c name] eqn:E;
    [|rewrite <- E; apply project_loop_stripped].
  destruct (extract_invoice_number text); [vm_compute; reflexivity|exact Hn].
Qed.

(** *** The client *)


















(** **** The leading characters *)










Lemma drop_while_weaker (f g : N -> bool) (s : pystr) :
  (forall c, f c = true -> g c = true) ->
  drop_while g (drop_while f s) = drop_while g s.
Proof.
  intros H. induction s as [|c s IH]; [reflexivity|]. simpl.
  destruct (f c) eqn:E; [rewrite (H c E); exact IH|reflexivity].
Qed.

Lemma drop_while_idem (f : N -> bool) (s : pystr) :
  drop_while f (drop_while f s) = drop_while f s.
Proof. apply drop_while_weaker. auto. Qed.






(** **** The clean-up *)








(** **** The patterns *)




(** **** The loop *)





Section EndpointProperties.

Variable b64decode : pystr -> pystr + list N.
Variable page_texts : list N -> pystr + list (option pystr).


(** X11.  For a request that is decoded to a document whose pages are read,
    the endpoint answers 400 [No text extracted from PDF] exactly when every
    page is without text or has white space only; otherwise it answers
    with success. *)
Theorem no_text_answer_iff_pages_are_blank (encoded pdf_bytes : pystr)
    (pages : list (option pystr)) :
  encoded <> [] ->
  b64decode encoded = inr pdf_bytes ->
  page_texts pdf_bytes = inr pages ->
  (extract_invoice b64decode page_texts (Some encoded)
   = ErrorResponse 400 (py "No text extracted from PDF")
   <-> forallb blank_page pages = true)
  /\ (forallb blank_page pages = false ->
      exists data raw n,
        extract_invoice b64decode page_texts (Some encoded)
        = SuccessResponse data raw n).
Proof.
  intros Hne Hd Hp. unfold extract_invoice.
  destruct encoded as [|c encoded]; [contradiction|].
  rewrite Hd, Hp. rewrite <- pages_text_blank.
  change (py "") with (@nil N).
  destruct (strip (pages_text [] pages)) as [|x rest] eqn:E.
  - apply strip_nil_iff in E. rewrite E. split; [tauto|discriminate].
  - assert (forallb is_space (pages_text [] pages) = false) as ->.
    { destruct (forallb is_space (pages_text [] pages)) eqn:F; [|reflexivity].
      apply strip_nil_iff in F. congruence. }
    split; [split; discriminate|]. intros _. eauto.
Qed.

(** X12.  A success answer is about a text of at least two characters that
    ends with a line feed and has a character that is no white space; the
    preview is its first 2000 characters, so it has [min 2000 n] characters
    for the reported length [n]; the data are those of the extractor on the
    whole text, with a project name that is not empty.  An error answer has
    status 400 or 500. *)
Theorem success_answer_shape (pdf_base64 : option pystr) :
  match extract_invoice b64decode page_texts pdf_base64 with
  | SuccessResponse data raw n =>
      exists text,
        data = extract_with_patterns text
        /\ raw = take 2000 text
        /\ n = length text
        /\ length raw = Nat.min 2000 n
        /\ (2 <= n)%nat
        /\ last text = Some 10%N
        /\ (exists c, c ∈ text /\ is_space c = false)
        /\ projectName data <> []
  | ErrorResponse status _ => status = 400%nat \/ status = 500%nat
  end.
Proof.
  unfold extract_invoice.
  destruct pdf_base64 as [[|c encoded]|]; [left; reflexivity| |left; reflexivity].
  destruct (b64decode (c :: encoded)); [right; reflexivity|].
  destruct (page_texts _) as [|pages]; [right; reflexivity|].
  change (py "") with (@nil N).
  destruct (strip (pages_text [] pages)) as [|x rest] eqn:E; [left; reflexivity|].
  exists (pages_text [] pages).
  assert (Hs : forallb is_space (pages_text [] pages) = false).
  { destruct (forallb is_space (pages_text [] pages)) eqn:F; [|reflexivity].
    apply strip_nil_iff in F. congruence. }
  destruct (pages_text_end pages) as [H|[H1 H2]];
    [rewrite H in Hs; discriminate|].
  split; [reflexivity|]. split; [reflexivity|]. split; [reflexivity|].
  split; [rewrite length_take; reflexivity|].
  split; [exact H2|]. split; [exact H1|].
  split; [|apply project_name_not_empty].
  clear -Hs. induction (pages_text [] pages) as [|c text IH]; [discriminate|].
  simpl in Hs. destruct (is_space c) eqn:Ec.
  - destruct (IH Hs) as (x & Hx & Hsp). exists x. split; [right; exact Hx|exact Hsp].
  - exists c. split; [left|exact Ec].
Qed.

End EndpointProperties.

(** A request whose two pages have no text and blanks only. *)
Lemma no_text_answer_iff_pages_are_blank_witness :
  py "JVBERi0x" <> []
  /\ decode_any (py "JVBERi0x") = inr (py "JVBERi0x")
  /\ pages_are [None; Some (py "  ")] (py "JVBERi0x") = inr [None; Some (py "  ")]
  /\ (extract_invoice decode_any (pages_are [None; Some (py "  ")])
        (Some (py "JVBERi0x"))
      = ErrorResponse 400 (py "No text extracted from PDF")
      <-> forallb blank_page [None; Some (py "  ")] = true).
Proof.
  split; [vm_compute; discriminate|].
  split; [reflexivity|]. split; [reflexivity|].
  apply (proj1 (no_text_answer_iff_pages_are_blank decode_any
                  (pages_are [None; Some (py "  ")]) (py "JVBERi0x")
                  (py "JVBERi0x") [None; Some (py "  ")]
                  ltac:(vm_compute; discriminate) eq_refl eq_refl)).
Defined.

(** ** Properties of the pattern synthesis *)

Lemma insert_by_count_perm (x : pystr * nat) (l : list (pystr * nat)) :
  Permutation (insert_by_count x l) (x :: l).
Proof.
  induction l as [|y l IH]; simpl; [reflexivity|].
  destruct (snd x <? snd y)%nat; [|reflexivity].
  rewrite IH. apply perm_swap.
Qed.

Lemma sorted_by_count_perm (items : list (pystr * nat)) :
  Permutation (sorted_by_count items) items.
Proof.
  induction items as [|x items IH]; simpl; [reflexivity|].
  rewrite insert_by_count_perm, IH. reflexivity.
Qed.

Lemma insert_by_count_sorted (x : pystr * nat) (l : list (pystr * nat)) :
  StronglySorted by_count_descending l ->
  StronglySorted by_count_descending (insert_by_count x l).
Proof.
  induction l as [|y l IH]; intros H; simpl.
  - constructor; constructor.
  - inversion H as [|? ? Hl Hy]; subst.
    destruct (snd x <? snd y)%nat eqn:E.
    + apply Nat.ltb_lt in E. constructor; [apply IH, Hl|].
      rewrite insert_by_count_perm. constructor; [|exact Hy].
      unfold by_count_descending. lia.
    + apply Nat.ltb_ge in E. constructor; [exact H|].
      constructor; [exact E|].
      eapply Forall_impl; [exact Hy|]. unfold by_count_descending.
      intros z Hz. lia.
Qed.

Lemma sorted_by_count_sorted (items : list (pystr * nat)) :
  StronglySorted by_count_descending (sorted_by_count items).
Proof.
  induction items as [|x items IH]; simpl; [constructor|].
  apply insert_by_count_sorted, IH.
Qed.

Lemma take_most_frequent (n : nat) (items : list (pystr * nat)) :
  most_frequent n items (take n (sorted_by_count items)).
Proof.
  exists (drop n (sorted_by_count items)).
  pose proof (sorted_by_count_sorted items) as Hs.
  rewrite <- (take_drop n (sorted_by_count items)) in Hs.
  split; [rewrite take_drop; symmetry; apply sorted_by_count_perm|].
  split; [rewrite length_take, (Permutation_length (sorted_by_count_perm items));
          reflexivity|].
  split; [apply (StronglySorted_app_1_l _ _ _ Hs)|].
  intros x y Hx Hy. apply (StronglySorted_app_1_elem_of _ _ _ x y Hs Hx Hy).
Qed.

Lemma insert_by_count_filter (n : nat) (x : pystr * nat) (l : list (pystr * nat)) :
  filter (fun y => snd y = n) (insert_by_count x l)
  = filter (fun y => snd y = n) (x :: l).
Proof.
  induction l as [|y l IH]; simpl; [reflexivity|].
  destruct (snd x <? snd y)%nat eqn:E; [|reflexivity].
  apply Nat.ltb_lt in E.
  rewrite (filter_cons _ y), IH, !filter_cons.
  destruct (decide (snd x = n)), (decide (snd y = n)); try reflexivity. lia.
Qed.

(** X13.  From each of the two keyword tables [improve_patterns] makes
    patterns for five of its most frequent keywords, or for all when there
    are fewer, the most frequent first: every keyword that is left out is
    counted no more often than any that is kept.  A table that is missing
    or empty gives no pattern. *)
Theorem improve_patterns_keeps_the_most_frequent
    (tables : gmap string (list (pystr * nat))) :
  (exists kept,
     most_frequent 5 (default [] (tables !! "projectName")) kept
     /\ improved_projectName (improve_patterns tables)
        = map (fun item => project_template (fst item)) kept)
  /\ (exists kept,
        most_frequent 5 (default [] (tables !! "invoicedTotal")) kept
        /\ improved_invoicedTotal (improve_patterns tables)
           = map (fun item => total_template (fst item)) kept).
Proof.
  split.
  - exists (take 5 (sorted_by_count (default [] (tables !! "projectName")))).
    split; [apply take_most_frequent|].
    unfold improve_patterns. cbn [improved_projectName].
    apply map_ext. intros [prefix count]. reflexivity.
  - exists (take 5 (sorted_by_count (default [] (tables !! "invoicedTotal")))).
    split; [apply take_most_frequent|].
    unfold improve_patterns. cbn [improved_invoicedTotal].
    apply map_ext. intros [keyword count]. reflexivity.
Qed.

(** X14.  The sort of [improve_patterns] keeps keywords of equal count in
    the order of the dictionary: for every count, the items with that count
    come in the sorted list as they come in the table. *)
Theorem equal_counts_keep_their_order (items : list (pystr * nat)) (n : nat) :
  filter (fun item => snd item = n) (sorted_by_count items)
  = filter (fun item => snd item = n) items.
Proof.
  induction items as [|x items IH]; [reflexivity|].
  change (sorted_by_count (x :: items))
    with (insert_by_count x (sorted_by_count items)).
  rewrite insert_by_count_filter, !filter_cons, IH. reflexivity.
Qed.

Lemma templates_compile :
  Forall (fun key => is_Some (re_compile (project_template key))) project_prefixes
  /\ Forall (fun key => is_Some (re_compile (total_template key))) total_keywords.
Proof.
  split; repeat constructor; vm_compute; eexists; reflexivity.
Qed.

Lemma most_frequent_subset (n : nat) (items kept : list (pystr * nat))
    (x : pystr * nat) :
  most_frequent n items kept -> x ∈ kept -> x ∈ items.
Proof.
  intros (dropped & Hp & _) Hx. rewrite Hp. apply elem_of_app. left. exact Hx.
Qed.

Section Training.

Variable finditer_spans : pystr -> pystr -> option (list (nat * nat)).

(** X15.  The two steps of [main] together: when the analysis returns and
    the two keyword tables are passed on, every pattern that
    [improve_patterns] makes is the template of one of the seven prefixes
    or of one of the six keywords of the analysis, and it is a pattern that
    [re] accepts, although the keyword is put in without [re.escape]. *)
Theorem learned_patterns_compile (feedback : list FeedbackEntry) (a : analysis)
    (tables : gmap string (list (pystr * nat))) :
  analyze_corrections finditer_spans feedback = Some a ->
  items_of (table_of (a_patterns a) "projectName")
    (default [] (tables !! "projectName")) ->
  items_of (table_of (a_patterns a) "invoicedTotal")
    (default [] (tables !! "invoicedTotal")) ->
  (forall pattern, pattern ∈ improved_projectName (improve_patterns tables) ->
     is_Some (re_compile pattern)
     /\ exists prefix, prefix ∈ project_prefixes
                       /\ pattern = project_template prefix)
  /\ (forall pattern, pattern ∈ improved_invoicedTotal (improve_patterns tables) ->
        is_Some (re_compile pattern)
        /\ exists keyword, keyword ∈ total_keywords
                           /\ pattern = total_template keyword).
Proof.
  intros H Hp Ht.
  unfold analyze_corrections in H.
  destruct (analyze_loop finditer_spans feedback initial_tallies) as [t|] eqn:E;
    [|discriminate].
  injection H as <-. simpl in Hp, Ht.
  destruct (analyze_loop_ok finditer_spans feedback _ t initial_tallies_ok E)
    as (_ & _ & HP & HT & _).
  destruct templates_compile as [Cp Ct].
  rewrite Forall_forall in Cp, Ct.
  split; intros pattern Hin; unfold improve_patterns in Hin;
    cbn [improved_projectName improved_invoicedTotal] in Hin;
    apply list_elem_of_fmap in Hin as ([key count] & -> & Hin);
    apply (most_frequent_subset 5 _ _ _ (take_most_frequent 5 _)) in Hin.
  - assert (key ∈ project_prefixes) as Hk
      by (apply HP; exists count; apply Hp, Hin).
    split; [apply Cp, Hk|exists key; auto].
  - assert (key ∈ total_keywords) as Hk
      by (apply HT; exists count; apply Ht, Hin).
    split; [apply Ct, Hk|exists key; auto].
Qed.

End Training.

(** The analysis of the two entries of the examples, with the spans of the
    matcher. *)
Lemma analysis_tables_are_bounded_witness :
  analyze_corrections compiled_spans [total_entry; project_entry]
  = Some example_analysis
  /\ a_patterns example_analysis !! "invoiceNumber" = Some ∅
  /\ total_feedback example_analysis = 2%nat.
Proof.
  split; [vm_compute; reflexivity|].
  destruct (analysis_tables_are_bounded compiled_spans
              [total_entry; project_entry] example_analysis
              ltac:(vm_compute; reflexivity))
    as ((names & totals & currencies & _ & _ & _ & H & _) & Hn).
  split; [exact H|exact Hn].
Defined.

Lemma learned_patterns_compile_witness :
  analyze_corrections compiled_spans [total_entry; project_entry]
  = Some example_analysis
  /\ items_of (table_of (a_patterns example_analysis) "projectName")
       (default [] (example_tables !! "projectName"))
  /\ items_of (table_of (a_patterns example_analysis) "invoicedTotal")
       (default [] (example_tables !! "invoicedTotal"))
  /\ forall pattern,
       pattern ∈ improved_invoicedTotal (improve_patterns example_tables) ->
       is_Some (re_compile pattern).
Proof.
  assert (H1 : items_of (table_of (a_patterns example_analysis) "projectName")
                 (default [] (example_tables !! "projectName"))).
  { intros key count Hin. vm_compute in Hin.
    apply list_elem_of_singleton in Hin as [= -> ->]. vm_compute. reflexivity. }
  assert (H2 : items_of (table_of (a_patterns example_analysis) "invoicedTotal")
                 (default [] (example_tables !! "invoicedTotal"))).
  { intros key count Hin. vm_compute in Hin.
    apply elem_of_cons in Hin as [[= -> ->]|Hin]; [vm_compute; reflexivity|].
    apply list_elem_of_singleton in Hin as [= -> ->]. vm_compute. reflexivity. }
  split; [vm_compute; reflexivity|]. split; [exact H1|]. split; [exact H2|].
  intros pattern Hin.
  apply (proj2 (learned_patterns_compile compiled_spans
                  [total_entry; project_entry] example_analysis example_tables
                  ltac:(vm_compute; reflexivity) H1 H2) pattern Hin).
Defined.
